(** * PDF Numbering Tool: a shallow embedding of [numbering_tool.py]

    The development follows the layout of the script:

    - [Py]        the Python built-ins the script calls ([str.strip],
                  [str.upper], [str.isdigit], [int], [str], [str.zfill], ...);
    - [Config]    [load_config];
    - [Selector]  [extract_prefix_sort_key], [sorted] and
                  [find_all_pdfs_with_selection];
    - [Overlay]   [format_number] and [create_number_overlay];
    - [Driver]    [process_pdf] and [main].

    Modelling conventions.  Python [int] is [Z].  Python [str] is [string];
    the text handled by the script (file names, configuration lines, console
    input) is taken to be ASCII, so that [str.isdigit], [str.isalpha],
    [str.lower], [str.upper] and [str.isspace] are the ASCII tables below.
    Python's own tables are wider (a superscript digit passes
    [str.isdigit], a no-break space is stripped), so a statement that
    follows a whole run of the script from what it reads names this
    assumption as [plain_input]; statements about one function are phrased
    through the built-in of [Py] they depend on.
    A [dict] with string keys is a [gmap string _].  Canvas coordinates are
    rationals ([Q]) where reportlab computes with floats.  Effects (console
    input, the log, the output folder) are threaded through an explicit
    [world]; exceptions and [sys.exit] are outcomes of a computation. *)

From Stdlib Require Import ZArith QArith String Ascii List.
From Stdlib Require Import DecimalString DecimalPos.
From Stdlib Require Import Sorted Permutation Lia.
From stdpp Require Import gmap strings list fin_maps sorting.

Open Scope string_scope.
Open Scope list_scope.
Open Scope Z_scope.

(* ===================================================================== *)
(** * Python built-ins *)
(* ===================================================================== *)

Module Py.

(** Code point of a character. *)
Definition ord (c : ascii) : Z := Z.of_N (N_of_ascii c).

(** [str.isspace] on one ASCII character: TAB, LF, VT, FF, CR, the four
    separators FS GS RS US, and SPACE. *)
Definition isspace (c : ascii) : bool :=
  ((9 <=? ord c) && (ord c <=? 13))
  || ((28 <=? ord c) && (ord c <=? 31))
  || (ord c =? 32).

(** [str.isdigit] on one ASCII character. *)
Definition isdigit_char (c : ascii) : bool :=
  (48 <=? ord c) && (ord c <=? 57).

Definition isupper_char (c : ascii) : bool :=
  (65 <=? ord c) && (ord c <=? 90).

Definition islower_char (c : ascii) : bool :=
  (97 <=? ord c) && (ord c <=? 122).

(** [str.isalpha] on one ASCII character. *)
Definition isalpha_char (c : ascii) : bool :=
  isupper_char c || islower_char c.

Definition chr (n : Z) : ascii := ascii_of_N (Z.to_N n).

Definition lower_char (c : ascii) : ascii :=
  if isupper_char c then chr (ord c + 32) else c.

Definition upper_char (c : ascii) : ascii :=
  if islower_char c then chr (ord c - 32) else c.

Fixpoint map_chars (f : ascii -> ascii) (s : string) : string :=
  match s with
  | EmptyString => EmptyString
  | String c r => String (f c) (map_chars f r)
  end.

(** [s.lower()] and [s.upper()]. *)
Definition lower (s : string) : string := map_chars lower_char s.
Definition upper (s : string) : string := map_chars upper_char s.

Fixpoint all_chars (p : ascii -> bool) (s : string) : bool :=
  match s with
  | EmptyString => true
  | String c r => p c && all_chars p r
  end.

(** [s.isdigit()]: every character is a digit and there is at least one. *)
Definition isdigit (s : string) : bool :=
  match s with
  | EmptyString => false
  | _ => all_chars isdigit_char s
  end.

(** [s.lstrip()], [s.rstrip()], [s.strip()]. *)
Fixpoint lstrip (s : string) : string :=
  match s with
  | EmptyString => EmptyString
  | String c r => if isspace c then lstrip r else s
  end.

Fixpoint rstrip (s : string) : string :=
  match s with
  | EmptyString => EmptyString
  | String c r =>
      match rstrip r with
      | EmptyString => if isspace c then EmptyString else String c EmptyString
      | r' => String c r'
      end
  end.

Definition strip (s : string) : string := rstrip (lstrip s).

(** [s.startswith(c)] and [c in s] for a one-character [c]. *)
Definition startswith_char (c : ascii) (s : string) : bool :=
  match s with
  | String d _ => Ascii.eqb d c
  | EmptyString => false
  end.

Fixpoint contains_char (c : ascii) (s : string) : bool :=
  match s with
  | EmptyString => false
  | String d r => Ascii.eqb d c || contains_char c r
  end.

(** [s.split(c, 1)] for a one-character separator: the text before the first
    [c] and, when [c] occurs, the text after it. *)
Fixpoint split1 (c : ascii) (s : string) : string * option string :=
  match s with
  | EmptyString => (EmptyString, None)
  | String d r =>
      if Ascii.eqb d c then (EmptyString, Some r)
      else let '(a, b) := split1 c r in (String d a, b)
  end.

(** [s.split(c)[0]]: the text before the first [c], all of [s] without. *)
Definition split_head (c : ascii) (s : string) : string := fst (split1 c s).

(** [s.rfind(c)] as an option. *)
Fixpoint rfind (c : ascii) (s : string) : option nat :=
  match s with
  | EmptyString => None
  | String d r =>
      match rfind c r with
      | Some i => Some (S i)
      | None => if Ascii.eqb d c then Some O else None
      end
  end.

(** The digits of [int(s)]: decimal digits, single underscores allowed
    between two digits.  [prev] tells whether the previous character was a
    digit. *)
Fixpoint int_digits (acc : Z) (prev : bool) (s : string) : option Z :=
  match s with
  | EmptyString => if prev then Some acc else None
  | String c r =>
      if isdigit_char c then int_digits (10 * acc + (ord c - 48)) true r
      else if Ascii.eqb c "_" then
        (if prev then int_digits acc false r else None)
      else None
  end.

(** The value of a string of decimal digits, most significant digit first
    (what [int] returns on a string accepted by [isdigit]). *)
Fixpoint digits_value (acc : Z) (s : string) : Z :=
  match s with
  | EmptyString => acc
  | String c r => digits_value (10 * acc + (ord c - 48)) r
  end.

(** [int(s)]: [None] stands for [ValueError].  Surrounding white space is
    dropped, one sign is allowed. *)
Definition int (s : string) : option Z :=
  match strip s with
  | String "+" r => int_digits 0 false r
  | String "-" r => Z.opp <$> int_digits 0 false r
  | t => int_digits 0 false t
  end.

(** [str(n)] for an integer. *)
Definition str (n : Z) : string := NilEmpty.string_of_int (Z.to_int n).

Definition zeros (n : nat) : string := string_of_list_ascii (repeat "0"%char n).

Definition len (s : string) : Z := Z.of_nat (String.length s).

(** [s.zfill(width)]: pad on the left with zeros up to [width]; a leading
    sign stays in front of the padding; never shortens [s]. *)
Definition zfill (s : string) (width : Z) : string :=
  if width <=? len s then s
  else
    let fill := zeros (Z.to_nat (width - len s)) in
    match s with
    | String c r =>
        if Ascii.eqb c "+" || Ascii.eqb c "-" then String c (fill ++ r)
        else fill ++ s
    | EmptyString => fill
    end.

End Py.

(* ===================================================================== *)
(** * Documents, outcomes and the world the script runs in *)
(* ===================================================================== *)

(** What reportlab's canvas is asked to draw, in call order. *)
Inductive canvas_op :=
  | Rect (x y w h : Q)            (* c.rect(x, y, w, h) *)
  | Circle (cx cy r : Q)          (* c.circle(cx, cy, r) *)
  | DrawString (x y : Q) (t : string).   (* c.drawString(x, y, t) *)

(** A page of an input document: its media box and what the PDF backend does
    when the overlay for this page is rendered and merged ([None]: it works,
    [Some msg]: it raises an exception with that message). *)
Record page := Page {
  page_width : Q;
  page_height : Q;
  overlay_error : option string;
}.

(** What writing the numbered copy of a document runs into. *)
Inductive save_failure :=
  | CannotOpen      (* mkdir or open(..., "wb") raises: nothing is written *)
  | WriteFails.     (* writer.write raises after the file was opened *)

(** An input document as found by [glob]: its file name, what [PdfReader]
    does with it, its pages, and what writing its numbered copy does. *)
Record pdf_file := PdfFile {
  name : string;
  open_error : option string;
  pages : list page;
  save_error : option save_failure;
}.

(** A page handed to [writer.add_page]: the source page with the overlay
    drawn for the two numbers [stamp]. *)
Record merged_page := MergedPage {
  source : page;
  stamp : Z * Z;
  overlay : list canvas_op;
}.

(** A file of the output folder. *)
Inductive out_file :=
  | Written (content : list merged_page)
  | Truncated.

(** Python exceptions the script can meet (all subclasses of [Exception]). *)
Inductive exn :=
  | ValueError
  | TypeError
  | EOFError
  | IndexError
  | KeyError (key : string)
  | BackendError (msg : string)               (* pypdf, reportlab, the OS *)
  | PageError (page_index : Z) (cause : exn). (* Exception("... page i ...: cause") *)

(** How a computation ends: it returns, an exception propagates, or
    [sys.exit(code)] is called. *)
Inductive outcome (A : Type) :=
  | Return (a : A)
  | Raise (e : exn)
  | SysExit (code : Z).
Arguments Return {A} a.
Arguments Raise {A} e.
Arguments SysExit {A} code.

(** What a blocking [input()] call meets. *)
Inductive stdin_event :=
  | Line (s : string)
  | KeyboardInterrupt.

(** Lines of the run log (and of the console): one constructor per message
    of the script that carries information. *)
Inductive event :=
  | EvConfigMissing
  | EvConfigLoaded (config : gmap string Z)
  | EvInputMissing
  | EvNoPdf
  | EvFound (n : nat)
  | EvAutoSelected (file : string)
  | EvListed (idx : Z) (file : string)
  | EvSelectedAll
  | EvSelectedOne (num : Z) (file : string)
  | EvInvalidChoice (choice : string)          (* the warning for an invalid choice *)
  | EvInterrupted
  | EvDefaultMode
  | EvMode (mode : string)
  | EvBadStart
  | EvBaseStart (n : Z)
  | EvProcessing (file out : string) (start_number : Z)
  | EvPageCount (n : nat)
  | EvPage (page_index : Z) (num1_str num2_str : string)
  | EvPageError (page_index : Z) (cause : exn)
  | EvWritten (out first last : string)
  | EvFileDone (out : string)
  | EvFileFailed (file : string) (e : exn)
  | EvSummary (success_count fail_count : Z).

(** Everything outside the script: the lines of [coords.env] ([None] when the
    file is missing), the [*.pdf] files of the input folder in the order
    [glob] lists them ([None] when the folder is missing), what the operator
    types, the output folder, and the log written so far. *)
Record world := World {
  config_file : option (list string);
  input_dir : option (list pdf_file);
  stdin : list stdin_event;
  output_dir : gmap string out_file;
  log : list event;
}.

(** Computations: a state and error monad over [world]. *)
Definition M (A : Type) : Type := world -> outcome A * world.

Definition ret {A} (a : A) : M A := fun w => (Return a, w).

Definition bind {A B} (m : M A) (k : A -> M B) : M B :=
  fun w =>
    match m w with
    | (Return a, w') => k a w'
    | (Raise e, w') => (Raise e, w')
    | (SysExit c, w') => (SysExit c, w')
    end.

Definition raise {A} (e : exn) : M A := fun w => (Raise e, w).
Definition sys_exit {A} (code : Z) : M A := fun w => (SysExit code, w).

Notation "'do' x <- m ; k" := (bind m (fun x => k))
  (at level 10, x pattern, m at level 100, k at level 200).
Notation "m ;; k" := (bind m (fun _ => k))
  (at level 100, k at level 200, right associativity).

Definition set_stdin (l : list stdin_event) (w : world) : world :=
  {| config_file := config_file w; input_dir := input_dir w;
     stdin := l; output_dir := output_dir w; log := log w |}.

Definition set_output_dir (d : gmap string out_file) (w : world) : world :=
  {| config_file := config_file w; input_dir := input_dir w;
     stdin := stdin w; output_dir := d; log := log w |}.

Definition set_log (l : list event) (w : world) : world :=
  {| config_file := config_file w; input_dir := input_dir w;
     stdin := stdin w; output_dir := output_dir w; log := l |}.

(** [logger.info], [logger.warning], [logger.error] and [print]. *)
Definition emit (e : event) : M unit :=
  fun w => (Return tt, set_log (log w ++ [e])%list w).

(** [try: m except Exception as e: handler(e)]; [sys.exit] is not caught. *)
Definition catch {A} (m : M A) (handler : exn -> M A) : M A :=
  fun w =>
    match m w with
    | (Raise e, w') => handler e w'
    | r => r
    end.

(** [input(prompt)]: the next line typed; [EOFError] when the input is
    exhausted; an interrupt is handed to the caller, which handles it. *)
Definition input : M stdin_event :=
  fun w =>
    match stdin w with
    | [] => (Raise EOFError, w)
    | ev :: rest => (Return ev, set_stdin rest w)
    end.

(** [with open(path, "wb") as f: ...] on the output folder. *)
Definition store_file (path : string) (f : out_file) : M unit :=
  fun w => (Return tt, set_output_dir (<[path := f]> (output_dir w)) w).

(** [d[key]] on a dict: [KeyError] when the key is absent. *)
Definition getitem (d : gmap string Z) (key : string) : M Z :=
  match d !! key with
  | Some v => ret v
  | None => raise (KeyError key)
  end.

(* ===================================================================== *)
(** * Configuration: [load_config] *)
(* ===================================================================== *)

Module Config.

Definition numeric_keys : list string := ["X1"; "Y1"; "X2"; "Y2"; "DIGITS"; "PAD"].
Definition flag_keys : list string := ["DRAW_BOX"; "DRAW_CIRCLE"].
Definition required : list string :=
  ["X1"; "Y1"; "X2"; "Y2"; "DIGITS"; "PAD"; "DRAW_BOX"; "DRAW_CIRCLE"].

(** The head of the loop body: strip the line, skip blank lines and
    comments, split at the first [=] and strip both sides.  [None] when the
    line is skipped. *)
Definition parse_line (line : string) : option (string * string) :=
  let line := Py.strip line in
  if String.eqb line "" || Py.startswith_char "#" line then None
  else
    match Py.split1 "=" line with
    | (key, Some value) => Some (Py.strip key, Py.strip value)
    | (_, None) => None
    end.

(** What is stored for a recognised key. *)
Definition numeric_value (value : string) : Z :=
  match Py.int value with
  | Some n => n
  | None => 0          (* except: config[key] = 0 *)
  end.

Definition flag_value (value : string) : Z :=
  if String.eqb value "1" then 1 else 0.

(** The end of the loop body: the assignment for a recognised key. *)
Definition store (config : gmap string Z) (key value : string) : gmap string Z :=
  if bool_decide (key ∈ numeric_keys) then <[key := numeric_value value]> config
  else if bool_decide (key ∈ flag_keys) then <[key := flag_value value]> config
  else config.

Definition read_line (config : gmap string Z) (line : string) : gmap string Z :=
  match parse_line line with
  | Some (key, value) => store config key value
  | None => config
  end.

(** [for key in required: if key not in config: config[key] = 0]. *)
Definition fill_default (config : gmap string Z) (key : string) : gmap string Z :=
  match config !! key with
  | Some _ => config
  | None => <[key := 0]> config
  end.

(** The dict built from the lines of the file. *)
Definition config_of_lines (lines : list string) : gmap string Z :=
  foldl fill_default (foldl read_line ∅ lines) required.

(** The value the file gives to [key]: the one of the last line that
    assigns it, [None] when no line does.  Used to state what the loaded
    configuration holds. *)
Fixpoint last_value (key : string) (lines : list string) : option string :=
  match lines with
  | [] => None
  | line :: rest =>
      match last_value key rest with
      | Some v => Some v
      | None =>
          match parse_line line with
          | Some (k, v) => if String.eqb k key then Some v else None
          | None => None
          end
      end
  end.

(** [load_config(None, logger)]. *)
Definition load_config : M (gmap string Z) :=
  fun w =>
    match config_file w with
    | None => (emit EvConfigMissing ;; sys_exit 1) w
    | Some lines =>
        let config := config_of_lines lines in
        (emit (EvConfigLoaded config) ;; ret config) w
    end.

End Config.

(* ===================================================================== *)
(** * File selection: [extract_prefix_sort_key], [sorted],
      [find_all_pdfs_with_selection] *)
(* ===================================================================== *)

Module Selector.

(** [Path.stem]: the file name without its last suffix; a dot in first or
    last position does not start a suffix. *)
Definition stem (file_name : string) : string :=
  match Py.rfind "." file_name with
  | Some i =>
      if (0 <? i)%nat && (i <? String.length file_name - 1)%nat
      then String.substring 0 i file_name
      else file_name
  | None => file_name
  end.

(** The second component of a sort key is an [int] or a [str]. *)
Inductive py_value :=
  | PInt (n : Z)
  | PStr (s : string).

#[global] Instance py_value_eq_dec : EqDecision py_value.
Proof. solve_decision. Defined.

Definition sort_key : Type := Z * py_value.


(** [prefix = name.split("_")[0].split("-")[0]]. *)
Definition prefix_of (stem_name : string) : string :=
  Py.split_head "-" (Py.split_head "_" stem_name).

(** [prefix and prefix[0].isalpha()]. *)
Definition alpha_leading (prefix : string) : bool :=
  match prefix with
  | EmptyString => false
  | String c _ => Py.isalpha_char c
  end.

(** [extract_prefix_sort_key(filename)] on file names written in ASCII,
    the characters the tables of [Py] cover.  There [prefix.isdigit()] holds
    exactly for a non-empty string of the digits 0-9 and [int(prefix)]
    converts every such string (lemma [int_isdigit] below), so the [None]
    branch is never taken.  Outside ASCII the two tests of Python part:
    [str.isdigit] also accepts characters such as the superscript two
    (U+00B2) or a circled digit, which [int] refuses with [ValueError]; the
    source calls [int] unguarded, so for such a name the function, and
    with it the sort at line 184, raises.  Statements that follow the script
    through the sort of a folder therefore assume [plain_input]; statements
    on the key itself are phrased through [Py.isdigit] and [Py.int]. *)
Definition extract_prefix_sort_key (filename : pdf_file) : sort_key :=
  let prefix := prefix_of (stem (name filename)) in
  if Py.isdigit prefix then
    (0, PInt (match Py.int prefix with Some n => n | None => 0 end))
  else if alpha_leading prefix then (1, PStr (Py.lower prefix))
  else (2, PStr (match prefix with EmptyString => "" | _ => Py.lower prefix end)).

(** [a < b] on the values of two keys.  Python raises [TypeError] for an
    [int] against a [str]; tuple comparison only reaches the values when the
    ranks are equal, and then both are of the same kind (lemma
    [key_shape]). *)
Definition value_lt (a b : py_value) : bool :=
  match a, b with
  | PInt m, PInt n => m <? n
  | PStr s, PStr t => String.ltb s t
  | _, _ => false
  end.

(** [a < b] on two keys: tuples compare by their first differing component. *)
Definition key_lt (a b : sort_key) : bool :=
  if fst a =? fst b then value_lt (snd a) (snd b) else fst a <? fst b.

(** [a <= b] on keys, the order the sorted list is in: [not (b < a)]. *)
Definition key_le (a b : sort_key) : bool := negb (key_lt b a).

Section Sorted.
Context {A : Type} (key : A -> sort_key).

(** [sorted(l, key=key)] is a stable sort: an element goes in front of the
    first element of the sorted tail whose key is not smaller than its
    own, so elements with equal keys keep their input order. *)
Fixpoint insert (x : A) (l : list A) : list A :=
  match l with
  | [] => [x]
  | y :: r => if key_lt (key y) (key x) then y :: insert x r else x :: l
  end.

Definition sorted (l : list A) : list A := foldr insert [] l.
End Sorted.

(** The selection made from the operator's normalised answer. *)
Definition select (pdf_files : list pdf_file) (choice : string) : M (list pdf_file) :=
  if String.eqb choice "ALL" || String.eqb choice "" then
    emit EvSelectedAll ;; ret pdf_files
  else
    match Py.int choice with
    | Some num =>
        if (1 <=? num) && (num <=? Z.of_nat (length pdf_files)) then
          match pdf_files !! Z.to_nat (num - 1) with
          | Some f => emit (EvSelectedOne num (name f)) ;; ret [f]
          | None => raise IndexError
          end
        else emit (EvInvalidChoice choice) ;; ret pdf_files
    | None => emit (EvInvalidChoice choice) ;; ret pdf_files
    end.

Fixpoint list_files (idx : Z) (l : list pdf_file) : M unit :=
  match l with
  | [] => ret tt
  | f :: r => emit (EvListed idx (name f)) ;; list_files (idx + 1) r
  end.

(** The lines [list_files] prints. *)
Fixpoint listing (idx : Z) (l : list pdf_file) : list event :=
  match l with
  | [] => []
  | f :: r => EvListed idx (name f) :: listing (idx + 1) r
  end.

(** Lines 186-235 of [find_all_pdfs_with_selection]: what the function does
    with the sorted list [pdf_files], from the line that logs how many files
    were found to the [return].  A single file is returned at once; with
    any other number the list is printed and one line is read. *)
Definition choose_files (pdf_files : list pdf_file) : M (list pdf_file) :=
  emit (EvFound (length pdf_files)) ;;
  match pdf_files with
  | [only] => emit (EvAutoSelected (name only)) ;; ret pdf_files
  | _ =>
      list_files 1 pdf_files ;;
      do answer <- input;
      match answer with
      | KeyboardInterrupt => emit EvInterrupted ;; sys_exit 0
      | Line s => select pdf_files (Py.upper (Py.strip s))
      end
  end.

(** [find_all_pdfs_with_selection(None, logger)]: lines 168-184 and then
    [choose_files] on the sorted list.  The sort at line 184 evaluates
    [extract_prefix_sort_key] on every file, so it is modelled for the file
    names that function is modelled for (see its comment). *)
Definition find_all_pdfs_with_selection : M (list pdf_file) :=
  fun w =>
    match input_dir w with
    | None => (emit EvInputMissing ;; sys_exit 1) w
    | Some [] => (emit EvNoPdf ;; sys_exit 1) w
    | Some found => choose_files (sorted extract_prefix_sort_key found) w
    end.

End Selector.


(* ===================================================================== *)
(** * Labels and overlays: [format_number], [create_number_overlay] *)
(* ===================================================================== *)

Module Overlay.

(** [format_number(number, digits)]. *)
Definition format_number (number digits : Z) : string :=
  Py.zfill (Py.str number) digits.

Definition font_size : Z := 12.

(** Python's [max(a, b)]: [b] only when it is strictly greater. *)
Definition max2 (a b : Q) : Q := if Qle_bool b a then a else b.

Section Canvas.
(** [c.stringWidth(t, "Helvetica-Bold", 12)]: the font metrics. *)
Variable stringWidth : string -> Q.

(** The decoration of one label: the [if DRAW_BOX / elif DRAW_CIRCLE]
    statement, with the dict accesses in the order Python makes them. *)
Definition decoration (config : gmap string Z) (x y : Z) (w : Q) : M (list canvas_op) :=
  let h := inject_Z font_size in
  do draw_box <- getitem config "DRAW_BOX";
  if negb (draw_box =? 0) then
    do pad <- getitem config "PAD";
    ret [Rect (inject_Z (x - pad)) (inject_Z (y - pad))
              (w + inject_Z (pad * 2)) (h + inject_Z (pad * 2))]
  else
    do draw_circle <- getitem config "DRAW_CIRCLE";
    if negb (draw_circle =? 0) then
      do pad <- getitem config "PAD";
      let radius := (max2 w h / 2 + inject_Z pad)%Q in
      ret [Circle (inject_Z x + w / 2) (inject_Z y + h / 2) radius]
    else ret [].

(** One of the two blocks of [create_number_overlay]: position, text,
    width, decoration, then the text itself. *)
Definition draw_label (config : gmap string Z) (xkey ykey : string) (number : Z)
  : M (list canvas_op) :=
  do x <- getitem config xkey;
  do y <- getitem config ykey;
  do digits <- getitem config "DIGITS";
  let t := format_number number digits in
  let w := stringWidth t in
  do deco <- decoration config x y w;
  ret (deco ++ [DrawString (inject_Z x) (inject_Z y) t])%list.

(** [create_number_overlay(number1, number2, config, page_width,
    page_height)]: the drawing calls made on a canvas of the page's size. *)
Definition create_number_overlay (number1 number2 : Z) (config : gmap string Z)
    (page_width page_height : Q) : M (list canvas_op) :=
  do first <- draw_label config "X1" "Y1" number1;
  do second <- draw_label config "X2" "Y2" number2;
  ret (first ++ second)%list.
End Canvas.

End Overlay.

(* ===================================================================== *)
(** * The batch driver: [process_pdf], [main] *)
(* ===================================================================== *)

Module Driver.
Import Overlay.

Record batch_state := BatchState {
  next_number : Z;
  success_count : Z;
  fail_count : Z;
}.

Section Driver.
Variable stringWidth : string -> Q.

(** The [try] block of the page loop: render the overlay, read it back and
    merge it into the page. *)
Definition merge_overlay (num1 num2 : Z) (config : gmap string Z) (p : page)
  : M merged_page :=
  do ops <- create_number_overlay stringWidth num1 num2 config
              (page_width p) (page_height p);
  match overlay_error p with
  | Some msg => raise (BackendError msg)
  | None => ret (MergedPage p (num1, num2) ops)
  end.

(** The page loop of [process_pdf], from page [page_index] on. *)
Fixpoint process_pages (config : gmap string Z) (todo : list page)
    (page_index current_number : Z) (writer : list merged_page)
  : M (Z * list merged_page) :=
  match todo with
  | [] => ret (current_number, writer)
  | p :: rest =>
      let num1 := current_number in
      let num2 := current_number + 1 in
      let current_number := current_number + 2 in
      do digits <- getitem config "DIGITS";
      let num1_str := format_number num1 digits in
      let num2_str := format_number num2 digits in
      emit (EvPage page_index num1_str num2_str) ;;
      do merged <- catch (merge_overlay num1 num2 config p)
                     (fun e => emit (EvPageError page_index e) ;;
                               raise (PageError page_index e));
      process_pages config rest (page_index + 1) current_number
        (writer ++ [merged])%list
  end.

(** [PdfReader(input_pdf_path)]. *)
Definition open_reader (input_pdf : pdf_file) : M (list page) :=
  match open_error input_pdf with
  | Some msg => raise (BackendError msg)
  | None => ret (pages input_pdf)
  end.

(** [mkdir] and [with open(output_pdf_path, "wb") as f: writer.write(f)]. *)
Definition write_output (input_pdf : pdf_file) (output_pdf_path : string)
    (writer : list merged_page) : M unit :=
  match save_error input_pdf with
  | None => store_file output_pdf_path (Written writer)
  | Some CannotOpen => raise (BackendError "open")
  | Some WriteFails =>
      store_file output_pdf_path Truncated ;; raise (BackendError "write")
  end.

(** [process_pdf(input_pdf_path, output_pdf_path, start_number, config,
    logger)]: returns the start value for the next document. *)
Definition process_pdf (input_pdf : pdf_file) (output_pdf_path : string)
    (start_number : Z) (config : gmap string Z) : M Z :=
  emit (EvProcessing (name input_pdf) output_pdf_path start_number) ;;
  do reader_pages <- open_reader input_pdf;
  emit (EvPageCount (length reader_pages)) ;;
  do done <- process_pages config reader_pages 1 start_number [];
  let '(current_number, writer) := done in
  write_output input_pdf output_pdf_path writer ;;
  do digits <- getitem config "DIGITS";
  emit (EvWritten output_pdf_path (format_number start_number digits)
          (format_number (current_number - 1) digits)) ;;
  ret current_number.

(** The start value of a document: [base_start] in mode "1", the running
    [next_number] otherwise. *)
Definition start_number_for (mode : string) (base_start : Z) (st : batch_state) : Z :=
  if String.eqb mode "1" then base_start else next_number st.

Definition output_name (pdf_path : pdf_file) : string :=
  (Selector.stem (name pdf_path) ++ "_numbered.pdf")%string.

(** One iteration of the loop of [main] over [pdf_list]. *)
Definition batch_step (mode : string) (base_start : Z) (config : gmap string Z)
    (pdf_path : pdf_file) (st : batch_state) : M batch_state :=
  let start_number := start_number_for mode base_start st in
  let output_pdf_path := output_name pdf_path in
  fun w =>
    match process_pdf pdf_path output_pdf_path start_number config w with
    | (Return n, w') =>
        (emit (EvFileDone output_pdf_path) ;;
         ret {| next_number := n;
                success_count := success_count st + 1;
                fail_count := fail_count st |}) w'
    | (Raise e, w') =>
        (emit (EvFileFailed (name pdf_path) e) ;;
         ret {| next_number := next_number st;
                success_count := success_count st;
                fail_count := fail_count st + 1 |}) w'
    | (SysExit c, w') => (SysExit c, w')
    end.

(** The loop of [main] over [pdf_list]. *)
Fixpoint run_batch (mode : string) (base_start : Z) (config : gmap string Z)
    (pdf_list : list pdf_file) (st : batch_state) : M batch_state :=
  match pdf_list with
  | [] => ret st
  | pdf_path :: rest =>
      do st' <- batch_step mode base_start config pdf_path st;
      run_batch mode base_start config rest st'
  end.

(** The numbering-mode prompt, skipped for a single file. *)
Definition choose_mode (pdf_list : list pdf_file) : M string :=
  match pdf_list with
  | [_] => ret "1"
  | _ =>
      do answer <- input;
      match answer with
      | KeyboardInterrupt => emit EvInterrupted ;; sys_exit 0
      | Line s =>
          let mode := Py.strip s in
          if String.eqb mode "1" || String.eqb mode "2" then ret mode
          else emit EvDefaultMode ;; ret "1"
      end
  end.

(** The start-number prompt: [while True] asks again after an answer that
    is not an integer or is below 1; each round consumes one line of
    [pending], the input not read yet. *)
Fixpoint prompt_start (pending : list stdin_event) (w : world) : outcome Z * world :=
  match pending with
  | [] => (Raise EOFError, w)
  | KeyboardInterrupt :: rest =>
      (emit EvInterrupted ;; sys_exit 0) (set_stdin rest w)
  | Line s :: rest =>
      let start_input := Py.strip s in
      let parsed := if String.eqb start_input "" then Some 1 else Py.int start_input in
      match parsed with
      | Some base_start =>
          if base_start <? 1
          then prompt_start rest (snd (emit EvBadStart (set_stdin rest w)))
          else (Return base_start, set_stdin rest w)
      | None => prompt_start rest (snd (emit EvBadStart (set_stdin rest w)))
      end
  end.

Definition read_base_start : M Z := fun w => prompt_start (stdin w) w.

(** The last two parts of [main]: the loop over [pdf_list], started with
    [next_number = base_start] and both counters at 0, then the summary. *)
Definition process_all (mode : string) (base_start : Z) (config : gmap string Z)
    (pdf_list : list pdf_file) : M unit :=
  do st <- run_batch mode base_start config pdf_list
             {| next_number := base_start; success_count := 0; fail_count := 0 |};
  emit (EvSummary (success_count st) (fail_count st)).

(** [main()]. *)
Definition main : M unit :=
  do config <- Config.load_config;
  do pdf_list <- Selector.find_all_pdfs_with_selection;
  do mode <- choose_mode pdf_list;
  emit (EvMode mode) ;;
  do base_start <- read_base_start;
  emit (EvBaseStart base_start) ;;
  process_all mode base_start config pdf_list.
End Driver.

End Driver.

(* ===================================================================== *)
(** * Vocabulary of the statements *)
(* ===================================================================== *)

(** What [store] keeps for a value of [key]. *)
Definition stored_value (key value : string) : Z :=
  if bool_decide (key ∈ Config.numeric_keys) then Config.numeric_value value else Config.flag_value value.


(** Every key the script reads is present after loading. *)
Definition config_complete (config : gmap string Z) : Prop :=
  forall key, key ∈ Config.required -> is_Some (config !! key).


(** A key is well shaped when its rank tells the kind of its value. *)
Definition shaped (k : Selector.sort_key) : Prop :=
  match snd k with
  | Selector.PInt _ => fst k = 0
  | Selector.PStr _ => fst k <> 0
  end.


(** The order of a sorted list: [a] may stand before [b]. *)
Definition le_by {A : Type} (key : A -> Selector.sort_key) (a b : A) : Prop :=
  Selector.key_le (key a) (key b) = true.

(** The decoration of a label as a function of the three settings. *)
Definition decoration_ops (draw_box draw_circle pad x y : Z) (w : Q) : list canvas_op :=
  let h := inject_Z Overlay.font_size in
  if negb (draw_box =? 0) then
    [Rect (inject_Z (x - pad)) (inject_Z (y - pad))
          (w + inject_Z (pad * 2)) (h + inject_Z (pad * 2))]
  else if negb (draw_circle =? 0) then
    [Circle (inject_Z x + w / 2) (inject_Z y + h / 2)
            (Overlay.max2 w h / 2 + inject_Z pad)%Q]
  else [].


(** The label pairs of [n] pages numbered from [current]. *)
Fixpoint label_pairs (current : Z) (n : nat) : list (Z * Z) :=
  match n with
  | O => []
  | S m => (current, current + 1) :: label_pairs (current + 2) m
  end.

(** A page the backend renders and merges without an exception. *)
Definition page_ok (p : page) : bool :=
  match overlay_error p with None => true | Some _ => false end.

(** A document that can be read, whose pages all render and merge, and whose
    numbered copy can be written. *)
Definition healthy (d : pdf_file) : bool :=
  match open_error d, save_error d with
  | None, None => forallb page_ok (pages d)
  | _, _ => false
  end.

(** The start numbers logged by [process_pdf], in order. *)
Definition starts_of (evs : list event) : list Z :=
  omap (fun e => match e with EvProcessing _ _ s => Some s | _ => None end) evs.


(** The start numbers of a batch in continuous mode: a document that is
    processed moves the counter by two per page, any other leaves it. *)
Fixpoint continuous_starts (next : Z) (docs : list pdf_file) : list Z :=
  match docs with
  | [] => []
  | d :: rest =>
      next :: continuous_starts
                (if healthy d then next + 2 * Z.of_nat (length (pages d)) else next)
                rest
  end.

(** The start numbers of a batch in either mode. *)
Definition expected_starts (mode : string) (base_start next : Z)
    (docs : list pdf_file) : list Z :=
  if String.eqb mode "1" then map (fun _ => base_start) docs
  else continuous_starts next docs.

(** What an answer to the start-number prompt is accepted as: the empty
    answer stands for 1, an integer below 1 or a non-integer is refused. *)
Definition accepted_start (s : string) : option Z :=
  match (if String.eqb (Py.strip s) "" then Some 1 else Py.int (Py.strip s)) with
  | Some n => if n <? 1 then None else Some n
  | None => None
  end.

(** The drawing calls of one label: its decoration, then its text. *)
Definition label_ops (stringWidth : string -> Q)
    (draw_box draw_circle pad digits x y number : Z) : list canvas_op :=
  let t := Overlay.format_number number digits in
  decoration_ops draw_box draw_circle pad x y (stringWidth t)
  ++ [DrawString (inject_Z x) (inject_Z y) t].

(** The overlay of a merged page is the one of its two numbers. *)
Definition drawn_from_stamp (stringWidth : string -> Q)
    (draw_box draw_circle pad digits x1 y1 x2 y2 : Z) (mp : merged_page) : Prop :=
  overlay mp
  = label_ops stringWidth draw_box draw_circle pad digits x1 y1 (fst (stamp mp))
    ++ label_ops stringWidth draw_box draw_circle pad digits x2 y2 (snd (stamp mp)).

(** The mode an answer to the mode prompt stands for. *)
Definition mode_of_answer (s : string) : string :=
  if String.eqb (Py.strip s) "2" then "2" else "1".

(** [main] from the mode prompt on, for a selection already made. *)
Definition main_after_selection (stringWidth : string -> Q)
    (config : gmap string Z) (pdf_list : list pdf_file) : M unit :=
  do mode <- Driver.choose_mode pdf_list;
  emit (EvMode mode) ;;
  do base_start <- Driver.read_base_start;
  emit (EvBaseStart base_start) ;;
  Driver.process_all stringWidth mode base_start config pdf_list.

(** Text on which Python's built-ins are the tables of [Py]: ASCII
    characters only, and no more than 4300 of them, the number of digits up
    to which [int] converts a string under the interpreter's default limit
    ([sys.int_info.default_max_str_digits]). *)
Definition plain (s : string) : bool :=
  Py.all_chars (fun c => Py.ord c <? 128) s && (String.length s <=? 4300)%nat.

(** Everything a run reads is plain: the lines of [coords.env], the names
    of the files of the input folder, the lines typed at the prompts. *)
Definition plain_input (w : world) : bool :=
  forallb plain (default [] (config_file w))
  && forallb (fun f => plain (name f)) (default [] (input_dir w))
  && forallb (fun e => match e with Line s => plain s | KeyboardInterrupt => true end)
       (stdin w).

(** The characters of a string, in order. *)
Definition chars (s : string) : list ascii := list_ascii_of_string s.

(** The letters and the digits of ASCII, by code point. *)
Definition ascii_digit (c : ascii) : Prop := 48 <= Py.ord c <= 57.
Definition ascii_upper (c : ascii) : Prop := 65 <= Py.ord c <= 90.
Definition ascii_lower (c : ascii) : Prop := 97 <= Py.ord c <= 122.

(** [d] is the lower case of [c]: a capital letter moves 32 code points up,
    any other character stays as it is. *)
Definition lowered_char (c d : ascii) : Prop :=
  (ascii_upper c /\ Py.ord d = Py.ord c + 32) \/ (~ ascii_upper c /\ d = c).

(** The number written by a list of decimal digits, most significant digit
    first. *)
Definition decimal_value (digits : list ascii) : Z :=
  fold_left (fun acc c => 10 * acc + (Py.ord c - 48)) digits 0.

(** The sort key of a file name. *)
Definition name_key (file_name : string) : Selector.sort_key :=
  Selector.extract_prefix_sort_key (PdfFile file_name None [] None).

(** Worlds are compared field by field. *)
Ltac norm_world :=
  unfold set_log, set_stdin, set_output_dir in *; simpl in *;
  rewrite <- ?app_assoc in *; simpl in *.

(** Closed decidable goals (membership in a literal list, ...) by evaluation. *)
Ltac by_decide := apply (bool_decide_unpack _); vm_compute; exact I.

(* ===================================================================== *)
(** * Facts about the Python built-ins *)
(* ===================================================================== *)

Section PyFacts.
Import Py.

Lemma length_append (s t : string) :
  String.length (s ++ t)%string = (String.length s + String.length t)%nat.
Proof. induction s as [|c s IH]; simpl; [reflexivity | now rewrite IH]. Qed.

Lemma length_zeros (n : nat) : String.length (zeros n) = n.
Proof. unfold zeros. induction n as [|n IH]; simpl; [reflexivity | now rewrite IH]. Qed.

(** A digit is neither white space nor a sign nor an underscore. *)
Lemma digit_not_space c : isdigit_char c = true -> isspace c = false.
Proof. unfold isdigit_char, isspace. lia. Qed.

Lemma digit_not_sign c :
  isdigit_char c = true ->
  Ascii.eqb c "+" = false /\ Ascii.eqb c "-" = false.
Proof.
  intros H. split; apply Ascii.eqb_neq; intros ->; vm_compute in H; discriminate.
Qed.

Lemma lstrip_digits s : all_chars isdigit_char s = true -> lstrip s = s.
Proof.
  destruct s as [|c s]; simpl; [reflexivity|].
  intros [Hc _]%andb_prop. now rewrite (digit_not_space c Hc).
Qed.

Lemma rstrip_digits s : all_chars isdigit_char s = true -> rstrip s = s.
Proof.
  induction s as [|c s IH]; simpl; [reflexivity|].
  intros [Hc Hs]%andb_prop. rewrite (IH Hs).
  destruct s; [now rewrite (digit_not_space c Hc) | reflexivity].
Qed.

Lemma int_digits_all acc prev c s :
  all_chars isdigit_char (String c s) = true ->
  int_digits acc prev (String c s) = Some (digits_value acc (String c s)).
Proof.
  revert acc prev c. induction s as [|d s IH]; intros acc prev c H; simpl in *.
  - apply andb_prop in H as [-> _]. reflexivity.
  - apply andb_prop in H as [Hc Hs]. rewrite Hc. apply (IH _ true d Hs).
Qed.

(** [int] never raises on a string accepted by [isdigit]. *)
Lemma int_isdigit s :
  isdigit s = true -> int s = Some (digits_value 0 s).
Proof.
  destruct s as [|c s]; [discriminate|]. unfold isdigit. intros H.
  unfold int, strip. rewrite (lstrip_digits _ H), (rstrip_digits _ H).
  pose proof H as [Hc _]%andb_prop. simpl in Hc.
  destruct (digit_not_sign c Hc) as [Hp Hm].
  rewrite <- (int_digits_all 0 false c s H).
  destruct c as [[] [] [] [] [] [] [] []]; try reflexivity; discriminate.
Qed.

(** The decimal representation of a natural number starts with a digit. *)
Lemma str_nonneg_head n :
  0 <= n -> exists c r, str n = String c r /\ isdigit_char c = true.
Proof.
  intros Hn. unfold str. destruct n as [|p|p]; [| |lia]; simpl.
  - now exists "0"%char, EmptyString.
  - pose proof (Unsigned.to_uint_nonnil p) as Hnil.
    destruct (Pos.to_uint p); [congruence| ..]; simpl; eexists _, _; split;
      reflexivity.
Qed.

(** [zfill] never shortens: the result has the longer of the two lengths. *)
Lemma zfill_length s width :
  len (zfill s width) = Z.max (len s) width.
Proof.
  unfold zfill. destruct (Z.leb_spec width (len s)) as [H|H]; [lia|].
  unfold len in *.
  destruct s as [|c r].
  - rewrite length_zeros. simpl in *. lia.
  - destruct (Ascii.eqb c "+" || Ascii.eqb c "-"); simpl;
      rewrite length_append, length_zeros; simpl in *; lia.
Qed.

Lemma zfill_wide s width : width <= len s -> zfill s width = s.
Proof. intros H. unfold zfill. destruct (Z.leb_spec width (len s)); [reflexivity | lia]. Qed.

(** Without a leading sign the zeros go in front of the whole string. *)
Lemma zfill_unsigned c r width :
  isdigit_char c = true ->
  zfill (String c r) width =
    (zeros (Z.to_nat (width - len (String c r))) ++ String c r)%string.
Proof.
  intros Hc. unfold zfill.
  destruct (Z.leb_spec width (len (String c r))) as [H|H].
  - replace (Z.to_nat _) with O by lia. reflexivity.
  - destruct (digit_not_sign c Hc) as [-> ->]. reflexivity.
Qed.
End PyFacts.

(** ** C6: label formatting *)

(** C6. [format_number] zero-pads the decimal representation of a number to
    width [digits] and never truncates: [format_number 7 4 = "0007"],
    [format_number 12345 4 = "12345"]; in general the result has the larger
    of the two widths, it is the decimal string itself when that is already
    [digits] wide or wider, and for a number that is not negative it is the
    decimal string behind the missing zeros.  [format_number] is a total
    function: there is no error case. *)
Theorem format_number_pads_never_truncates :
  Overlay.format_number 7 4 = "0007" /\
  Overlay.format_number 12345 4 = "12345" /\
  (forall number digits,
      Py.len (Overlay.format_number number digits)
      = Z.max (Py.len (Py.str number)) digits) /\
  (forall number digits,
      digits <= Py.len (Py.str number) ->
      Overlay.format_number number digits = Py.str number) /\
  (forall number digits,
      0 <= number ->
      Overlay.format_number number digits
      = (Py.zeros (Z.to_nat (digits - Py.len (Py.str number))) ++ Py.str number)%string).
Proof.
  repeat split.
  - intros number digits. apply zfill_length.
  - intros number digits H. now apply zfill_wide.
  - intros number digits H. unfold Overlay.format_number.
    destruct (str_nonneg_head number H) as (c & r & -> & Hc).
    now apply zfill_unsigned.
Qed.

Lemma format_number_pads_never_truncates_witness :
  Overlay.format_number 12345 4 = Py.str 12345 /\
  Overlay.format_number 7 4 = ("000" ++ Py.str 7)%string.
Proof.
  split.
  - apply (proj1 (proj2 (proj2 (proj2 format_number_pads_never_truncates)))).
    vm_compute. discriminate.
  - apply (proj2 (proj2 (proj2 (proj2 format_number_pads_never_truncates))) 7 4).
    lia.
Defined.

(* ===================================================================== *)
(** * Facts about [load_config] *)
(* ===================================================================== *)

Section ConfigFacts.
Import Config.

Lemma required_split key :
  key ∈ required <-> key ∈ numeric_keys \/ key ∈ flag_keys.
Proof.
  unfold required, numeric_keys, flag_keys.
  rewrite !elem_of_cons, !elem_of_nil. tauto.
Qed.

Lemma lookup_store config k v key :
  store config k v !! key =
    if bool_decide (k = key /\ key ∈ required)
    then Some (stored_value key v) else config !! key.
Proof.
  unfold store, stored_value.
  destruct (decide (k = key)) as [->|Hne].
  - repeat case_bool_decide; rewrite ?lookup_insert_eq; try reflexivity;
      exfalso; rewrite required_split in *; tauto.
  - rewrite (bool_decide_eq_false_2 (k = key /\ _)) by tauto.
    repeat case_bool_decide; rewrite ?lookup_insert_ne; auto.
Qed.

Lemma lookup_read_lines lines : forall config key,
  foldl read_line config lines !! key =
    match last_value key lines with
    | Some v => if bool_decide (key ∈ required)
                then Some (stored_value key v)
                else config !! key
    | None => config !! key
    end.
Proof.
  induction lines as [|line rest IH]; intros config key; simpl; [reflexivity|].
  rewrite IH. destruct (last_value key rest) as [v|].
  - case_bool_decide; [reflexivity|].
    unfold read_line. destruct (parse_line line) as [[k v']|]; [|reflexivity].
    rewrite lookup_store. rewrite bool_decide_eq_false_2 by tauto. reflexivity.
  - unfold read_line. destruct (parse_line line) as [[k v']|]; [|reflexivity].
    rewrite lookup_store.
    destruct (String.eqb_spec k key) as [->|Hne].
    + case_bool_decide as H1; case_bool_decide as H2; try reflexivity; tauto.
    + rewrite bool_decide_eq_false_2 by tauto. reflexivity.
Qed.

Lemma lookup_fill_defaults keys : forall config key,
  foldl fill_default config keys !! key =
    match config !! key with
    | Some v => Some v
    | None => if bool_decide (key ∈ keys) then Some 0 else None
    end.
Proof.
  induction keys as [|k keys IH]; intros config key; simpl.
  - destruct (config !! key); reflexivity.
  - rewrite IH. unfold fill_default.
    destruct (decide (k = key)) as [->|Hne].
    + destruct (config !! key) as [v|] eqn:E; rewrite ?E, ?lookup_insert_eq;
        [reflexivity|].
      rewrite bool_decide_eq_true_2 by (apply elem_of_cons; now left). reflexivity.
    + assert (key ∈ k :: keys <-> key ∈ keys) as Hin
        by (rewrite elem_of_cons; intuition congruence).
      destruct (config !! k) eqn:E; [|rewrite lookup_insert_ne by done];
        destruct (config !! key); try reflexivity;
        repeat case_bool_decide; try reflexivity; tauto.
Qed.

(** The loaded configuration, key by key. *)
Lemma lookup_config_of_lines lines key :
  config_of_lines lines !! key =
    if bool_decide (key ∈ required) then
      Some (match last_value key lines with
            | Some v => stored_value key v
            | None => 0
            end)
    else None.
Proof.
  unfold config_of_lines.
  rewrite lookup_fill_defaults, lookup_read_lines, lookup_empty.
  destruct (last_value key lines); case_bool_decide; reflexivity.
Qed.

Lemma config_of_lines_skip before line after :
  (forall config, read_line config line = config) ->
  config_of_lines (before ++ line :: after) = config_of_lines (before ++ after).
Proof.
  intros H. unfold config_of_lines. rewrite !foldl_app. simpl. now rewrite H.
Qed.

Lemma config_of_lines_complete lines : config_complete (config_of_lines lines).
Proof.
  intros key H. rewrite lookup_config_of_lines.
  rewrite bool_decide_eq_true_2 by done. eauto.
Qed.
End ConfigFacts.

(** ** C5: configuration defaults *)

(** C5. Every recognised key is present after loading.  A numeric key
    ([X1 Y1 X2 Y2 DIGITS PAD]) holds 0 when no line assigns it or when the
    last value assigned to it is not an integer, and that integer otherwise.
    A flag ([DRAW_BOX DRAW_CIRCLE]) holds 1 (true) exactly when the last
    value assigned to it is the string "1", and 0 (false) otherwise, also when
    no line assigns it.  No other key is stored; blank lines, [#] comment
    lines and lines for unknown keys change nothing.  An empty file gives 0
    for the six numbers and false for the two flags. *)
Theorem load_config_defaults :
  (* the empty file *)
  Config.config_of_lines []
  = list_to_map [("X1", 0); ("Y1", 0); ("X2", 0); ("Y2", 0); ("DIGITS", 0);
                 ("PAD", 0); ("DRAW_BOX", 0); ("DRAW_CIRCLE", 0)] /\
  (* numeric keys *)
  (forall lines key,
      key ∈ Config.numeric_keys ->
      Config.config_of_lines lines !! key =
        Some (match Config.last_value key lines with
              | None => 0
              | Some value =>
                  match Py.int value with Some n => n | None => 0 end
              end)) /\
  (* flags *)
  (forall lines key,
      key ∈ Config.flag_keys ->
      Config.config_of_lines lines !! key =
        Some (match Config.last_value key lines with
              | None => 0
              | Some value => if String.eqb value "1" then 1 else 0
              end)) /\
  (* nothing else is stored *)
  (forall lines key,
      key ∉ Config.required -> Config.config_of_lines lines !! key = None) /\
  (* ignored lines *)
  (forall before line after,
      Py.strip line = ""
      \/ Py.startswith_char "#" (Py.strip line) = true
      \/ (exists key value,
             Config.parse_line line = Some (key, value) /\ key ∉ Config.required) ->
      Config.config_of_lines (before ++ line :: after)
      = Config.config_of_lines (before ++ after)) /\
  (* [load_config] returns that dict *)
  (forall w lines,
      config_file w = Some lines ->
      fst (Config.load_config w) = Return (Config.config_of_lines lines)).
Proof.
  split; [vm_compute; reflexivity|].
  split; [|split; [|split; [|split]]].
  - intros lines key H. rewrite lookup_config_of_lines.
    rewrite bool_decide_eq_true_2 by (apply required_split; tauto).
    unfold stored_value. rewrite bool_decide_eq_true_2 by done. reflexivity.
  - intros lines key H. rewrite lookup_config_of_lines.
    rewrite bool_decide_eq_true_2 by (apply required_split; tauto).
    unfold stored_value. rewrite bool_decide_eq_false_2; [reflexivity|].
    revert H. unfold Config.flag_keys, Config.numeric_keys.
    rewrite !elem_of_cons, !elem_of_nil.
    intros [->| [->|[]]]; intuition discriminate.
  - intros lines key H. rewrite lookup_config_of_lines.
    now rewrite bool_decide_eq_false_2.
  - intros before line after H. apply config_of_lines_skip. intros config.
    unfold Config.read_line.
    destruct H as [H | [H | (key & value & H & Hk)]].
    + unfold Config.parse_line. rewrite H. reflexivity.
    + unfold Config.parse_line. rewrite H, orb_true_r. reflexivity.
    + rewrite H. unfold Config.store.
      rewrite !bool_decide_eq_false_2; [reflexivity| |];
        intros Hin; apply Hk, required_split; tauto.
  - intros w lines H. unfold Config.load_config. rewrite H. reflexivity.
Qed.

Lemma load_config_defaults_witness :
  let lines := ["# stamp positions"; "X1 = 40"; ""; "X1 = forty";
                "DIGITS=4"; "COLOR=red"; "DRAW_BOX= 1 "; "DRAW_CIRCLE=yes"] in
  Config.config_of_lines lines !! "X1" = Some 0 /\
  Config.config_of_lines lines !! "DIGITS" = Some 4 /\
  Config.config_of_lines lines !! "PAD" = Some 0 /\
  Config.config_of_lines lines !! "DRAW_BOX" = Some 1 /\
  Config.config_of_lines lines !! "DRAW_CIRCLE" = Some 0 /\
  Config.config_of_lines lines !! "COLOR" = None /\
  Config.config_of_lines (["X1 = 40"] ++ "COLOR=red" :: ["PAD=2"])
  = Config.config_of_lines (["X1 = 40"] ++ ["PAD=2"]) /\
  fst (Config.load_config (World (Some lines) None [] ∅ []))
  = Return (Config.config_of_lines lines).
Proof.
  intros lines.
  destruct load_config_defaults as (_ & Hnum & Hflag & Hother & Hskip & Hload).
  refine (conj _ (conj _ (conj _ (conj _ (conj _ (conj _ (conj _ _))))))).
  - apply (Hnum lines "X1"). by_decide.
  - apply (Hnum lines "DIGITS"). by_decide.
  - apply (Hnum lines "PAD"). by_decide.
  - apply (Hflag lines "DRAW_BOX"). by_decide.
  - apply (Hflag lines "DRAW_CIRCLE"). by_decide.
  - apply (Hother lines "COLOR"). by_decide.
  - apply (Hskip ["X1 = 40"] "COLOR=red" ["PAD=2"]). right. right.
    exists "COLOR", "red". split; [reflexivity | by_decide].
  - apply (Hload _ lines). reflexivity.
Defined.

(* ===================================================================== *)
(** * Facts about the sort key and [sorted] *)
(* ===================================================================== *)

Section OrderFacts.
Import Selector.

Lemma ascii_compare_refl c : Ascii.compare c c = Eq.
Proof. unfold Ascii.compare. apply N.compare_refl. Qed.

Lemma string_compare_refl s : String.compare s s = Eq.
Proof. induction s as [|c s IH]; simpl; [reflexivity|]. now rewrite ascii_compare_refl. Qed.

Lemma string_ltb_irrefl s : String.ltb s s = false.
Proof. unfold String.ltb. now rewrite string_compare_refl. Qed.

Lemma string_ltb_asym s t : String.ltb s t = true -> String.ltb t s = false.
Proof.
  unfold String.ltb. rewrite (String.compare_antisym s t).
  destruct (String.compare t s); simpl; congruence.
Qed.

(** [<=] on strings, read off [String.compare], is transitive. *)
Lemma string_compare_le_trans a : forall b c,
  String.compare a b <> Gt -> String.compare b c <> Gt -> String.compare a c <> Gt.
Proof.
  induction a as [|x a IH]; intros [|y b] [|z c]; simpl; try congruence.
  unfold Ascii.compare.
  destruct (N.compare_spec (N_of_ascii x) (N_of_ascii y)) as [Hxy|Hxy|Hxy];
    destruct (N.compare_spec (N_of_ascii y) (N_of_ascii z)) as [Hyz|Hyz|Hyz];
    try congruence; intros H1 H2.
  - rewrite Hxy, Hyz, N.compare_refl. now apply (IH b c).
  - rewrite Hxy. now apply N.compare_lt_iff in Hyz as ->.
  - rewrite <- Hyz. now apply N.compare_lt_iff in Hxy as ->.
  - pose proof (N.lt_trans _ _ _ Hxy Hyz) as ->%N.compare_lt_iff. congruence.
Qed.

Lemma string_ltb_false s t : String.ltb s t = false <-> String.compare t s <> Gt.
Proof.
  unfold String.ltb. rewrite (String.compare_antisym t s).
  destruct (String.compare s t); simpl; split; congruence.
Qed.

Lemma key_shape f : shaped (extract_prefix_sort_key f).
Proof.
  unfold extract_prefix_sort_key, shaped.
  destruct (Py.isdigit _); [reflexivity|].
  destruct (alpha_leading _); simpl; lia.
Qed.

Lemma key_lt_irrefl k : key_lt k k = false.
Proof.
  unfold key_lt. rewrite Z.eqb_refl. destruct (snd k); simpl;
    [apply Z.ltb_irrefl | apply string_ltb_irrefl].
Qed.

Lemma key_lt_asym a b : key_lt a b = true -> key_lt b a = false.
Proof.
  unfold key_lt. rewrite (Z.eqb_sym (fst b)).
  destruct (Z.eqb_spec (fst a) (fst b)).
  - destruct (snd a), (snd b); simpl; try congruence;
      [lia | apply string_ltb_asym].
  - lia.
Qed.

Lemma key_le_trans a b c :
  shaped a -> shaped b -> shaped c ->
  key_le a b = true -> key_le b c = true -> key_le a c = true.
Proof.
  unfold key_le, key_lt, shaped.
  destruct a as [ra va], b as [rb vb], c as [rc vc]; simpl.
  intros Ha Hb Hc.
  rewrite !negb_true_iff.
  destruct (Z.eqb_spec rb ra), (Z.eqb_spec rc rb), (Z.eqb_spec rc ra);
    try lia; subst.
  destruct va, vb, vc; simpl; try lia; try congruence.
  rewrite !string_ltb_false. intros H1 H2.
  eapply string_compare_le_trans; eauto.
Qed.
End OrderFacts.

Section SortedFacts.
Import Selector.
Context {A : Type} (key : A -> sort_key).
Hypothesis key_shaped : forall a, shaped (key a).


Lemma insert_perm x l : Permutation (insert key x l) (x :: l).
Proof.
  induction l as [|y r IH]; simpl; [reflexivity|].
  destruct (key_lt (key y) (key x)); [|reflexivity].
  rewrite IH. apply perm_swap.
Qed.

Lemma sorted_perm l : Permutation (sorted key l) l.
Proof.
  induction l as [|x l IH]; simpl; [reflexivity|].
  rewrite insert_perm. now apply perm_skip.
Qed.

Lemma insert_sorted x l :
  StronglySorted (le_by key) l -> StronglySorted (le_by key) (insert key x l).
Proof.
  induction 1 as [|y r Hr IH Hy]; simpl.
  - constructor; [constructor | constructor].
  - destruct (key_lt (key y) (key x)) eqn:E.
    + constructor; [exact IH|].
      rewrite (Forall_forall (le_by key y)). intros z Hz.
      rewrite (insert_perm x r) in Hz. apply elem_of_cons in Hz as [->|Hz].
      * unfold le_by, key_le. now rewrite (key_lt_asym _ _ E).
      * rewrite (Forall_forall (le_by key y)) in Hy. now apply Hy.
    + assert (le_by key x y) as Hxy by (unfold le_by, key_le; now rewrite E).
      constructor; [now constructor|].
      constructor; [exact Hxy|].
      eapply Forall_impl; [exact Hy|]. intros z Hz.
      unfold le_by in *. eapply key_le_trans; eauto.
Qed.

Lemma sorted_sorted l : StronglySorted (le_by key) (sorted key l).
Proof.
  induction l as [|x l IH]; simpl; [constructor | now apply insert_sorted].
Qed.

(** Stability: the elements that share a key come out in input order. *)
Lemma filter_insert k x l :
  filter (fun a => key a = k) (insert key x l)
  = filter (fun a => key a = k) (x :: l).
Proof.
  induction l as [|y r IH]; simpl; [reflexivity|].
  destruct (key_lt (key y) (key x)) eqn:E; [|reflexivity].
  destruct (decide (key x = k)) as [Hx|Hx].
  - assert (key y <> k) as Hy
      by (intros Hy; rewrite Hx, Hy, key_lt_irrefl in E; discriminate).
    rewrite (filter_cons_False _ y) by exact Hy. rewrite IH.
    rewrite !(filter_cons_True _ x) by exact Hx.
    now rewrite (filter_cons_False _ y).
  - rewrite (filter_cons_False _ x (y :: r)) by exact Hx.
    rewrite (filter_cons_False _ x r) in IH by exact Hx.
    destruct (decide (key y = k)) as [Hy|Hy].
    + rewrite !(filter_cons_True _ y) by exact Hy. now rewrite IH.
    + rewrite !(filter_cons_False _ y) by exact Hy. exact IH.
Qed.

Lemma sorted_stable k l :
  filter (fun a => key a = k) (sorted key l) = filter (fun a => key a = k) l.
Proof.
  induction l as [|x l IH]; simpl; [reflexivity|].
  rewrite filter_insert.
  destruct (decide (key x = k)) as [Hx|Hx].
  - rewrite !(filter_cons_True _ x) by exact Hx. now rewrite IH.
  - rewrite !(filter_cons_False _ x) by exact Hx. exact IH.
Qed.
End SortedFacts.

(* ===================================================================== *)
(** * Facts about [extract_prefix_sort_key] *)
(* ===================================================================== *)

Section KeyFacts.
Import Selector.

Lemma append_cons x (a b : string) : (String x a ++ b = String x (a ++ b))%string.
Proof. reflexivity. Qed.

Lemma append_empty_r (a : string) : (a ++ "")%string = a.
Proof. induction a as [|x a IH]; [reflexivity|]. now rewrite append_cons, IH. Qed.

Lemma append_assoc (a b c : string) : ((a ++ b) ++ c = a ++ (b ++ c))%string.
Proof.
  induction a as [|x a IH]; [reflexivity|]. now rewrite !append_cons, IH.
Qed.

Lemma contains_char_append c a b :
  Py.contains_char c (a ++ b)%string = Py.contains_char c a || Py.contains_char c b.
Proof.
  induction a as [|x a IH]; [reflexivity|].
  rewrite append_cons. simpl. rewrite IH. now rewrite orb_assoc.
Qed.

Lemma split1_spec c s :
  match Py.split1 c s with
  | (a, Some b) => s = (a ++ String c b)%string /\ Py.contains_char c a = false
  | (a, None) => s = a /\ Py.contains_char c a = false
  end.
Proof.
  induction s as [|d s IH]; simpl; [split; reflexivity|].
  destruct (Ascii.eqb_spec d c) as [->|Hne]; [split; reflexivity|].
  destruct (Py.split1 c s) as [a [b|]]; destruct IH as [-> IH];
    rewrite ?append_cons; simpl; rewrite IH; (split; [reflexivity|]);
    destruct (Ascii.eqb_spec d c); congruence || reflexivity.
Qed.

(** [s.split(c)[0]] is the text of [s] in front of the first [c]. *)
Lemma split_head_spec c s :
  exists rest,
    s = (Py.split_head c s ++ rest)%string /\
    Py.contains_char c (Py.split_head c s) = false /\
    (rest = "" \/ Py.startswith_char c rest = true).
Proof.
  unfold Py.split_head. pose proof (split1_spec c s) as H.
  destruct (Py.split1 c s) as [a [b|]]; simpl; destruct H as [H1 H2].
  - exists (String c b). repeat split; auto. right. simpl. apply Ascii.eqb_refl.
  - exists "". subst a. rewrite append_empty_r. auto.
Qed.

(** The prefix is the text of the stem in front of its first [_] or [-]. *)
Lemma prefix_of_spec s :
  exists rest,
    s = (prefix_of s ++ rest)%string /\
    Py.contains_char "_" (prefix_of s) = false /\
    Py.contains_char "-" (prefix_of s) = false /\
    (rest = "" \/ Py.startswith_char "_" rest = true
     \/ Py.startswith_char "-" rest = true).
Proof.
  unfold prefix_of.
  destruct (split_head_spec "_" s) as (r1 & E1 & N1 & T1).
  destruct (split_head_spec "-" (Py.split_head "_" s)) as (r2 & E2 & N2 & T2).
  exists (r2 ++ r1)%string. split; [|split; [|split]].
  - rewrite <- append_assoc, <- E2. exact E1.
  - rewrite E2, contains_char_append in N1. now apply orb_false_elim in N1.
  - exact N2.
  - destruct T2 as [->|T2]; [simpl; tauto|].
    right. right. destruct r2; [discriminate | exact T2].
Qed.

Lemma lower_empty_guard p :
  match p with EmptyString => "" | _ => Py.lower p end = Py.lower p.
Proof. now destruct p. Qed.

(** The three cases of the key. *)
Lemma key_numeric f :
  Py.isdigit (prefix_of (stem (name f))) = true ->
  extract_prefix_sort_key f
  = (0, PInt (Py.digits_value 0 (prefix_of (stem (name f))))).
Proof.
  intros H. unfold extract_prefix_sort_key. rewrite H.
  now rewrite (int_isdigit _ H).
Qed.

Lemma key_alpha f :
  Py.isdigit (prefix_of (stem (name f))) = false ->
  alpha_leading (prefix_of (stem (name f))) = true ->
  extract_prefix_sort_key f = (1, PStr (Py.lower (prefix_of (stem (name f))))).
Proof. intros H1 H2. unfold extract_prefix_sort_key. now rewrite H1, H2. Qed.

Lemma key_other f :
  Py.isdigit (prefix_of (stem (name f))) = false ->
  alpha_leading (prefix_of (stem (name f))) = false ->
  extract_prefix_sort_key f = (2, PStr (Py.lower (prefix_of (stem (name f))))).
Proof.
  intros H1 H2. unfold extract_prefix_sort_key.
  now rewrite H1, H2, lower_empty_guard.
Qed.

End KeyFacts.

(* ===================================================================== *)
(** * Facts about [find_all_pdfs_with_selection] *)
(* ===================================================================== *)

Section SelectionFacts.
Import Selector.

Lemma list_files_run l : forall idx w,
  list_files idx l w = (Return tt, set_log (log w ++ listing idx l) w).
Proof.
  induction l as [|f r IH]; intros idx w; simpl.
  - rewrite app_nil_r. now destruct w.
  - unfold bind, emit. rewrite IH. simpl. now rewrite <- app_assoc.
Qed.

Lemma listing_no_warning c l : forall idx, EvInvalidChoice c ∉ listing idx l.
Proof.
  induction l as [|f r IH]; intros idx; simpl; [apply not_elem_of_nil|].
  apply not_elem_of_cons. split; [discriminate | apply IH].
Qed.

(** What [select] does with a normalised answer. *)
Lemma select_run ordered choice w :
  exists selected added,
    select ordered choice w = (Return selected, set_log (log w ++ added) w) /\
    ((choice = "ALL" \/ choice = "") ->
       selected = ordered /\ added = [EvSelectedAll]) /\
    (forall num,
       Py.int choice = Some num -> 1 <= num <= Z.of_nat (length ordered) ->
       exists f, ordered !! Z.to_nat (num - 1) = Some f /\ selected = [f]
                 /\ added = [EvSelectedOne num (name f)]) /\
    (choice <> "ALL" -> choice <> "" ->
       (Py.int choice = None \/
        exists num, Py.int choice = Some num
                    /\ ~ (1 <= num <= Z.of_nat (length ordered))) ->
       selected = ordered /\ added = [EvInvalidChoice choice]).
Proof.
  unfold select.
  destruct (String.eqb_spec choice "ALL") as [->|H1]; simpl.
  { exists ordered, [EvSelectedAll]. split; [reflexivity|].
    split; [auto|]. split; [discriminate | congruence]. }
  destruct (String.eqb_spec choice "") as [->|H2]; simpl.
  { exists ordered, [EvSelectedAll]. split; [reflexivity|].
    split; [auto|]. split; [discriminate | congruence]. }
  destruct (Py.int choice) as [num|] eqn:E.
  - destruct (Z.leb_spec 1 num) as [L1|L1]; simpl;
      [destruct (Z.leb_spec num (Z.of_nat (length ordered))) as [L2|L2]; simpl|].
    + destruct (lookup_lt_is_Some_2 ordered (Z.to_nat (num - 1))) as [f Hf]; [lia|].
      rewrite Hf. exists [f], [EvSelectedOne num (name f)].
      split; [reflexivity|]. split; [tauto|]. split.
      * intros n [= <-] _. eauto.
      * intros _ _ [?|(n & [= <-] & Hn)]; [discriminate | lia].
    + exists ordered, [EvInvalidChoice choice]. split; [reflexivity|].
      split; [tauto|]. split; [intros n [= <-]; lia | auto].
    + exists ordered, [EvInvalidChoice choice]. split; [reflexivity|].
      split; [tauto|]. split; [intros n [= <-]; lia | auto].
  - exists ordered, [EvInvalidChoice choice]. split; [reflexivity|].
    split; [tauto|]. split; [discriminate | auto].
Qed.

Lemma sorted_nonempty (found : list pdf_file) :
  found <> [] -> (1 <= length (sorted extract_prefix_sort_key found))%nat.
Proof.
  intros H. rewrite (Permutation_length (sorted_perm _ found)).
  destruct found; [congruence | simpl; lia].
Qed.

(** A single file is returned without a prompt. *)
Lemma choose_files_single only w :
  choose_files [only] w
  = (Return [only], set_log (log w ++ [EvFound 1; EvAutoSelected (name only)]) w).
Proof. unfold choose_files, bind, emit, ret. norm_world. reflexivity. Qed.

(** With any other number of files the list is printed and the next event of
    the console decides. *)
Lemma choose_files_asks pdf_files w :
  length pdf_files <> 1%nat ->
  choose_files pdf_files w
  = (do answer <- input;
     match answer with
     | KeyboardInterrupt => emit EvInterrupted ;; sys_exit 0
     | Line s => select pdf_files (Py.upper (Py.strip s))
     end)
      (set_log (log w ++ EvFound (length pdf_files) :: listing 1 pdf_files) w).
Proof.
  intros Hlen. unfold choose_files.
  destruct pdf_files as [|f1 [|f2 r]]; [|simpl in Hlen; lia|];
    unfold bind at 1; unfold emit at 1; unfold bind at 1;
    rewrite list_files_run; norm_world; reflexivity.
Qed.

(** A typed line selects from the list. *)
Lemma choose_files_run pdf_files w s rest :
  length pdf_files <> 1%nat -> stdin w = Line s :: rest ->
  choose_files pdf_files w
  = select pdf_files (Py.upper (Py.strip s))
      (set_stdin rest
         (set_log (log w ++ EvFound (length pdf_files) :: listing 1 pdf_files) w)).
Proof.
  intros Hlen Hin. rewrite (choose_files_asks _ _ Hlen).
  unfold bind at 1. unfold input. simpl stdin. rewrite Hin.
  norm_world. reflexivity.
Qed.

(** An interrupt at the prompt ends the run. *)
Lemma choose_files_interrupted pdf_files w rest :
  length pdf_files <> 1%nat -> stdin w = KeyboardInterrupt :: rest ->
  choose_files pdf_files w
  = (SysExit 0,
     set_log (log w ++ EvFound (length pdf_files) :: listing 1 pdf_files
                    ++ [EvInterrupted])
       (set_stdin rest w)).
Proof.
  intros Hlen Hin. rewrite (choose_files_asks _ _ Hlen).
  unfold bind at 1. unfold input. simpl stdin. rewrite Hin.
  unfold bind, emit, sys_exit. norm_world. reflexivity.
Qed.

(** On a folder that holds files the function is the selection from the
    sorted list. *)
Lemma find_all_sorted w found :
  input_dir w = Some found -> found <> [] ->
  find_all_pdfs_with_selection w
  = choose_files (sorted extract_prefix_sort_key found) w.
Proof.
  intros Hdir Hne. unfold find_all_pdfs_with_selection. rewrite Hdir.
  destruct found; [congruence | reflexivity].
Qed.

(** With two files or more the operator is asked, and the answer selects
    from the sorted list. *)
Lemma find_all_run w found s rest :
  input_dir w = Some found -> stdin w = Line s :: rest ->
  let ordered := sorted extract_prefix_sort_key found in
  (1 < length ordered)%nat ->
  find_all_pdfs_with_selection w
  = select ordered (Py.upper (Py.strip s))
      (set_stdin rest
         (set_log (log w ++ EvFound (length ordered) :: listing 1 ordered) w)).
Proof.
  intros Hdir Hin ordered Hlen.
  rewrite (find_all_sorted w found Hdir).
  - apply choose_files_run; [fold ordered; lia | exact Hin].
  - intros ->. simpl in Hlen. lia.
Qed.

End SelectionFacts.

(** ** C7: file selection *)

(** C7. For every non-empty ordered list of documents and any line typed at
    the selection prompt, the selection of [find_all_pdfs_with_selection]
    (lines 186-235, run on the ordered list) returns: it neither raises nor
    exits.  With a single document that document is returned and nothing is
    read.  Otherwise one line is read, stripped and upper-cased; a value
    of ALL or the empty string selects the whole list; an integer within
    1..N selects exactly the document at that 1-based position; anything
    else (not an integer, or an integer outside 1..N) selects the whole list
    and logs the invalid-choice warning. *)
Theorem selection_never_fails w ordered s rest :
  ordered <> [] -> stdin w = Line s :: rest ->
  let choice := Py.upper (Py.strip s) in
  exists selected added,
    Selector.choose_files ordered w
    = (Return selected,
       set_log (log w ++ added)
         (if (length ordered =? 1)%nat then w else set_stdin rest w)) /\
    (length ordered = 1%nat -> selected = ordered) /\
    ((1 < length ordered)%nat ->
       ((choice = "ALL" \/ choice = "") ->
          selected = ordered /\ EvInvalidChoice choice ∉ added) /\
       (forall num,
          Py.int choice = Some num -> 1 <= num <= Z.of_nat (length ordered) ->
          exists f, ordered !! Z.to_nat (num - 1) = Some f /\ selected = [f]
                    /\ EvInvalidChoice choice ∉ added) /\
       (choice <> "ALL" -> choice <> "" ->
          (Py.int choice = None \/
           exists num, Py.int choice = Some num
                       /\ ~ (1 <= num <= Z.of_nat (length ordered))) ->
          selected = ordered /\ EvInvalidChoice choice ∈ added)).
Proof.
  intros Hne Hin choice.
  destruct (decide (length ordered = 1%nat)) as [Hone|Hmany].
  - (* a single file: no prompt *)
    destruct ordered as [|f1 [|f2 r]]; try discriminate.
    exists [f1], [EvFound 1; EvAutoSelected (name f1)].
    split; [apply choose_files_single|].
    split; [reflexivity | simpl; lia].
  - (* the prompt *)
    pose proof (choose_files_run ordered w s rest Hmany Hin) as Hfind.
    fold choice in Hfind.
    destruct (select_run ordered choice
                (set_stdin rest
                   (set_log (log w ++ EvFound (length ordered)
                                       :: Selector.listing 1 ordered) w)))
      as (selected & added & Hrun & Hall & Hidx & Hbad).
    exists selected, (EvFound (length ordered) :: Selector.listing 1 ordered ++ added).
    split.
    + rewrite Hfind, Hrun. apply Nat.eqb_neq in Hmany. rewrite Hmany.
      norm_world. reflexivity.
    + split; [intros; lia|]. intros _.
      assert (forall evs, EvInvalidChoice choice ∉ evs ->
                EvInvalidChoice choice
                ∉ EvFound (length ordered) :: Selector.listing 1 ordered ++ evs)
        as Hquiet.
      { intros evs Hevs. rewrite not_elem_of_cons, not_elem_of_app.
        split; [discriminate|]. split; [apply listing_no_warning | exact Hevs]. }
      split; [|split].
      * intros H. destruct (Hall H) as [-> ->]. split; [reflexivity|].
        apply Hquiet. rewrite not_elem_of_cons.
        split; [discriminate | apply not_elem_of_nil].
      * intros num H1 H2. destruct (Hidx num H1 H2) as (f & Hf & -> & ->).
        exists f. split; [exact Hf|]. split; [reflexivity|].
        apply Hquiet. rewrite not_elem_of_cons.
        split; [discriminate | apply not_elem_of_nil].
      * intros H1 H2 H3. destruct (Hbad H1 H2 H3) as [-> ->].
        split; [reflexivity|].
        rewrite elem_of_cons, elem_of_app, elem_of_cons. tauto.
Qed.

Lemma selection_never_fails_witness :
  let ordered := [PdfFile "a_1.pdf" None [] None; PdfFile "b_2.pdf" None [] None] in
  let w := World None None [Line " 2 "; Line "1"] ∅ [] in
  exists selected added,
    Selector.choose_files ordered w
    = (Return selected, set_log (log w ++ added) (set_stdin [Line "1"] w)) /\
    selected = [PdfFile "b_2.pdf" None [] None].
Proof.
  intros ordered w.
  destruct (selection_never_fails w ordered " 2 " [Line "1"]
              ltac:(discriminate) eq_refl)
    as (selected & added & Hrun & _ & Hmany).
  exists selected, added. split; [exact Hrun|].
  destruct (Hmany ltac:(simpl; lia)) as (_ & Hidx & _).
  destruct (Hidx 2 eq_refl ltac:(simpl; lia)) as (f & Hf & -> & _).
  simpl in Hf. now injection Hf as <-.
Defined.

(** ** C4: the order of the discovered documents

    The script does not order every folder.  Line 150 tests the prefix with
    [str.isdigit], which accepts digit characters that [int] (line 151) does
    not convert: for a file named after a superscript two (U+00B2) followed
    by [_a.pdf] the key function raises [ValueError], and with it the sort
    at line 184, before anything is listed.  Every other call of [int] in
    the script is guarded by [try] ... [except ValueError].  On file names
    written in ASCII the two tests agree and the documents are ordered by
    rank and value; that is proved with the further properties on the order
    of the files. *)

(** ** C10: equal keys and the stable sort *)

(** C10. The sort key is not injective on file names.  Two files whose
    prefixes are both purely numeric and have the same integer value (such as
    007 and 7) get the same key (0, n); sorting the two of them returns them
    in the order they were given, whichever that is; and in general the
    documents that share a key appear in the sorted list in their discovery
    order. *)
Theorem sort_key_not_injective :
  (forall f1 f2,
      let p1 := Selector.prefix_of (Selector.stem (name f1)) in
      let p2 := Selector.prefix_of (Selector.stem (name f2)) in
      Py.isdigit p1 = true -> Py.isdigit p2 = true -> Py.int p1 = Py.int p2 ->
      exists n,
        Py.int p1 = Some n /\
        Selector.extract_prefix_sort_key f1 = (0, Selector.PInt n) /\
        Selector.extract_prefix_sort_key f2 = (0, Selector.PInt n) /\
        Selector.sorted Selector.extract_prefix_sort_key [f1; f2] = [f1; f2] /\
        Selector.sorted Selector.extract_prefix_sort_key [f2; f1] = [f2; f1]) /\
  (forall k found,
      filter (fun f => Selector.extract_prefix_sort_key f = k)
        (Selector.sorted Selector.extract_prefix_sort_key found)
      = filter (fun f => Selector.extract_prefix_sort_key f = k) found).
Proof.
  split.
  - intros f1 f2 p1 p2 H1 H2 Heq.
    exists (Py.digits_value 0 p1).
    pose proof (int_isdigit p1 H1) as E1. pose proof (int_isdigit p2 H2) as E2.
    assert (Py.digits_value 0 p2 = Py.digits_value 0 p1) as E by congruence.
    pose proof (key_numeric f1 H1) as K1. pose proof (key_numeric f2 H2) as K2.
    fold p2 in K2. rewrite E in K2. fold p1 in K1.
    split; [exact E1|]. split; [exact K1|]. split; [exact K2|].
    unfold Selector.sorted. simpl.
    rewrite K1, K2, key_lt_irrefl. split; reflexivity.
  - intros k found. apply sorted_stable.
Qed.

Lemma sort_key_not_injective_witness :
  let f1 := PdfFile "007_scan.pdf" None [] None in
  let f2 := PdfFile "7_scan.pdf" None [] None in
  name f1 <> name f2 /\
  exists n,
    Py.int "007" = Some n /\
    Selector.extract_prefix_sort_key f1 = (0, Selector.PInt n) /\
    Selector.extract_prefix_sort_key f2 = (0, Selector.PInt n) /\
    Selector.sorted Selector.extract_prefix_sort_key [f1; f2] = [f1; f2] /\
    Selector.sorted Selector.extract_prefix_sort_key [f2; f1] = [f2; f1].
Proof.
  intros f1 f2. split; [discriminate|].
  apply (proj1 sort_key_not_injective f1 f2); reflexivity.
Defined.

(* ===================================================================== *)
(** * Facts about [create_number_overlay] *)
(* ===================================================================== *)

Section OverlayFacts.
Import Overlay.
Variable stringWidth : string -> Q.

Lemma getitem_some (config : gmap string Z) key v w :
  config !! key = Some v -> getitem config key w = (Return v, w).
Proof. intros H. unfold getitem. now rewrite H. Qed.

(** Reading a dict never touches the world and never exits. *)
Lemma getitem_pure (config : gmap string Z) key w :
  (exists v, getitem config key w = (Return v, w)) \/
  getitem config key w = (Raise (KeyError key), w).
Proof. unfold getitem. destruct (config !! key); eauto. Qed.

Lemma decoration_run config draw_box draw_circle pad x y wd w :
  config !! "DRAW_BOX" = Some draw_box ->
  config !! "DRAW_CIRCLE" = Some draw_circle ->
  config !! "PAD" = Some pad ->
  decoration config x y wd w
  = (Return (decoration_ops draw_box draw_circle pad x y wd), w).
Proof.
  intros Hb Hc Hp. unfold decoration, decoration_ops, bind.
  rewrite (getitem_some _ _ _ _ Hb).
  destruct (negb (draw_box =? 0)).
  - now rewrite (getitem_some _ _ _ _ Hp).
  - rewrite (getitem_some _ _ _ _ Hc).
    destruct (negb (draw_circle =? 0)); [|reflexivity].
    now rewrite (getitem_some _ _ _ _ Hp).
Qed.

Lemma draw_label_run config xkey ykey number x y digits draw_box draw_circle pad w :
  config !! xkey = Some x -> config !! ykey = Some y ->
  config !! "DIGITS" = Some digits ->
  config !! "DRAW_BOX" = Some draw_box ->
  config !! "DRAW_CIRCLE" = Some draw_circle ->
  config !! "PAD" = Some pad ->
  draw_label stringWidth config xkey ykey number w
  = (Return
       (decoration_ops draw_box draw_circle pad x y
          (stringWidth (format_number number digits))
        ++ [DrawString (inject_Z x) (inject_Z y) (format_number number digits)])%list,
     w).
Proof.
  intros Hx Hy Hd Hb Hc Hp. unfold draw_label, bind.
  rewrite (getitem_some _ _ _ _ Hx), (getitem_some _ _ _ _ Hy),
    (getitem_some _ _ _ _ Hd).
  now rewrite (decoration_run _ _ _ _ _ _ _ _ Hb Hc Hp).
Qed.

(** A complete configuration gives every lookup the overlay makes. *)
Lemma complete_lookup config key :
  config_complete config -> key ∈ Config.required -> exists v, config !! key = Some v.
Proof. intros H Hk. destruct (H key Hk) as [v Hv]. eauto. Qed.

Lemma create_number_overlay_total config number1 number2 pw ph w :
  config_complete config ->
  exists ops,
    create_number_overlay stringWidth number1 number2 config pw ph w
    = (Return ops, w).
Proof.
  intros Hc.
  destruct (complete_lookup config "X1" Hc ltac:(by_decide)) as [x1 Hx1].
  destruct (complete_lookup config "Y1" Hc ltac:(by_decide)) as [y1 Hy1].
  destruct (complete_lookup config "X2" Hc ltac:(by_decide)) as [x2 Hx2].
  destruct (complete_lookup config "Y2" Hc ltac:(by_decide)) as [y2 Hy2].
  destruct (complete_lookup config "DIGITS" Hc ltac:(by_decide)) as [dg Hdg].
  destruct (complete_lookup config "PAD" Hc ltac:(by_decide)) as [pad Hpad].
  destruct (complete_lookup config "DRAW_BOX" Hc ltac:(by_decide)) as [b Hb].
  destruct (complete_lookup config "DRAW_CIRCLE" Hc ltac:(by_decide)) as [c Hcir].
  unfold create_number_overlay, bind.
  rewrite (draw_label_run _ _ _ _ _ _ _ _ _ _ _ Hx1 Hy1 Hdg Hb Hcir Hpad).
  rewrite (draw_label_run _ _ _ _ _ _ _ _ _ _ _ Hx2 Hy2 Hdg Hb Hcir Hpad).
  eauto.
Qed.

(** In every case the overlay leaves the world alone and does not exit. *)
Lemma decoration_pure config x y wd w :
  exists o, decoration config x y wd w = (o, w) /\ forall c, o <> SysExit c.
Proof.
  unfold decoration, bind.
  destruct (getitem_pure config "DRAW_BOX" w) as [[b ->]| ->]; [|eexists; split; [reflexivity | discriminate]].
  destruct (negb (b =? 0)).
  - destruct (getitem_pure config "PAD" w) as [[p ->]| ->];
      eexists; (split; [reflexivity | discriminate]).
  - destruct (getitem_pure config "DRAW_CIRCLE" w) as [[c ->]| ->];
      [|eexists; split; [reflexivity | discriminate]].
    destruct (negb (c =? 0)); [|eexists; split; [reflexivity | discriminate]].
    destruct (getitem_pure config "PAD" w) as [[p ->]| ->];
      eexists; (split; [reflexivity | discriminate]).
Qed.

Lemma draw_label_pure config xkey ykey number w :
  exists o, draw_label stringWidth config xkey ykey number w = (o, w)
            /\ forall c, o <> SysExit c.
Proof.
  unfold draw_label, bind.
  destruct (getitem_pure config xkey w) as [[x ->]| ->]; [|eexists; split; [reflexivity | discriminate]].
  destruct (getitem_pure config ykey w) as [[y ->]| ->]; [|eexists; split; [reflexivity | discriminate]].
  destruct (getitem_pure config "DIGITS" w) as [[d ->]| ->]; [|eexists; split; [reflexivity | discriminate]].
  destruct (decoration_pure config x y (stringWidth (format_number number d)) w)
    as (o & -> & Ho).
  destruct o; eexists; (split; [reflexivity|]); try discriminate.
  intros c' E. exact (Ho _ E).
Qed.

Lemma create_number_overlay_pure config number1 number2 pw ph w :
  exists o, create_number_overlay stringWidth number1 number2 config pw ph w = (o, w)
            /\ forall c, o <> SysExit c.
Proof.
  unfold create_number_overlay, bind.
  destruct (draw_label_pure config "X1" "Y1" number1 w) as (o1 & -> & H1).
  destruct o1 as [first|e|c]; [| eexists; split; [reflexivity | discriminate] | now destruct (H1 c)].
  destruct (draw_label_pure config "X2" "Y2" number2 w) as (o2 & -> & H2).
  destruct o2 as [second|e|c]; [| eexists; split; [reflexivity | discriminate] | now destruct (H2 c)].
  eexists; split; [reflexivity | discriminate].
Qed.

End OverlayFacts.

(** ** C8: decorations *)

(** C8. For a configuration holding the eight keys, the overlay of a page is,
    for each of its two labels, an optional decoration followed by the text.
    The decoration is at most one drawing call: the rectangle when
    [DRAW_BOX] is set, also when [DRAW_CIRCLE] is set as well (the box wins);
    the circle when only [DRAW_CIRCLE] is set; nothing when neither is
    set. *)
Theorem at_most_one_decoration_per_label
    (stringWidth : string -> Q) (config : gmap string Z)
    number1 number2 pw ph w x1 y1 x2 y2 digits pad draw_box draw_circle :
  config !! "X1" = Some x1 -> config !! "Y1" = Some y1 ->
  config !! "X2" = Some x2 -> config !! "Y2" = Some y2 ->
  config !! "DIGITS" = Some digits -> config !! "PAD" = Some pad ->
  config !! "DRAW_BOX" = Some draw_box ->
  config !! "DRAW_CIRCLE" = Some draw_circle ->
  let h := inject_Z Overlay.font_size in
  let t1 := Overlay.format_number number1 digits in
  let t2 := Overlay.format_number number2 digits in
  let rect x y t :=
    Rect (inject_Z (x - pad)) (inject_Z (y - pad))
         (stringWidth t + inject_Z (pad * 2)) (h + inject_Z (pad * 2)) in
  let circle x y t :=
    Circle (inject_Z x + stringWidth t / 2) (inject_Z y + h / 2)
           (Overlay.max2 (stringWidth t) h / 2 + inject_Z pad) in
  exists deco1 deco2,
    Overlay.create_number_overlay stringWidth number1 number2 config pw ph w
    = (Return (deco1 ++ [DrawString (inject_Z x1) (inject_Z y1) t1]
               ++ deco2 ++ [DrawString (inject_Z x2) (inject_Z y2) t2])%list,
       w) /\
    (length deco1 <= 1)%nat /\ (length deco2 <= 1)%nat /\
    (draw_box <> 0 -> deco1 = [rect x1 y1 t1] /\ deco2 = [rect x2 y2 t2]) /\
    (draw_box = 0 -> draw_circle <> 0 ->
       deco1 = [circle x1 y1 t1] /\ deco2 = [circle x2 y2 t2]) /\
    (draw_box = 0 -> draw_circle = 0 -> deco1 = [] /\ deco2 = []).
Proof.
  intros Hx1 Hy1 Hx2 Hy2 Hd Hp Hb Hc h t1 t2 rect circle.
  exists (decoration_ops draw_box draw_circle pad x1 y1 (stringWidth t1)),
         (decoration_ops draw_box draw_circle pad x2 y2 (stringWidth t2)).
  split.
  - unfold Overlay.create_number_overlay, bind.
    rewrite (draw_label_run stringWidth _ _ _ _ _ _ _ _ _ _ _ Hx1 Hy1 Hd Hb Hc Hp).
    rewrite (draw_label_run stringWidth _ _ _ _ _ _ _ _ _ _ _ Hx2 Hy2 Hd Hb Hc Hp).
    unfold ret. now rewrite <- !app_assoc.
  - unfold decoration_ops.
    destruct (Z.eqb_spec draw_box 0) as [Eb|Eb];
      destruct (Z.eqb_spec draw_circle 0) as [Ec|Ec]; simpl;
      repeat split; auto; intros; congruence.
Qed.

Lemma at_most_one_decoration_per_label_witness :
  let config := Config.config_of_lines
                  ["X1=40"; "Y1=30"; "X2=500"; "Y2=30"; "DIGITS=4"; "PAD=2";
                   "DRAW_BOX=1"; "DRAW_CIRCLE=1"] in
  let sw := fun t : string => inject_Z (7 * Py.len t) in
  let w := World None None [] ∅ [] in
  exists deco1 deco2,
    Overlay.create_number_overlay sw 1 2 config (595 # 1) (842 # 1) w
    = (Return (deco1 ++ [DrawString (inject_Z 40) (inject_Z 30) "0001"]
               ++ deco2 ++ [DrawString (inject_Z 500) (inject_Z 30) "0002"])%list,
       w) /\
    deco1 = [Rect (inject_Z 38) (inject_Z 28)
                  (inject_Z 28 + inject_Z 4) (inject_Z 12 + inject_Z 4)] /\
    deco2 = [Rect (inject_Z 498) (inject_Z 28)
                  (inject_Z 28 + inject_Z 4) (inject_Z 12 + inject_Z 4)].
Proof.
  intros config sw w.
  destruct (at_most_one_decoration_per_label sw config 1 2 (595 # 1) (842 # 1) w
              40 30 500 30 4 2 1 1
              eq_refl eq_refl eq_refl eq_refl eq_refl eq_refl eq_refl eq_refl)
    as (deco1 & deco2 & Hrun & _ & _ & Hbox & _).
  exists deco1, deco2. split; [exact Hrun|].
  exact (Hbox ltac:(discriminate)).
Defined.

(* ===================================================================== *)
(** * Facts about [process_pdf] *)
(* ===================================================================== *)

Lemma label_pairs_length current n : length (label_pairs current n) = n.
Proof. revert current. induction n as [|n IH]; intros c; simpl; [reflexivity | now rewrite IH]. Qed.

Lemma label_pairs_lookup n : forall current (i : nat),
  (i < n)%nat ->
  label_pairs current n !! i
  = Some (current + 2 * Z.of_nat i, current + 2 * Z.of_nat i + 1).
Proof.
  induction n as [|n IH]; intros c i Hi; [lia|].
  destruct i as [|i]; simpl.
  - f_equal. f_equal; lia.
  - rewrite IH by lia. f_equal. f_equal; lia.
Qed.

Lemma starts_of_app (a b : list event) :
  starts_of (a ++ b) = (starts_of a ++ starts_of b)%list.
Proof. unfold starts_of. apply omap_app. Qed.

Section ProcessFacts.
Import Overlay Driver.
Variable stringWidth : string -> Q.
Variable config : gmap string Z.
Hypothesis complete : config_complete config.

Lemma merge_overlay_ok num1 num2 p w :
  overlay_error p = None ->
  exists ops,
    merge_overlay stringWidth num1 num2 config p w
    = (Return (MergedPage p (num1, num2) ops), w).
Proof.
  intros Hp. unfold merge_overlay, bind.
  destruct (create_number_overlay_total stringWidth config num1 num2
              (page_width p) (page_height p) w complete) as [ops ->].
  rewrite Hp. eauto.
Qed.

Lemma merge_overlay_bad num1 num2 p msg w :
  overlay_error p = Some msg ->
  merge_overlay stringWidth num1 num2 config p w = (Raise (BackendError msg), w).
Proof.
  intros Hp. unfold merge_overlay, bind.
  destruct (create_number_overlay_total stringWidth config num1 num2
              (page_width p) (page_height p) w complete) as [ops ->].
  now rewrite Hp.
Qed.

Lemma digits_present : exists digits, config !! "DIGITS" = Some digits.
Proof. apply complete_lookup; [exact complete | by_decide]. Qed.

(** Every page renders: the loop returns, two numbers per page. *)
Lemma process_pages_ok todo : forall page_index current writer w,
  forallb page_ok todo = true ->
  exists merged evs,
    process_pages stringWidth config todo page_index current writer w
    = (Return (current + 2 * Z.of_nat (length todo), (writer ++ merged)%list),
       set_log (log w ++ evs) w) /\
    map stamp merged = label_pairs current (length todo) /\
    map source merged = todo /\
    starts_of evs = [].
Proof.
  destruct digits_present as [digits Hd].
  induction todo as [|p rest IH]; intros idx cur writer w Hok.
  - exists [], []. simpl. rewrite !app_nil_r, Z.add_0_r.
    unfold ret. destruct w; auto.
  - simpl in Hok. apply andb_prop in Hok as [Hp Hrest].
    unfold page_ok in Hp. destruct (overlay_error p) eqn:Ep; [discriminate|].
    cbn [process_pages]. unfold bind at 1. rewrite (getitem_some _ _ _ _ Hd).
    unfold bind at 1. unfold emit at 1. unfold bind at 1. unfold catch.
    destruct (merge_overlay_ok cur (cur + 1) p
                (set_log (log w ++ [EvPage idx (format_number cur digits)
                                      (format_number (cur + 1) digits)]) w) Ep)
      as [ops ->].
    destruct (IH (idx + 1) (cur + 2) (writer ++ [MergedPage p (cur, cur + 1) ops])
                (set_log (log w ++ [EvPage idx (format_number cur digits)
                                      (format_number (cur + 1) digits)]) w) Hrest)
      as (merged & evs & -> & Hst & Hsrc & Hq).
    exists (MergedPage p (cur, cur + 1) ops :: merged),
           (EvPage idx (format_number cur digits) (format_number (cur + 1) digits)
            :: evs).
    split; [|split; [|split]].
    + norm_world. do 3 f_equal. lia.
    + simpl. now rewrite Hst.
    + simpl. now rewrite Hsrc.
    + exact Hq.
Qed.

(** Some page does not render: the loop raises the page error, having
    logged nothing but page lines. *)
Lemma process_pages_bad todo : forall page_index current writer w,
  forallb page_ok todo = false ->
  exists i msg evs,
    process_pages stringWidth config todo page_index current writer w
    = (Raise (PageError i (BackendError msg)), set_log (log w ++ evs) w) /\
    page_index <= i < page_index + Z.of_nat (length todo) /\
    starts_of evs = [].
Proof.
  destruct digits_present as [digits Hd].
  induction todo as [|p rest IH]; intros idx cur writer w Hbad; [discriminate|].
  cbn [process_pages]. unfold bind at 1. rewrite (getitem_some _ _ _ _ Hd).
  unfold bind at 1. unfold emit at 1. unfold bind at 1. unfold catch.
  set (line := EvPage idx (format_number cur digits) (format_number (cur + 1) digits)).
  destruct (overlay_error p) as [msg|] eqn:Ep.
  - rewrite (merge_overlay_bad cur (cur + 1) p msg _ Ep).
    exists idx, msg, [line; EvPageError idx (BackendError msg)].
    split; [|split; [simpl length; lia | reflexivity]].
    unfold bind, emit, raise. norm_world. reflexivity.
  - destruct (merge_overlay_ok cur (cur + 1) p (set_log (log w ++ [line]) w) Ep)
      as [ops ->].
    simpl in Hbad. unfold page_ok at 1 in Hbad. rewrite Ep in Hbad. simpl in Hbad.
    destruct (IH (idx + 1) (cur + 2) (writer ++ [MergedPage p (cur, cur + 1) ops])
                (set_log (log w ++ [line]) w) Hbad)
      as (i & msg & evs & -> & Hi & Hq).
    exists i, msg, (line :: evs).
    split; [|split; [simpl length; lia | exact Hq]].
    norm_world. reflexivity.
Qed.

End ProcessFacts.

(* ===================================================================== *)
(** * Facts about [process_pdf] and the batch loop *)
(* ===================================================================== *)

Section BatchFacts.
Import Overlay Driver.
Variable stringWidth : string -> Q.
Variable config : gmap string Z.
Hypothesis complete : config_complete config.

(** A healthy document: the numbered copy is written and the next start
    value is returned. *)
Lemma process_pdf_healthy d out start w :
  healthy d = true ->
  exists merged evs,
    process_pdf stringWidth d out start config w
    = (Return (start + 2 * Z.of_nat (length (pages d))),
       set_output_dir (<[out := Written merged]> (output_dir w))
         (set_log (log w ++ EvProcessing (name d) out start :: evs) w)) /\
    map stamp merged = label_pairs start (length (pages d)) /\
    map source merged = pages d /\
    starts_of evs = [].
Proof.
  unfold healthy. intros H.
  destruct (open_error d) eqn:Eo; [discriminate|].
  destruct (save_error d) eqn:Es; [discriminate|].
  destruct (digits_present config complete) as [digits Hd].
  unfold process_pdf. unfold bind at 1. unfold emit at 1.
  unfold bind at 1. unfold open_reader. rewrite Eo. unfold ret at 1.
  unfold bind at 1. unfold emit at 1. unfold bind at 1.
  destruct (process_pages_ok stringWidth config complete (pages d) 1 start []
              (set_log
                 (log (set_log (log w ++ [EvProcessing (name d) out start]) w)
                  ++ [EvPageCount (length (pages d))])
                 (set_log (log w ++ [EvProcessing (name d) out start]) w)) H)
    as (merged & evs & -> & Hst & Hsrc & Hq).
  exists merged,
    (EvPageCount (length (pages d)) :: evs
     ++ [EvWritten out (format_number start digits)
           (format_number (start + 2 * Z.of_nat (length (pages d)) - 1) digits)]).
  split; [|split; [exact Hst | split; [exact Hsrc|]]].
  - unfold write_output. rewrite Es. unfold bind, store_file.
    rewrite (getitem_some _ _ _ _ Hd). unfold emit, ret.
    norm_world. reflexivity.
  - change (EvPageCount (length (pages d)) :: evs ++ ?l)
      with ([EvPageCount (length (pages d))] ++ evs ++ l).
    rewrite !starts_of_app, Hq. reflexivity.
Qed.

(** A page that does not render: the page error propagates, nothing is
    written. *)
Lemma process_pdf_page_failure d out start w :
  open_error d = None -> forallb page_ok (pages d) = false ->
  exists i msg evs,
    process_pdf stringWidth d out start config w
    = (Raise (PageError i (BackendError msg)),
       set_log (log w ++ EvProcessing (name d) out start :: evs) w) /\
    1 <= i <= Z.of_nat (length (pages d)) /\
    starts_of evs = [].
Proof.
  intros Eo Hbad.
  unfold process_pdf. unfold bind at 1. unfold emit at 1.
  unfold bind at 1. unfold open_reader. rewrite Eo. unfold ret at 1.
  unfold bind at 1. unfold emit at 1. unfold bind at 1.
  destruct (process_pages_bad stringWidth config complete (pages d) 1 start []
              (set_log
                 (log (set_log (log w ++ [EvProcessing (name d) out start]) w)
                  ++ [EvPageCount (length (pages d))])
                 (set_log (log w ++ [EvProcessing (name d) out start]) w)) Hbad)
    as (i & msg & evs & -> & Hi & Hq).
  exists i, msg, (EvPageCount (length (pages d)) :: evs).
  split; [norm_world; reflexivity|]. split; [lia | exact Hq].
Qed.

(** Any document that is not healthy: an exception propagates; only a
    failing write can touch the output folder. *)
Lemma process_pdf_unhealthy d out start w :
  healthy d = false ->
  exists e files evs,
    process_pdf stringWidth d out start config w
    = (Raise e,
       set_output_dir files
         (set_log (log w ++ EvProcessing (name d) out start :: evs) w)) /\
    starts_of evs = [].
Proof.
  unfold healthy. intros H.
  destruct (open_error d) as [msg|] eqn:Eo.
  { exists (BackendError msg), (output_dir w), [].
    split; [|reflexivity].
    unfold process_pdf, bind, emit, open_reader. rewrite Eo. reflexivity. }
  destruct (forallb page_ok (pages d)) eqn:Hp.
  - destruct (save_error d) as [failure|] eqn:Es; [|discriminate].
    unfold process_pdf. unfold bind at 1. unfold emit at 1.
    unfold bind at 1. unfold open_reader. rewrite Eo. unfold ret at 1.
    unfold bind at 1. unfold emit at 1. unfold bind at 1.
    destruct (process_pages_ok stringWidth config complete (pages d) 1 start []
                (set_log
                   (log (set_log (log w ++ [EvProcessing (name d) out start]) w)
                    ++ [EvPageCount (length (pages d))])
                   (set_log (log w ++ [EvProcessing (name d) out start]) w)) Hp)
      as (merged & evs & -> & _ & _ & Hq).
    unfold write_output. rewrite Es. destruct failure.
    + exists (BackendError "open"), (output_dir w),
        (EvPageCount (length (pages d)) :: evs).
      split; [unfold bind, raise; norm_world; reflexivity | exact Hq].
    + exists (BackendError "write"), (<[out := Truncated]> (output_dir w)),
        (EvPageCount (length (pages d)) :: evs).
      split; [unfold bind, raise, store_file; norm_world; reflexivity | exact Hq].
  - destruct (process_pdf_page_failure d out start w Eo Hp)
      as (i & msg & evs & -> & _ & Hq).
    exists (PageError i (BackendError msg)), (output_dir w), evs.
    split; [reflexivity | exact Hq].
Qed.

(** One iteration of the loop, for a healthy document and for any other. *)
Lemma batch_step_healthy mode base_start d st w :
  healthy d = true ->
  let start := start_number_for mode base_start st in
  exists merged evs,
    batch_step stringWidth mode base_start config d st w
    = (Return {| next_number := start + 2 * Z.of_nat (length (pages d));
                 success_count := success_count st + 1;
                 fail_count := fail_count st |},
       set_output_dir (<[output_name d := Written merged]> (output_dir w))
         (set_log (log w ++ EvProcessing (name d) (output_name d) start :: evs) w)) /\
    map stamp merged = label_pairs start (length (pages d)) /\
    map source merged = pages d /\
    starts_of evs = [].
Proof.
  intros H start.
  destruct (process_pdf_healthy d (output_name d) start w H)
    as (merged & evs & Hrun & Hst & Hsrc & Hq).
  exists merged, (evs ++ [EvFileDone (output_name d)]).
  split; [|split; [exact Hst | split; [exact Hsrc|]]].
  - unfold batch_step. fold start. rewrite Hrun.
    unfold bind, emit, ret. norm_world. reflexivity.
  - rewrite starts_of_app, Hq. reflexivity.
Qed.

Lemma batch_step_unhealthy mode base_start d st w :
  healthy d = false ->
  let start := start_number_for mode base_start st in
  exists files evs,
    batch_step stringWidth mode base_start config d st w
    = (Return {| next_number := next_number st;
                 success_count := success_count st;
                 fail_count := fail_count st + 1 |},
       set_output_dir files
         (set_log (log w ++ EvProcessing (name d) (output_name d) start :: evs) w)) /\
    starts_of evs = [].
Proof.
  intros H start.
  destruct (process_pdf_unhealthy d (output_name d) start w H)
    as (e & files & evs & Hrun & Hq).
  exists files, (evs ++ [EvFileFailed (name d) e]).
  split.
  - unfold batch_step. fold start. rewrite Hrun.
    unfold bind, emit, ret. norm_world. reflexivity.
  - rewrite starts_of_app, Hq. reflexivity.
Qed.

(** The whole loop: it always returns, the log shows one start number per
    document, and the two counters count the healthy and the other
    documents. *)
Lemma run_batch_trace mode base_start docs : forall st w,
  exists st' files added,
    run_batch stringWidth mode base_start config docs st w
    = (Return st', set_output_dir files (set_log (log w ++ added) w)) /\
    starts_of added = expected_starts mode base_start (next_number st) docs /\
    success_count st' = success_count st + Z.of_nat (length (List.filter healthy docs)) /\
    fail_count st'
    = fail_count st
      + Z.of_nat (length (List.filter (fun d => negb (healthy d)) docs)).
Proof.
  induction docs as [|d rest IH]; intros st w.
  - exists st, (output_dir w), []. simpl. unfold ret. rewrite app_nil_r.
    split; [now destruct w|]. unfold expected_starts.
    destruct (String.eqb mode "1"); repeat split; lia.
  - cbn [run_batch]. unfold bind at 1.
    destruct (healthy d) eqn:Hh.
    + destruct (batch_step_healthy mode base_start d st w Hh)
        as (merged & evs & -> & _ & _ & Hq).
      match goal with
      | |- context [run_batch _ _ _ _ rest ?s ?v] =>
          destruct (IH s v) as (st' & files & added & -> & Hs & Hok & Hko)
      end.
      exists st', files,
        (EvProcessing (name d) (output_name d)
           (start_number_for mode base_start st) :: evs ++ added).
      split; [norm_world; reflexivity|]. split; [|split].
      * change (?e :: evs ++ added) with ([e] ++ evs ++ added).
        rewrite !starts_of_app, Hq, Hs. unfold expected_starts, start_number_for.
        simpl. rewrite Hh. destruct (String.eqb mode "1"); reflexivity.
      * rewrite Hok. simpl. rewrite Hh. simpl length. lia.
      * rewrite Hko. simpl. rewrite Hh. simpl. lia.
    + destruct (batch_step_unhealthy mode base_start d st w Hh)
        as (files0 & evs & -> & Hq).
      match goal with
      | |- context [run_batch _ _ _ _ rest ?s ?v] =>
          destruct (IH s v) as (st' & files & added & -> & Hs & Hok & Hko)
      end.
      exists st', files,
        (EvProcessing (name d) (output_name d)
           (start_number_for mode base_start st) :: evs ++ added).
      split; [norm_world; reflexivity|]. split; [|split].
      * change (?e :: evs ++ added) with ([e] ++ evs ++ added).
        rewrite !starts_of_app, Hq, Hs. unfold expected_starts, start_number_for.
        simpl. rewrite Hh. destruct (String.eqb mode "1"); reflexivity.
      * rewrite Hok. simpl. rewrite Hh. simpl. lia.
      * rewrite Hko. simpl. rewrite Hh. simpl length. lia.
Qed.

End BatchFacts.

(** Consecutive start numbers in continuous mode. *)
Lemma continuous_starts_length docs : forall next,
  length (continuous_starts next docs) = length docs.
Proof. induction docs as [|d r IH]; intros n; simpl; [reflexivity | now rewrite IH]. Qed.

Lemma continuous_starts_head next docs d :
  docs !! 0%nat = Some d -> continuous_starts next docs !! 0%nat = Some next.
Proof. destruct docs; [discriminate | reflexivity]. Qed.

Lemma continuous_starts_step docs : forall next (k : nat) d s,
  docs !! k = Some d -> continuous_starts next docs !! k = Some s ->
  (S k < length docs)%nat ->
  continuous_starts next docs !! S k
  = Some (if healthy d then s + 2 * Z.of_nat (length (pages d)) else s).
Proof.
  induction docs as [|d0 rest IH]; intros next k d s Hd Hs Hk; [discriminate|].
  destruct k as [|k].
  - simpl in Hd, Hs. injection Hd as ->. injection Hs as ->.
    destruct rest as [|d1 rest]; [simpl in Hk; lia | reflexivity].
  - simpl in Hd, Hs, Hk.
    change (continuous_starts next (d0 :: rest) !! S (S k))
      with (continuous_starts
              (if healthy d0 then next + 2 * Z.of_nat (length (pages d0)) else next)
              rest !! S k).
    apply IH; [exact Hd | exact Hs | lia].
Qed.

(** Before the first healthy document every start number is the first. *)
Lemma continuous_starts_idle docs : forall next (k : nat),
  (k < length docs)%nat ->
  (forall j d, (j < k)%nat -> docs !! j = Some d -> healthy d = false) ->
  continuous_starts next docs !! k = Some next.
Proof.
  induction docs as [|d0 rest IH]; intros next k Hk Hidle; [simpl in Hk; lia|].
  destruct k as [|k]; [reflexivity|].
  simpl. rewrite (Hidle 0%nat d0 ltac:(lia) eq_refl).
  apply IH; [simpl in Hk; lia|].
  intros j d Hj Hd. apply (Hidle (S j) d); [lia | exact Hd].
Qed.

(** Under a complete configuration the outcome of [process_pdf] tells
    whether the document is healthy. *)
Lemma process_pdf_returns stringWidth (config : gmap string Z) d out start w n w' :
  config_complete config ->
  Driver.process_pdf stringWidth d out start config w = (Return n, w') ->
  healthy d = true /\ n = start + 2 * Z.of_nat (length (pages d)).
Proof.
  intros Hc Hrun. destruct (healthy d) eqn:Hh.
  - destruct (process_pdf_healthy stringWidth config Hc d out start w Hh)
      as (merged & evs & Hrun' & _).
    rewrite Hrun in Hrun'. injection Hrun' as -> _. auto.
  - destruct (process_pdf_unhealthy stringWidth config Hc d out start w Hh)
      as (e & files & evs & Hrun' & _).
    rewrite Hrun in Hrun'. discriminate.
Qed.

Lemma process_pdf_raises stringWidth (config : gmap string Z) d out start w e w' :
  config_complete config ->
  Driver.process_pdf stringWidth d out start config w = (Raise e, w') ->
  healthy d = false.
Proof.
  intros Hc Hrun. destruct (healthy d) eqn:Hh; [|reflexivity].
  destruct (process_pdf_healthy stringWidth config Hc d out start w Hh)
    as (merged & evs & Hrun' & _).
  rewrite Hrun in Hrun'. discriminate.
Qed.

(** ** C1: the numbers of one document *)

(** C1. For a complete configuration and a document that is read, rendered
    and written without an exception, [process_pdf] started at [current]
    writes exactly one merged page per page of the document, in page order;
    the page at 0-based position i (page index i + 1) carries the pair
    (current + 2 i, current + 2 i + 1), so the second number is the first
    plus one and the first numbers of consecutive pages differ by two; the
    value returned is current + 2 * page_count.  A document without pages
    gives an empty output and returns [current].  Nothing is assumed about
    the sign of [current]. *)
Theorem process_pdf_numbers_pages
    (stringWidth : string -> Q) (config : gmap string Z) d out current w :
  config_complete config -> healthy d = true ->
  exists content w',
    Driver.process_pdf stringWidth d out current config w
    = (Return (current + 2 * Z.of_nat (length (pages d))), w') /\
    output_dir w' !! out = Some (Written content) /\
    length content = length (pages d) /\
    (forall (i : nat) mp,
        content !! i = Some mp ->
        stamp mp = (current + 2 * Z.of_nat i, current + 2 * Z.of_nat i + 1) /\
        pages d !! i = Some (source mp)) /\
    (forall mp, mp ∈ content -> snd (stamp mp) = fst (stamp mp) + 1) /\
    (forall (i : nat) mp mp',
        content !! i = Some mp -> content !! S i = Some mp' ->
        fst (stamp mp') = fst (stamp mp) + 2) /\
    (pages d = [] ->
     content = [] /\
     fst (Driver.process_pdf stringWidth d out current config w) = Return current).
Proof.
  intros Hc Hd.
  destruct (process_pdf_healthy stringWidth config Hc d out current w Hd)
    as (merged & evs & Hrun & Hst & Hsrc & _).
  assert (length merged = length (pages d)) as Hlen
    by (rewrite <- (length_map stamp), Hst; apply label_pairs_length).
  assert (forall (i : nat) mp,
             merged !! i = Some mp ->
             stamp mp = (current + 2 * Z.of_nat i, current + 2 * Z.of_nat i + 1))
    as Hstamp.
  { intros i mp Hi.
    pose proof (lookup_lt_Some _ _ _ Hi) as Hlt. rewrite Hlen in Hlt.
    pose proof (label_pairs_lookup (length (pages d)) current i Hlt) as Hl.
    rewrite <- Hst, list_lookup_fmap, Hi in Hl. simpl in Hl. congruence. }
  eexists merged, _. split; [exact Hrun|].
  split; [simpl; apply lookup_insert_eq|].
  split; [exact Hlen|].
  split; [|split; [|split]].
  - intros i mp Hi. split; [now apply Hstamp|].
    rewrite <- Hsrc, list_lookup_fmap, Hi. reflexivity.
  - intros mp [i Hi]%list_elem_of_lookup. rewrite (Hstamp i mp Hi). simpl. lia.
  - intros i mp mp' Hi Hi'. rewrite (Hstamp i mp Hi), (Hstamp (S i) mp' Hi').
    simpl. lia.
  - intros Hnil. rewrite Hnil in Hlen. split; [now destruct merged|].
    rewrite Hrun, Hnil. simpl. f_equal. lia.
Qed.

Lemma process_pdf_numbers_pages_witness :
  let sw := fun t : string => inject_Z (7 * Py.len t) in
  let config := Config.config_of_lines ["DIGITS=4"] in
  let d := PdfFile "a_1.pdf" None
             [Page (595 # 1) (842 # 1) None; Page (595 # 1) (842 # 1) None] None in
  let w := World None None [] ∅ [] in
  exists content w',
    Driver.process_pdf sw d "a_1_numbered.pdf" 1 config w = (Return 5, w') /\
    output_dir w' !! "a_1_numbered.pdf" = Some (Written content) /\
    length content = 2%nat.
Proof.
  intros sw config d w.
  destruct (process_pdf_numbers_pages sw config d "a_1_numbered.pdf" 1 w
              (config_of_lines_complete ["DIGITS=4"]) eq_refl)
    as (content & w' & Hrun & Hout & Hlen & _).
  exists content, w'. split; [exact Hrun|]. split; [exact Hout | exact Hlen].
Defined.

(** ** C3: a page failure stays within its document *)

(** C3. With a complete configuration, when a page of a readable document
    does not render or merge, [process_pdf] raises the page error and leaves
    the output folder as it was: no file is written for the document and the
    files written before are untouched.  The loop of [main] records one
    failure, keeps the success count, and goes on with the remaining
    documents.  For three documents of which only the second fails in this
    way, the run ends normally, the numbered copies of the first and third
    are written, and the summary reports 2 successes and 1 failure. *)
Theorem page_failure_isolated_per_document
    (stringWidth : string -> Q) (config : gmap string Z) :
  config_complete config ->
  (forall d out start w,
      open_error d = None -> forallb page_ok (pages d) = false ->
      exists i msg w',
        Driver.process_pdf stringWidth d out start config w
        = (Raise (PageError i (BackendError msg)), w') /\
        output_dir w' = output_dir w) /\
  (forall mode base_start d rest st w,
      open_error d = None -> forallb page_ok (pages d) = false ->
      let st' := {| Driver.next_number := Driver.next_number st;
                    Driver.success_count := Driver.success_count st;
                    Driver.fail_count := Driver.fail_count st + 1 |} in
      exists w',
        Driver.batch_step stringWidth mode base_start config d st w = (Return st', w') /\
        output_dir w' = output_dir w /\
        Driver.run_batch stringWidth mode base_start config (d :: rest) st w
        = Driver.run_batch stringWidth mode base_start config rest st' w') /\
  (forall mode base_start D1 D2 D3 w,
      healthy D1 = true ->
      open_error D2 = None -> forallb page_ok (pages D2) = false ->
      healthy D3 = true ->
      exists m1 m3 w',
        Driver.process_all stringWidth mode base_start config [D1; D2; D3] w
        = (Return tt, w') /\
        output_dir w'
        = <[Driver.output_name D3 := Written m3]>
            (<[Driver.output_name D1 := Written m1]> (output_dir w)) /\
        map source m1 = pages D1 /\ map source m3 = pages D3 /\
        last (log w') = Some (EvSummary 2 1)).
Proof.
  intros Hc.
  assert (forall mode base_start d st w,
             open_error d = None -> forallb page_ok (pages d) = false ->
             exists w',
               Driver.batch_step stringWidth mode base_start config d st w
               = (Return {| Driver.next_number := Driver.next_number st;
                            Driver.success_count := Driver.success_count st;
                            Driver.fail_count := Driver.fail_count st + 1 |}, w') /\
               output_dir w' = output_dir w) as Hstep.
  { intros mode base_start d st w Ho Hp.
    destruct (process_pdf_page_failure stringWidth config Hc d
                (Driver.output_name d)
                (Driver.start_number_for mode base_start st) w Ho Hp)
      as (i & msg & evs & Hrun & _).
    unfold Driver.batch_step. rewrite Hrun.
    eexists. split; reflexivity. }
  split; [|split].
  - intros d out start w Ho Hp.
    destruct (process_pdf_page_failure stringWidth config Hc d out start w Ho Hp)
      as (i & msg & evs & Hrun & _).
    exists i, msg. eexists. split; [exact Hrun | reflexivity].
  - intros mode base_start d rest st w Ho Hp st'.
    destruct (Hstep mode base_start d st w Ho Hp) as (w' & Hrun & Hout).
    exists w'. split; [exact Hrun|]. split; [exact Hout|].
    cbn [Driver.run_batch]. unfold bind at 1. now rewrite Hrun.
  - intros mode base_start D1 D2 D3 w H1 Ho Hp H3.
    unfold Driver.process_all. unfold bind at 1.
    cbn [Driver.run_batch]. unfold bind at 1.
    destruct (batch_step_healthy stringWidth config Hc mode base_start D1
                {| Driver.next_number := base_start; Driver.success_count := 0;
                   Driver.fail_count := 0 |} w H1)
      as (m1 & evs1 & -> & _ & Hs1 & _).
    unfold bind at 1.
    match goal with
    | |- context [Driver.batch_step _ _ _ _ D2 ?s ?v] =>
        destruct (Hstep mode base_start D2 s v Ho Hp) as (w2 & -> & Hout2)
    end.
    unfold bind at 1.
    match goal with
    | |- context [Driver.batch_step _ _ _ _ D3 ?s ?v] =>
        destruct (batch_step_healthy stringWidth config Hc mode base_start D3 s v H3)
          as (m3 & evs3 & -> & _ & Hs3 & _)
    end.
    exists m1, m3. eexists. split; [reflexivity|].
    split; [simpl; now rewrite Hout2|].
    split; [exact Hs1|]. split; [exact Hs3|].
    simpl. apply last_snoc.
Qed.

Lemma page_failure_isolated_per_document_witness :
  let sw := fun t : string => inject_Z (7 * Py.len t) in
  let config := Config.config_of_lines ["DIGITS=4"] in
  let good := Page (595 # 1) (842 # 1) None in
  let bad := Page (595 # 1) (842 # 1) (Some "broken stream") in
  let D1 := PdfFile "a_1.pdf" None [good; good] None in
  let D2 := PdfFile "b_2.pdf" None [good; bad; good] None in
  let D3 := PdfFile "c_3.pdf" None [good] None in
  let w := World None None [] ∅ [] in
  exists m1 m3 w',
    Driver.process_all sw "2" 1 config [D1; D2; D3] w = (Return tt, w') /\
    output_dir w'
    = <["c_3_numbered.pdf" := Written m3]> (<["a_1_numbered.pdf" := Written m1]> ∅) /\
    last (log w') = Some (EvSummary 2 1).
Proof.
  intros sw config good bad D1 D2 D3 w.
  destruct (page_failure_isolated_per_document sw config
              (config_of_lines_complete ["DIGITS=4"]))
    as (_ & _ & Hthree).
  destruct (Hthree "2" 1 D1 D2 D3 w eq_refl eq_refl eq_refl eq_refl)
    as (m1 & m3 & w' & Hrun & Hout & _ & _ & Hlast).
  exists m1, m3, w'. split; [exact Hrun|]. split; [exact Hout | exact Hlast].
Defined.

(** ** C2: the two numbering modes *)

(** C2. One iteration of the loop depends on the mode only through the start
    value it hands to [process_pdf].  In mode "1" (reseed) every document of
    a batch starts from the batch start value.  In mode "2" (continuous) the
    first document starts from the batch start value and a document that
    follows one for which [process_pdf] returned n starts from n.  For a
    two-page document followed by a one-page document and batch start 1,
    reseed mode writes the labels (1,2)(3,4) and (1,2), continuous mode
    (1,2)(3,4) and (5,6). *)
Theorem numbering_modes_differ_only_in_seed
    (stringWidth : string -> Q) (config : gmap string Z) :
  config_complete config ->
  let init := fun base_start =>
    {| Driver.next_number := base_start; Driver.success_count := 0;
       Driver.fail_count := 0 |} in
  (forall mode mode' base_start d st w,
      Driver.start_number_for mode base_start st
      = Driver.start_number_for mode' base_start st ->
      Driver.batch_step stringWidth mode base_start config d st w
      = Driver.batch_step stringWidth mode' base_start config d st w) /\
  (forall base_start docs w,
      exists st' w' added,
        Driver.run_batch stringWidth "1" base_start config docs (init base_start) w
        = (Return st', w') /\
        log w' = log w ++ added /\
        starts_of added = map (fun _ => base_start) docs) /\
  (forall base_start docs w,
      exists st' w' added,
        Driver.run_batch stringWidth "2" base_start config docs (init base_start) w
        = (Return st', w') /\
        log w' = log w ++ added /\
        length (starts_of added) = length docs /\
        (forall d, docs !! 0%nat = Some d -> starts_of added !! 0%nat = Some base_start) /\
        (forall (k : nat) d s n w1 w2,
            docs !! k = Some d -> starts_of added !! k = Some s ->
            Driver.process_pdf stringWidth d (Driver.output_name d) s config w1
            = (Return n, w2) ->
            (S k < length docs)%nat ->
            starts_of added !! S k = Some n)) /\
  (forall D1 D2 w,
      healthy D1 = true -> healthy D2 = true ->
      length (pages D1) = 2%nat -> length (pages D2) = 1%nat ->
      (exists m1 m2 st' w',
          Driver.run_batch stringWidth "1" 1 config [D1; D2] (init 1) w
          = (Return st', w') /\
          output_dir w'
          = <[Driver.output_name D2 := Written m2]>
              (<[Driver.output_name D1 := Written m1]> (output_dir w)) /\
          map stamp m1 = [(1, 2); (3, 4)] /\ map stamp m2 = [(1, 2)]) /\
      (exists m1 m2 st' w',
          Driver.run_batch stringWidth "2" 1 config [D1; D2] (init 1) w
          = (Return st', w') /\
          output_dir w'
          = <[Driver.output_name D2 := Written m2]>
              (<[Driver.output_name D1 := Written m1]> (output_dir w)) /\
          map stamp m1 = [(1, 2); (3, 4)] /\ map stamp m2 = [(5, 6)])).
Proof.
  intros Hc init.
  split; [|split; [|split]].
  - intros mode mode' base_start d st w H.
    unfold Driver.batch_step. now rewrite H.
  - intros base_start docs w.
    destruct (run_batch_trace stringWidth config Hc "1" base_start docs
                (init base_start) w)
      as (st' & files & added & Hrun & Hs & _).
    exists st'. eexists. exists added. split; [exact Hrun|].
    split; [reflexivity | exact Hs].
  - intros base_start docs w.
    destruct (run_batch_trace stringWidth config Hc "2" base_start docs
                (init base_start) w)
      as (st' & files & added & Hrun & Hs & _).
    unfold expected_starts in Hs. simpl in Hs.
    exists st'. eexists. exists added. split; [exact Hrun|].
    split; [reflexivity|]. rewrite Hs.
    split; [apply continuous_starts_length|].
    split; [intros d Hd; now apply (continuous_starts_head _ _ d)|].
    intros k d s n w1 w2 Hd Hk Hret Hlt.
    destruct (process_pdf_returns _ _ _ _ _ _ _ _ Hc Hret) as [Hh ->].
    rewrite (continuous_starts_step docs base_start k d s Hd Hk Hlt).
    now rewrite Hh.
  - intros D1 D2 w H1 H2 L1 L2. split.
    + cbn [Driver.run_batch]. unfold bind at 1.
      destruct (batch_step_healthy stringWidth config Hc "1" 1 D1 (init 1) w H1)
        as (m1 & evs1 & -> & Hs1 & _).
      unfold bind at 1.
      match goal with
      | |- context [Driver.batch_step _ _ _ _ D2 ?s ?v] =>
          destruct (batch_step_healthy stringWidth config Hc "1" 1 D2 s v H2)
            as (m2 & evs2 & -> & Hs2 & _)
      end.
      rewrite L1 in Hs1. rewrite L2 in Hs2.
      exists m1, m2. eexists _, _. split; [reflexivity|].
      split; [reflexivity|]. split; [exact Hs1 | exact Hs2].
    + cbn [Driver.run_batch]. unfold bind at 1.
      destruct (batch_step_healthy stringWidth config Hc "2" 1 D1 (init 1) w H1)
        as (m1 & evs1 & -> & Hs1 & _).
      unfold bind at 1.
      match goal with
      | |- context [Driver.batch_step _ _ _ _ D2 ?s ?v] =>
          destruct (batch_step_healthy stringWidth config Hc "2" 1 D2 s v H2)
            as (m2 & evs2 & -> & Hs2 & _)
      end.
      rewrite L1 in Hs1. rewrite L2 in Hs2.
      unfold Driver.start_number_for in Hs2. simpl in Hs2. rewrite L1 in Hs2.
      exists m1, m2. eexists _, _. split; [reflexivity|].
      split; [reflexivity|]. split; [exact Hs1 | exact Hs2].
Qed.

Lemma numbering_modes_differ_only_in_seed_witness :
  let sw := fun t : string => inject_Z (7 * Py.len t) in
  let config := Config.config_of_lines ["DIGITS=4"] in
  let good := Page (595 # 1) (842 # 1) None in
  let D1 := PdfFile "a_1.pdf" None [good; good] None in
  let D2 := PdfFile "b_2.pdf" None [good] None in
  let w := World None None [] ∅ [] in
  let init := {| Driver.next_number := 1; Driver.success_count := 0;
                 Driver.fail_count := 0 |} in
  (exists m1 m2 st' w',
      Driver.run_batch sw "1" 1 config [D1; D2] init w = (Return st', w') /\
      output_dir w'
      = <["b_2_numbered.pdf" := Written m2]> (<["a_1_numbered.pdf" := Written m1]> ∅) /\
      map stamp m1 = [(1, 2); (3, 4)] /\ map stamp m2 = [(1, 2)]) /\
  (exists m1 m2 st' w',
      Driver.run_batch sw "2" 1 config [D1; D2] init w = (Return st', w') /\
      output_dir w'
      = <["b_2_numbered.pdf" := Written m2]> (<["a_1_numbered.pdf" := Written m1]> ∅) /\
      map stamp m1 = [(1, 2); (3, 4)] /\ map stamp m2 = [(5, 6)]).
Proof.
  intros sw config good D1 D2 w init.
  destruct (numbering_modes_differ_only_in_seed sw config
              (config_of_lines_complete ["DIGITS=4"]))
    as (_ & _ & _ & Hexample).
  exact (Hexample D1 D2 w eq_refl eq_refl eq_refl eq_refl).
Defined.

(** ** C9: a failed document consumes no numbers *)

(** C9. In continuous mode the running counter [next_number] changes only
    when [process_pdf] returns: after an exception it keeps its value, after
    a return it takes the returned value.  So over a whole batch (with a
    complete configuration) a document whose processing raised is followed
    by a document with the same start number; the start numbers are those of
    [continuous_starts], which moves on only at documents that were
    processed; and as long as no document has been processed the start
    number is the batch start value. *)
Theorem failed_document_consumes_no_numbers
    (stringWidth : string -> Q) (config : gmap string Z) :
  (forall base_start d st w e w',
      Driver.process_pdf stringWidth d (Driver.output_name d)
        (Driver.next_number st) config w = (Raise e, w') ->
      exists w'',
        Driver.batch_step stringWidth "2" base_start config d st w
        = (Return {| Driver.next_number := Driver.next_number st;
                     Driver.success_count := Driver.success_count st;
                     Driver.fail_count := Driver.fail_count st + 1 |}, w'')) /\
  (forall base_start d st w n w',
      Driver.process_pdf stringWidth d (Driver.output_name d)
        (Driver.next_number st) config w = (Return n, w') ->
      exists w'',
        Driver.batch_step stringWidth "2" base_start config d st w
        = (Return {| Driver.next_number := n;
                     Driver.success_count := Driver.success_count st + 1;
                     Driver.fail_count := Driver.fail_count st |}, w'')) /\
  (config_complete config ->
   forall base_start docs w,
     exists st' w' added,
       Driver.run_batch stringWidth "2" base_start config docs
         {| Driver.next_number := base_start; Driver.success_count := 0;
            Driver.fail_count := 0 |} w
       = (Return st', w') /\
       log w' = log w ++ added /\
       starts_of added = continuous_starts base_start docs /\
       (forall (k : nat) d s e w1 w2,
           docs !! k = Some d -> starts_of added !! k = Some s ->
           Driver.process_pdf stringWidth d (Driver.output_name d) s config w1
           = (Raise e, w2) ->
           (S k < length docs)%nat ->
           starts_of added !! S k = Some s) /\
       (forall k : nat,
           (k < length docs)%nat ->
           (forall (j : nat) d, (j < k)%nat -> docs !! j = Some d -> healthy d = false) ->
           starts_of added !! k = Some base_start)).
Proof.
  split; [|split].
  - intros base_start d st w e w' Hrun.
    unfold Driver.batch_step, Driver.start_number_for. simpl.
    rewrite Hrun. eexists. reflexivity.
  - intros base_start d st w n w' Hrun.
    unfold Driver.batch_step, Driver.start_number_for. simpl.
    rewrite Hrun. eexists. reflexivity.
  - intros Hc base_start docs w.
    destruct (run_batch_trace stringWidth config Hc "2" base_start docs
                {| Driver.next_number := base_start; Driver.success_count := 0;
                   Driver.fail_count := 0 |} w)
      as (st' & files & added & Hrun & Hs & _).
    unfold expected_starts in Hs. simpl in Hs.
    exists st'. eexists. exists added. split; [exact Hrun|].
    split; [reflexivity|]. split; [exact Hs|]. rewrite Hs. split.
    + intros k d s e w1 w2 Hd Hk Hraise Hlt.
      pose proof (process_pdf_raises _ _ _ _ _ _ _ _ Hc Hraise) as Hh.
      rewrite (continuous_starts_step docs base_start k d s Hd Hk Hlt).
      now rewrite Hh.
    + intros k Hk Hidle. now apply continuous_starts_idle.
Qed.

Lemma failed_document_consumes_no_numbers_witness :
  let sw := fun t : string => inject_Z (7 * Py.len t) in
  let config := Config.config_of_lines ["DIGITS=4"] in
  let good := Page (595 # 1) (842 # 1) None in
  let bad := Page (595 # 1) (842 # 1) (Some "broken stream") in
  let D1 := PdfFile "a_1.pdf" None [good; good] None in
  let D2 := PdfFile "b_2.pdf" None [good; bad; good] None in
  let D3 := PdfFile "c_3.pdf" None [good] None in
  let w := World None None [] ∅ [] in
  exists st' w' added,
    Driver.run_batch sw "2" 1 config [D1; D2; D3]
      {| Driver.next_number := 1; Driver.success_count := 0;
         Driver.fail_count := 0 |} w
    = (Return st', w') /\
    log w' = log w ++ added /\
    starts_of added = [1; 5; 5].
Proof.
  intros sw config good bad D1 D2 D3 w.
  destruct (proj2 (proj2 (failed_document_consumes_no_numbers sw config))
              (config_of_lines_complete ["DIGITS=4"]) 1 [D1; D2; D3] w)
    as (st' & w' & added & Hrun & Hlog & Hs & _).
  exists st', w', added. split; [exact Hrun|]. split; [exact Hlog | exact Hs].
Defined.


(* ===================================================================== *)
(** * Further properties: fatal paths and the three prompts *)
(* ===================================================================== *)

(** X1. Without [coords.env] the run stops at once with exit code 1: the
    only trace is the error line; nothing is read from the console and the
    output folder is not touched, whatever the input folder holds. *)
Theorem main_without_config_exits (stringWidth : string -> Q) w :
  config_file w = None ->
  Driver.main stringWidth w = (SysExit 1, set_log (log w ++ [EvConfigMissing]) w).
Proof.
  intros H. unfold Driver.main. unfold bind at 1.
  unfold Config.load_config. rewrite H. reflexivity.
Qed.

Lemma main_without_config_exits_witness :
  let w := World None (Some [PdfFile "a.pdf" None [] None]) [Line "1"] ∅ [] in
  Driver.main (fun _ => 0%Q) w = (SysExit 1, set_log [EvConfigMissing] w).
Proof. intros w. exact (main_without_config_exits (fun _ => 0%Q) w eq_refl). Defined.

(** X2. A missing input folder and a folder without any [*.pdf] file are
    both fatal: [find_all_pdfs_with_selection] exits with code 1 without
    prompting, and [main], having loaded the configuration, ends the same way
    with the console input and the output folder untouched. *)
Theorem input_missing_or_empty_exits (stringWidth : string -> Q) w :
  input_dir w = None \/ input_dir w = Some [] ->
  let ev := match input_dir w with None => EvInputMissing | Some _ => EvNoPdf end in
  Selector.find_all_pdfs_with_selection w
  = (SysExit 1, set_log (log w ++ [ev]) w) /\
  (forall lines,
      config_file w = Some lines ->
      Driver.main stringWidth w
      = (SysExit 1,
         set_log (log w ++ [EvConfigLoaded (Config.config_of_lines lines); ev]) w)).
Proof.
  intros H ev.
  assert (Selector.find_all_pdfs_with_selection w
          = (SysExit 1, set_log (log w ++ [ev]) w)) as Hfind.
  { unfold Selector.find_all_pdfs_with_selection. subst ev.
    destruct H as [-> | ->]; reflexivity. }
  split; [exact Hfind|].
  intros lines Hcfg. unfold Driver.main. unfold bind at 1.
  unfold Config.load_config. rewrite Hcfg.
  unfold bind at 1. unfold emit at 1. unfold ret at 1. unfold bind at 1.
  unfold Selector.find_all_pdfs_with_selection in *.
  subst ev. destruct H as [H | H]; rewrite H; simpl input_dir; rewrite H;
    unfold bind, emit, sys_exit; norm_world; reflexivity.
Qed.

Lemma input_missing_or_empty_exits_witness :
  let w := World (Some ["DIGITS=4"]) (Some []) [Line "ALL"] ∅ [] in
  Selector.find_all_pdfs_with_selection w = (SysExit 1, set_log [EvNoPdf] w).
Proof.
  intros w.
  exact (proj1 (input_missing_or_empty_exits (fun _ => 0%Q) w (or_intror eq_refl))).
Defined.

Lemma select_choices ordered choice w selected w' :
  Selector.select ordered choice w = (Return selected, w') ->
  output_dir w' = output_dir w /\
  (selected = ordered \/ exists f, f ∈ ordered /\ selected = [f]).
Proof.
  unfold Selector.select.
  destruct (String.eqb choice "ALL" || String.eqb choice "").
  { unfold bind, emit, ret. intros [= <- <-]. auto. }
  destruct (Py.int choice) as [num|].
  - destruct ((1 <=? num) && (num <=? Z.of_nat (length ordered))).
    + destruct (ordered !! Z.to_nat (num - 1)) as [f|] eqn:Hf;
        [|discriminate].
      unfold bind, emit, ret. intros [= <- <-]. split; [reflexivity|].
      right. exists f. split; [|reflexivity].
      apply list_elem_of_lookup. eauto.
    + unfold bind, emit, ret. intros [= <- <-]. auto.
  - unfold bind, emit, ret. intros [= <- <-]. auto.
Qed.

(** X3. Whatever is typed at the selection prompt, a selection that is
    returned is never empty and holds only files that were discovered; the
    output folder is not touched by the selection. *)
Theorem selection_is_nonempty_subset w found selected w' :
  input_dir w = Some found ->
  Selector.find_all_pdfs_with_selection w = (Return selected, w') ->
  selected <> [] /\
  (forall f, f ∈ selected -> f ∈ found) /\
  output_dir w' = output_dir w.
Proof.
  intros Hdir Hrun.
  destruct found as [|f0 found0].
  { unfold Selector.find_all_pdfs_with_selection in Hrun.
    rewrite Hdir in Hrun. discriminate. }
  set (found := f0 :: found0) in *.
  rewrite (find_all_sorted w found Hdir ltac:(discriminate)) in Hrun.
  pose proof (sorted_perm Selector.extract_prefix_sort_key found) as Hperm.
  pose proof (sorted_nonempty found ltac:(discriminate)) as Hlen.
  destruct (Selector.sorted Selector.extract_prefix_sort_key found)
    as [|f1 [|f2 r]] eqn:E; [simpl in Hlen; lia| |].
  - rewrite choose_files_single in Hrun. injection Hrun as <- <-.
    split; [discriminate|]. split; [|reflexivity].
    intros f Hf. now rewrite <- Hperm.
  - rewrite choose_files_asks in Hrun by (simpl; lia).
    unfold bind at 1 in Hrun. unfold input in Hrun.
    destruct (stdin _) as [|[s|] rest]; try discriminate.
    apply select_choices in Hrun as [Hout [-> | (f & Hf & ->)]].
    + split; [discriminate|]. split; [|exact Hout].
      intros f Hf. now rewrite <- Hperm.
    + split; [discriminate|]. split; [|exact Hout].
      intros g ->%list_elem_of_singleton. now rewrite <- Hperm.
Qed.

Lemma selection_is_nonempty_subset_witness :
  let a := PdfFile "a_1.pdf" None [] None in
  let b := PdfFile "b_2.pdf" None [] None in
  let w := World None (Some [b; a]) [Line "7"] ∅ [] in
  fst (Selector.find_all_pdfs_with_selection w) = Return [a; b] /\
  [a; b] <> [] /\ (forall f, f ∈ [a; b] -> f ∈ [b; a]).
Proof.
  intros a b w. split; [reflexivity|].
  destruct (selection_is_nonempty_subset w [b; a] [a; b]
              (snd (Selector.find_all_pdfs_with_selection w)) eq_refl eq_refl)
    as (Hne & Hsub & _).
  split; [exact Hne | exact Hsub].
Defined.

(** X4. An operator interrupt at any of the three prompts ends the run with
    exit code 0, after the interruption is logged; no document has been
    processed, so the output folder is as it was.  The selection prompt is
    the one of lines 196-210, shown for a sorted list of any length but 1:
    the list has been printed and the interruption is the last line logged.
    At the start-number prompt this also holds after any number of refused
    answers. *)
Theorem interrupt_at_a_prompt_exits_zero :
  (forall w ordered rest,
      length ordered <> 1%nat ->
      stdin w = KeyboardInterrupt :: rest ->
      Selector.choose_files ordered w
      = (SysExit 0,
         set_log (log w ++ EvFound (length ordered)
                        :: Selector.listing 1 ordered ++ [EvInterrupted])
           (set_stdin rest w))) /\
  (forall w pdf_list rest,
      length pdf_list <> 1%nat -> stdin w = KeyboardInterrupt :: rest ->
      Driver.choose_mode pdf_list w
      = (SysExit 0, set_log (log w ++ [EvInterrupted]) (set_stdin rest w))) /\
  (forall w bad rest,
      Forall (fun s => accepted_start s = None) bad ->
      stdin w = map Line bad ++ KeyboardInterrupt :: rest ->
      Driver.read_base_start w
      = (SysExit 0,
         set_log (log w ++ repeat EvBadStart (length bad) ++ [EvInterrupted])
           (set_stdin rest w))).
Proof.
  split; [|split].
  - intros w ordered rest Hlen Hin.
    now apply choose_files_interrupted.
  - intros w pdf_list rest Hlen Hin. unfold Driver.choose_mode.
    destruct pdf_list as [|f1 [|f2 r]]; [|simpl in Hlen; lia|];
      unfold bind at 1; unfold input; rewrite Hin; reflexivity.
  - intros w bad rest Hbad Hin. unfold Driver.read_base_start. rewrite Hin.
    clear Hin. revert w. induction Hbad as [|s bad Hs Hbad IH]; intros w.
    + simpl. unfold bind, emit, sys_exit. norm_world. reflexivity.
    + cbn [map app Driver.prompt_start]. unfold accepted_start in Hs.
      destruct (if String.eqb (Py.strip s) "" then Some 1 else Py.int (Py.strip s))
        as [n|].
      * destruct (n <? 1); [|discriminate]. rewrite IH. norm_world. reflexivity.
      * rewrite IH. norm_world. reflexivity.
Qed.

Lemma interrupt_at_a_prompt_exits_zero_witness :
  let a := PdfFile "a_1.pdf" None [] None in
  let b := PdfFile "b_2.pdf" None [] None in
  let v := World None None [KeyboardInterrupt; Line "5"] ∅ [] in
  let w := World None None [Line "0"; Line "x"; KeyboardInterrupt; Line "5"] ∅ [] in
  Selector.choose_files [a; b] v
  = (SysExit 0,
     set_log [EvFound 2; EvListed 1 "a_1.pdf"; EvListed 2 "b_2.pdf"; EvInterrupted]
       (set_stdin [Line "5"] v)) /\
  Driver.choose_mode [a; b] v
  = (SysExit 0, set_log [EvInterrupted] (set_stdin [Line "5"] v)) /\
  Driver.read_base_start w
  = (SysExit 0,
     set_log [EvBadStart; EvBadStart; EvInterrupted] (set_stdin [Line "5"] w)).
Proof.
  intros a b v w.
  destruct interrupt_at_a_prompt_exits_zero as (Hselect & Hmode & Hstart).
  refine (conj _ (conj _ _)).
  - exact (Hselect v [a; b] [Line "5"] ltac:(discriminate) eq_refl).
  - exact (Hmode v [a; b] [Line "5"] ltac:(discriminate) eq_refl).
  - refine (Hstart w ["0"; "x"] [Line "5"] _ eq_refl).
    repeat constructor.
Defined.

(** X5. The numbering mode handed to the loop is always "1" or "2".  It is
    "2" only when there are several files and the operator's answer, with
    surrounding blanks removed, is exactly 2; any other answer gives mode
    "1".  With a single file no answer is read at all. *)
Theorem mode_is_one_or_two pdf_list w mode w' :
  Driver.choose_mode pdf_list w = (Return mode, w') ->
  (mode = "1" \/ mode = "2") /\
  (mode = "2" <->
   length pdf_list <> 1%nat /\
   exists s rest, stdin w = Line s :: rest /\ Py.strip s = "2") /\
  (length pdf_list = 1%nat -> w' = w) /\
  output_dir w' = output_dir w.
Proof.
  unfold Driver.choose_mode. intros Hrun.
  assert (length pdf_list = 1%nat \/
          length pdf_list <> 1%nat /\
          (do answer <- input;
           match answer with
           | KeyboardInterrupt => emit EvInterrupted ;; sys_exit 0
           | Line s =>
               if String.eqb (Py.strip s) "1" || String.eqb (Py.strip s) "2"
               then ret (Py.strip s) else emit EvDefaultMode ;; ret "1"
           end) w = (Return mode, w')) as [Hone | [Hmany Hask]].
  { destruct pdf_list as [|f1 [|f2 r]]; [right | left | right]; simpl; auto. }
  - destruct pdf_list as [|f1 [|f2 r]]; try discriminate.
    unfold ret in Hrun. injection Hrun as <- <-.
    split; [auto|]. split; [|auto].
    split; [discriminate | intros [H _]; simpl in H; congruence].
  - clear Hrun. unfold bind at 1 in Hask. unfold input in Hask.
    destruct (stdin w) as [|[s|] rest] eqn:Hin; try discriminate.
    destruct (String.eqb_spec (Py.strip s) "1") as [E1|E1]; simpl in Hask.
    + unfold ret in Hask. injection Hask as <- <-. rewrite E1.
      split; [auto|]. split; [|split; [lia | reflexivity]].
      split; [discriminate|]. intros (_ & s' & rest' & [= <- <-] & E2). congruence.
    + destruct (String.eqb_spec (Py.strip s) "2") as [E2|E2].
      * unfold ret in Hask. injection Hask as <- <-. rewrite E2.
        split; [auto|]. split; [|split; [lia | reflexivity]].
        split; [|reflexivity]. intros _. split; [exact Hmany|]. eauto.
      * unfold bind, emit, ret in Hask. injection Hask as <- <-.
        split; [auto|]. split; [|split; [lia | reflexivity]].
        split; [discriminate|]. intros (_ & s' & rest' & [= <- <-] & E). congruence.
Qed.

Lemma mode_is_one_or_two_witness :
  let pdfs := [PdfFile "a.pdf" None [] None; PdfFile "b.pdf" None [] None] in
  let w := World None None [Line " 2 "; Line "1"] ∅ [] in
  fst (Driver.choose_mode pdfs w) = Return "2" /\
  fst (Driver.choose_mode pdfs (set_stdin [Line "two"] w)) = Return "1" /\
  ("2" = "1" \/ "2" = "2").
Proof.
  intros pdfs w. split; [reflexivity|]. split; [reflexivity|].
  exact (proj1 (mode_is_one_or_two pdfs w "2" (snd (Driver.choose_mode pdfs w)) eq_refl)).
Defined.

Lemma prompt_start_returns pending : forall w n w',
  Driver.prompt_start pending w = (Return n, w') ->
  1 <= n /\ output_dir w' = output_dir w /\
  exists consumed, pending = consumed ++ stdin w' /\ consumed <> [].
Proof.
  induction pending as [|ev rest IH]; intros w n w' Hrun; [discriminate|].
  cbn [Driver.prompt_start] in Hrun. destruct ev as [s|]; [|discriminate].
  destruct (if String.eqb (Py.strip s) "" then Some 1 else Py.int (Py.strip s))
    as [m|].
  - destruct (Z.ltb_spec m 1) as [Hlt|Hge].
    + apply IH in Hrun as (Hn & Hout & consumed & -> & _).
      split; [exact Hn|]. split; [exact Hout|].
      exists (Line s :: consumed). split; [reflexivity | discriminate].
    + injection Hrun as <- <-. split; [exact Hge|]. split; [reflexivity|].
      exists [Line s]. split; [reflexivity | discriminate].
  - apply IH in Hrun as (Hn & Hout & consumed & -> & _).
    split; [exact Hn|]. split; [exact Hout|].
    exists (Line s :: consumed). split; [reflexivity | discriminate].
Qed.

Lemma prompt_start_accepts bad : forall good n rest w,
  Forall (fun s => accepted_start s = None) bad ->
  accepted_start good = Some n ->
  Driver.prompt_start (map Line bad ++ Line good :: rest) w
  = (Return n, set_log (log w ++ repeat EvBadStart (length bad)) (set_stdin rest w)).
Proof.
  induction bad as [|s bad IH]; intros good n rest w Hbad Hgood.
  - cbn [map app Driver.prompt_start]. unfold accepted_start in Hgood.
    destruct (if String.eqb (Py.strip good) "" then Some 1 else Py.int (Py.strip good))
      as [m|]; [|discriminate].
    destruct (m <? 1); [discriminate|]. injection Hgood as ->.
    simpl. rewrite app_nil_r. reflexivity.
  - apply Forall_cons in Hbad as [Hs Hbad].
    cbn [map app Driver.prompt_start]. unfold accepted_start in Hs.
    destruct (if String.eqb (Py.strip s) "" then Some 1 else Py.int (Py.strip s))
      as [m|].
    + destruct (m <? 1); [|discriminate].
      rewrite (IH good n rest _ Hbad Hgood). norm_world. reflexivity.
    + rewrite (IH good n rest _ Hbad Hgood). norm_world. reflexivity.
Qed.

(** X6. The start number the loop receives is always at least 1.  The prompt
    is repeated after every refused answer (not an integer, or below 1), each
    round consuming one line; the first accepted answer is returned, the
    empty answer standing for 1; the lines after it stay unread and the
    output folder is not touched. *)
Theorem start_number_is_positive :
  (forall w n w',
      Driver.read_base_start w = (Return n, w') ->
      1 <= n /\ output_dir w' = output_dir w /\
      exists consumed, stdin w = consumed ++ stdin w' /\ consumed <> []) /\
  (forall w bad good n rest,
      Forall (fun s => accepted_start s = None) bad ->
      accepted_start good = Some n ->
      stdin w = map Line bad ++ Line good :: rest ->
      Driver.read_base_start w
      = (Return n,
         set_log (log w ++ repeat EvBadStart (length bad)) (set_stdin rest w))) /\
  (forall s, Py.strip s = "" -> accepted_start s = Some 1).
Proof.
  split; [|split].
  - intros w n w' Hrun. exact (prompt_start_returns (stdin w) w n w' Hrun).
  - intros w bad good n rest Hbad Hgood Hin.
    unfold Driver.read_base_start. rewrite Hin.
    now apply prompt_start_accepts.
  - intros s Hs. unfold accepted_start. now rewrite Hs.
Qed.

Lemma start_number_is_positive_witness :
  let w := World None None [Line "abc"; Line "-3"; Line " 12 "; Line "9"] ∅ [] in
  Driver.read_base_start w
  = (Return 12, set_log [EvBadStart; EvBadStart] (set_stdin [Line "9"] w)) /\
  1 <= 12.
Proof.
  intros w. split.
  - refine (proj1 (proj2 start_number_is_positive) w ["abc"; "-3"] " 12 " 12
              [Line "9"] _ eq_refl eq_refl).
    repeat constructor.
  - exact (proj1 (proj1 start_number_is_positive w 12
                    (snd (Driver.read_base_start w)) eq_refl)).
Defined.

(* ===================================================================== *)
(** * Further properties: the whole run *)
(* ===================================================================== *)

(** X7. A folder with a single PDF, on plain input (the configuration
    lines, the file name and the typed lines are ASCII text): neither the
    selection prompt nor the mode prompt is shown, the only line read is the
    start number, and the document is processed in mode "1" from that
    number.  When the document is healthy [main] returns, the numbered copy
    holds one page per source page labelled from the start number, the
    summary reports 1 success and 0 failures, and the lines typed after the
    start number stay unread. *)
Theorem single_file_skips_prompts
    (stringWidth : string -> Q) w lines f s rest n :
  plain_input w = true ->
  config_file w = Some lines -> input_dir w = Some [f] ->
  stdin w = Line s :: rest -> accepted_start s = Some n ->
  let config := Config.config_of_lines lines in
  Driver.main stringWidth w
  = Driver.process_all stringWidth "1" n config [f]
      (set_stdin rest
         (set_log (log w ++ [EvConfigLoaded config; EvFound 1;
                             EvAutoSelected (name f); EvMode "1"; EvBaseStart n])
            w)) /\
  (healthy f = true ->
   exists merged w',
     Driver.main stringWidth w = (Return tt, w') /\
     output_dir w' = <[Driver.output_name f := Written merged]> (output_dir w) /\
     map stamp merged = label_pairs n (length (pages f)) /\
     map source merged = pages f /\
     stdin w' = rest /\
     last (log w') = Some (EvSummary 1 0)).
Proof.
  intros _ Hcfg Hdir Hin Hs config.
  assert (Driver.main stringWidth w
          = Driver.process_all stringWidth "1" n config [f]
              (set_stdin rest
                 (set_log (log w ++ [EvConfigLoaded config; EvFound 1;
                                     EvAutoSelected (name f); EvMode "1";
                                     EvBaseStart n]) w))) as Hmain.
  { unfold Driver.main. unfold bind at 1.
    unfold Config.load_config. rewrite Hcfg. fold config.
    unfold bind at 1. unfold emit at 1. unfold ret at 1.
    unfold bind at 1. unfold Selector.find_all_pdfs_with_selection.
    simpl input_dir. rewrite Hdir.
    cbn [Selector.sorted foldr Selector.insert]. unfold Selector.choose_files.
    unfold bind at 1. unfold emit at 1. unfold bind at 1. unfold emit at 1.
    unfold ret at 1. unfold bind at 1. unfold Driver.choose_mode.
    unfold ret at 1. unfold bind at 1. unfold emit at 1.
    unfold bind at 1. unfold Driver.read_base_start. simpl stdin. rewrite Hin.
    rewrite (prompt_start_accepts [] s n rest _ (Forall_nil_2 _) Hs).
    unfold bind at 1. unfold emit at 1. norm_world. reflexivity. }
  split; [exact Hmain|].
  intros Hh. rewrite Hmain. unfold Driver.process_all. unfold bind at 1.
  cbn [Driver.run_batch]. unfold bind at 1.
  match goal with
  | |- context [Driver.batch_step _ _ _ _ f ?st ?v] =>
      destruct (batch_step_healthy stringWidth config
                  (config_of_lines_complete lines) "1" n f st v Hh)
        as (merged & evs & -> & Hst & Hsrc & _)
  end.
  exists merged. eexists. split; [reflexivity|].
  split; [reflexivity|]. split; [exact Hst|]. split; [exact Hsrc|].
  split; [reflexivity|]. simpl. apply last_snoc.
Qed.

Lemma single_file_skips_prompts_witness :
  let sw := fun t : string => inject_Z (7 * Py.len t) in
  let good := Page (595 # 1) (842 # 1) None in
  let f := PdfFile "scan.pdf" None [good; good] None in
  let w := World (Some ["DIGITS=3"]) (Some [f]) [Line "10"; Line "ALL"; Line "2"] ∅ [] in
  exists merged w',
    Driver.main sw w = (Return tt, w') /\
    output_dir w' = <["scan_numbered.pdf" := Written merged]> ∅ /\
    map stamp merged = [(10, 11); (12, 13)] /\
    stdin w' = [Line "ALL"; Line "2"].
Proof.
  intros sw good f w.
  destruct (proj2 (single_file_skips_prompts sw w ["DIGITS=3"] f "10"
                     [Line "ALL"; Line "2"] 10 eq_refl eq_refl eq_refl eq_refl
                     eq_refl)
              eq_refl)
    as (merged & w' & Hrun & Hout & Hst & _ & Hin & _).
  exists merged, w'. split; [exact Hrun|]. split; [exact Hout|].
  split; [exact Hst | exact Hin].
Defined.

(** The counter at the end of a batch in continuous mode. *)
Lemma run_batch_final_counter stringWidth (config : gmap string Z) base_start docs :
  config_complete config ->
  forall st w st' w',
    Driver.run_batch stringWidth "2" base_start config docs st w = (Return st', w') ->
    Driver.next_number st'
    = Driver.next_number st
      + 2 * Z.of_nat (length (concat (map pages (List.filter healthy docs)))).
Proof.
  intros Hc. induction docs as [|d rest IH]; intros st w st' w' Hrun.
  - simpl in Hrun. unfold ret in Hrun. injection Hrun as <- _. simpl. lia.
  - cbn [Driver.run_batch] in Hrun. unfold bind at 1 in Hrun.
    destruct (healthy d) eqn:Hh.
    + destruct (batch_step_healthy stringWidth config Hc "2" base_start d st w Hh)
        as (merged & evs & Hstep & _).
      rewrite Hstep in Hrun. apply IH in Hrun. rewrite Hrun.
      simpl. rewrite Hh. simpl. rewrite length_app.
      unfold Driver.start_number_for. simpl. lia.
    + destruct (batch_step_unhealthy stringWidth config Hc "2" base_start d st w Hh)
        as (files & evs & Hstep & _).
      rewrite Hstep in Hrun. apply IH in Hrun. rewrite Hrun.
      simpl. rewrite Hh. reflexivity.
Qed.

(** X8. With a loaded configuration the loop of [main] always runs to its
    end, whatever happens to single documents: it returns, every document is
    counted exactly once, as a success when it is healthy and as a failure
    otherwise, and the summary line closes the log with these two counts. *)
Theorem every_document_is_counted_once
    (stringWidth : string -> Q) (config : gmap string Z) mode base_start docs w :
  config_complete config ->
  let ok := Z.of_nat (length (List.filter healthy docs)) in
  let ko := Z.of_nat (length (List.filter (fun d => negb (healthy d)) docs)) in
  ok + ko = Z.of_nat (length docs) /\
  exists w',
    Driver.process_all stringWidth mode base_start config docs w = (Return tt, w') /\
    last (log w') = Some (EvSummary ok ko) /\
    stdin w' = stdin w.
Proof.
  intros Hc ok ko. split.
  - subst ok ko. clear. induction docs as [|d r IH]; simpl; [reflexivity|].
    destruct (healthy d); simpl; lia.
  - unfold Driver.process_all. unfold bind at 1.
    destruct (run_batch_trace stringWidth config Hc mode base_start docs
                {| Driver.next_number := base_start; Driver.success_count := 0;
                   Driver.fail_count := 0 |} w)
      as (st' & files & added & -> & _ & Hok & Hko).
    eexists. split; [reflexivity|]. simpl in Hok, Hko. rewrite Hok, Hko.
    split; [simpl; apply last_snoc | reflexivity].
Qed.

Lemma every_document_is_counted_once_witness :
  let sw := fun t : string => inject_Z (7 * Py.len t) in
  let good := Page (595 # 1) (842 # 1) None in
  let docs := [PdfFile "a.pdf" (Some "not a PDF") [] None;
               PdfFile "b.pdf" None [good] None;
               PdfFile "c.pdf" None [good] (Some WriteFails)] in
  let w := World None None [] ∅ [] in
  exists w',
    Driver.process_all sw "2" 1 (Config.config_of_lines []) docs w = (Return tt, w') /\
    last (log w') = Some (EvSummary 1 2).
Proof.
  intros sw good docs w.
  destruct (every_document_is_counted_once sw (Config.config_of_lines []) "2" 1 docs w
              (config_of_lines_complete []))
    as (_ & w' & Hrun & Hlast & _).
  exists w'. split; [exact Hrun | exact Hlast].
Defined.

(** X9. In continuous mode the counter left at the end of a batch is the
    batch start plus two for every page of every document that was
    processed: failed documents take no numbers, processed ones take exactly
    two per page, and nothing is skipped between them. *)
Theorem continuous_counter_counts_processed_pages
    (stringWidth : string -> Q) (config : gmap string Z) base_start docs w :
  config_complete config ->
  exists st' w',
    Driver.run_batch stringWidth "2" base_start config docs
      {| Driver.next_number := base_start; Driver.success_count := 0;
         Driver.fail_count := 0 |} w
    = (Return st', w') /\
    Driver.next_number st'
    = base_start
      + 2 * Z.of_nat (length (concat (map pages (List.filter healthy docs)))).
Proof.
  intros Hc.
  destruct (run_batch_trace stringWidth config Hc "2" base_start docs
              {| Driver.next_number := base_start; Driver.success_count := 0;
                 Driver.fail_count := 0 |} w)
    as (st' & files & added & Hrun & _).
  exists st'. eexists. split; [exact Hrun|].
  exact (run_batch_final_counter stringWidth config base_start docs Hc _ _ _ _ Hrun).
Qed.

Lemma continuous_counter_counts_processed_pages_witness :
  let sw := fun t : string => inject_Z (7 * Py.len t) in
  let good := Page (595 # 1) (842 # 1) None in
  let bad := Page (595 # 1) (842 # 1) (Some "broken stream") in
  let docs := [PdfFile "a.pdf" None [good; good] None;
               PdfFile "b.pdf" None [good; bad] None;
               PdfFile "c.pdf" None [good; good; good] None] in
  let w := World None None [] ∅ [] in
  exists st' w',
    Driver.run_batch sw "2" 1 (Config.config_of_lines []) docs
      {| Driver.next_number := 1; Driver.success_count := 0;
         Driver.fail_count := 0 |} w
    = (Return st', w') /\
    Driver.next_number st' = 11.
Proof.
  intros sw good bad docs w.
  exact (continuous_counter_counts_processed_pages sw (Config.config_of_lines []) 1
           docs w (config_of_lines_complete [])).
Defined.

(* ===================================================================== *)
(** * Further properties: labels and file names *)
(* ===================================================================== *)

Section LabelFacts.
Import Py.

Lemma uint_digits_all d : all_chars isdigit_char (NilEmpty.string_of_uint d) = true.
Proof. induction d; simpl; auto. Qed.

Lemma uint_value_acc d : forall acc : positive,
  digits_value (Z.pos acc) (NilEmpty.string_of_uint d)
  = Z.pos (Pos.of_uint_acc d acc).
Proof.
  induction d; intros acc; simpl; [reflexivity | ..];
    rewrite <- IHd; f_equal; unfold ord; simpl; lia.
Qed.

Lemma uint_value d :
  digits_value 0 (NilEmpty.string_of_uint d) = Z.of_N (Pos.of_uint d).
Proof.
  induction d; simpl; [reflexivity | exact IHd | ..];
    apply (uint_value_acc d).
Qed.

Lemma pos_digits_value p :
  digits_value 0 (NilEmpty.string_of_uint (Pos.to_uint p)) = Z.pos p.
Proof. now rewrite uint_value, DecimalPos.Unsigned.of_to. Qed.

Lemma zeros_digits k s :
  all_chars isdigit_char s = true ->
  all_chars isdigit_char (zeros k ++ s)%string = true /\
  digits_value 0 (zeros k ++ s)%string = digits_value 0 s.
Proof.
  intros Hs. unfold zeros. induction k as [|k [IH1 IH2]]; simpl; auto.
Qed.

(** The digits of a non-negative number, possibly behind zeros, read back
    as the number. *)
Lemma int_padded_digits k s :
  s <> "" -> all_chars isdigit_char s = true ->
  int (zeros k ++ s)%string = Some (digits_value 0 s).
Proof.
  intros Hne Hs. destruct (zeros_digits k s Hs) as [Hall Hval].
  rewrite <- Hval. apply int_isdigit. unfold isdigit.
  destruct (zeros k ++ s)%string eqn:E; [|exact Hall].
  destruct k; [change (s = "") in E; congruence|].
  change (String "0" (zeros k ++ s) = "") in E. discriminate.
Qed.

Lemma int_minus_digits r :
  r <> "" -> all_chars isdigit_char r = true ->
  int (String "-" r) = Some (- digits_value 0 r).
Proof.
  intros Hne Hr. destruct r as [|c r]; [congruence|].
  assert (strip (String "-" (String c r)) = String "-" (String c r)) as E.
  { unfold strip. change (lstrip (String "-" (String c r)))
      with (String "-" (String c r)).
    change (rstrip (String "-" (String c r)))
      with (match rstrip (String c r) with
            | EmptyString => String "-" EmptyString
            | r' => String "-" r'
            end).
    now rewrite (rstrip_digits _ Hr). }
  unfold int. rewrite E.
  rewrite (int_digits_all 0 false c r Hr). reflexivity.
Qed.

End LabelFacts.

(** X10. Labels can be read back: for every number and every width the
    formatted label parses, with Python's [int], to the number itself.
    Hence two different numbers never get the same label, whatever [DIGITS]
    is. *)
Theorem label_reads_back_as_its_number :
  (forall number digits,
      Py.int (Overlay.format_number number digits) = Some number) /\
  (forall m n digits,
      Overlay.format_number m digits = Overlay.format_number n digits -> m = n).
Proof.
  assert (forall number digits,
             Py.int (Overlay.format_number number digits) = Some number) as Hback.
  { intros number digits. unfold Overlay.format_number, Py.zfill.
    destruct number as [|p|p].
    - change (Py.str 0) with "0".
      destruct (digits <=? Py.len "0"); [reflexivity|].
      change (Ascii.eqb "0" "+" || Ascii.eqb "0" "-") with false. cbv iota.
      now rewrite (int_padded_digits _ "0").
    - unfold Py.str. cbn [Z.to_int NilEmpty.string_of_int].
      pose proof (uint_digits_all (Pos.to_uint p)) as Hall.
      pose proof (pos_digits_value p) as Hval.
      pose proof (Unsigned.to_uint_nonnil p) as Hnil.
      destruct (NilEmpty.string_of_uint (Pos.to_uint p)) as [|c r] eqn:E.
      { destruct (Pos.to_uint p); [congruence | discriminate ..]. }
      assert (int_plain : Py.int (String c r) = Some (Z.pos p)).
      { rewrite <- Hval. apply int_isdigit. exact Hall. }
      destruct (digits <=? Py.len (String c r)); [exact int_plain|].
      pose proof Hall as [Hc _]%andb_prop.
      destruct (digit_not_sign c Hc) as [-> ->]. cbv iota. simpl orb. cbv iota.
      rewrite int_padded_digits; [now rewrite Hval | discriminate | exact Hall].
    - unfold Py.str. cbn [Z.to_int NilEmpty.string_of_int].
      pose proof (uint_digits_all (Pos.to_uint p)) as Hall.
      pose proof (pos_digits_value p) as Hval.
      pose proof (Unsigned.to_uint_nonnil p) as Hnil.
      assert (NilEmpty.string_of_uint (Pos.to_uint p) <> "") as Hne.
      { destruct (Pos.to_uint p); [congruence | discriminate ..]. }
      destruct (digits <=? Py.len (String "-" _)).
      + rewrite int_minus_digits by assumption. now rewrite Hval.
      + change (Ascii.eqb "-" "+" || Ascii.eqb "-" "-") with true. cbv iota.
        destruct (zeros_digits
                    (Z.to_nat (digits
                               - Py.len (String "-"
                                           (NilEmpty.string_of_uint (Pos.to_uint p)))))
                    _ Hall) as [Hall' Hval'].
        rewrite int_minus_digits; [now rewrite Hval', Hval | | exact Hall'].
        intros E. apply (f_equal String.length) in E.
        rewrite length_append in E.
        destruct (NilEmpty.string_of_uint (Pos.to_uint p)); [congruence|].
        simpl in E. lia. }
  split; [exact Hback|].
  intros m n digits H. pose proof (Hback m digits) as Hm.
  rewrite H, Hback in Hm. congruence.
Qed.

Section NameFacts.
Import Py Selector.

Lemma rfind_append c a : forall b,
  rfind c (a ++ b)%string
  = match rfind c b with
    | Some i => Some (String.length a + i)%nat
    | None => rfind c a
    end.
Proof.
  induction a as [|x a IH]; intros b.
  - change ("" ++ b)%string with b. now destruct (rfind c b).
  - rewrite append_cons. cbn [rfind]. rewrite IH.
    destruct (rfind c b); reflexivity.
Qed.

Lemma substring_prefix a : forall b,
  String.substring 0 (String.length a) (a ++ b)%string = a.
Proof.
  induction a as [|x a IH]; intros b.
  - change ("" ++ b)%string with b. now destruct b.
  - rewrite append_cons. simpl. now rewrite IH.
Qed.

Lemma append_cancel_r s : forall a b, (a ++ s = b ++ s)%string -> a = b.
Proof.
  assert (forall x t, String x (t ++ s) <> s) as Hneq.
  { intros x t E. apply (f_equal String.length) in E.
    simpl in E. rewrite length_append in E. lia. }
  induction a as [|x a IH]; intros [|y b] E; try reflexivity.
  - change ("" ++ s)%string with s in E. rewrite append_cons in E.
    symmetry in E. now apply Hneq in E.
  - change ("" ++ s)%string with s in E. rewrite append_cons in E.
    now apply Hneq in E.
  - rewrite !append_cons in E. injection E as -> E. f_equal. now apply IH.
Qed.

Lemma stem_of_pdf base : base <> "" -> stem (base ++ ".pdf") = base.
Proof.
  intros Hne. unfold stem. rewrite rfind_append.
  change (rfind "." ".pdf") with (Some 0%nat). cbv iota.
  rewrite Nat.add_0_r, length_append.
  destruct base as [|c base]; [congruence|].
  replace ((0 <? String.length (String c base))%nat
           && (String.length (String c base)
               <? String.length (String c base) + String.length ".pdf" - 1)%nat)
    with true.
  - apply substring_prefix.
  - symmetry. apply andb_true_intro. split; apply Nat.ltb_lt; simpl; lia.
Qed.

End NameFacts.

(** X11. The numbered copy of [base.pdf] is named [base_numbered.pdf] when
    the base is not empty; the file named just [.pdf] has no suffix, its stem
    is its whole name and its copy is [.pdf_numbered.pdf].  So two files
    whose names end in [.pdf] get the same output name exactly when their
    names are equal or they are the two files [.pdf] and [.pdf.pdf]: apart
    from that one pair, the documents of a batch never overwrite each
    other's output. *)
Theorem output_names_collide_only_for_bare_suffix :
  (forall f base,
      name f = (base ++ ".pdf")%string -> base <> "" ->
      Selector.stem (name f) = base /\
      Driver.output_name f = (base ++ "_numbered.pdf")%string) /\
  (forall f,
      name f = ".pdf" ->
      Selector.stem (name f) = ".pdf" /\
      Driver.output_name f = ".pdf_numbered.pdf") /\
  (forall f g base1 base2,
      name f = (base1 ++ ".pdf")%string ->
      name g = (base2 ++ ".pdf")%string ->
      (Driver.output_name f = Driver.output_name g
       <-> name f = name g
           \/ (name f = ".pdf" /\ name g = ".pdf.pdf")
           \/ (name f = ".pdf.pdf" /\ name g = ".pdf"))).
Proof.
  assert (forall f base,
             name f = (base ++ ".pdf")%string -> base <> "" ->
             Selector.stem (name f) = base /\
             Driver.output_name f = (base ++ "_numbered.pdf")%string) as Hout.
  { intros f base Hn Hb. unfold Driver.output_name.
    rewrite Hn, (stem_of_pdf base Hb). auto. }
  assert (forall f,
             name f = ".pdf" ->
             Selector.stem (name f) = ".pdf" /\
             Driver.output_name f = ".pdf_numbered.pdf") as Hbare.
  { intros f Hn. unfold Driver.output_name. rewrite Hn. split; reflexivity. }
  assert (forall base, (base ++ ".pdf")%string = ".pdf" -> base = "") as Hnil.
  { intros base E. now apply (append_cancel_r ".pdf" base ""). }
  assert (forall base, (base ++ ".pdf")%string = ".pdf.pdf" -> base = ".pdf") as Hdot.
  { intros base E. now apply (append_cancel_r ".pdf" base ".pdf"). }
  split; [exact Hout|]. split; [exact Hbare|].
  intros f g base1 base2 Hf Hg.
  destruct (decide (base1 = "")) as [E1|N1], (decide (base2 = "")) as [E2|N2].
  - (* both are the file [.pdf] *)
    subst. change ("" ++ ".pdf")%string with ".pdf" in Hf, Hg.
    destruct (Hbare f Hf) as [_ ->]. destruct (Hbare g Hg) as [_ ->].
    rewrite Hf, Hg. tauto.
  - (* [.pdf] against [base2.pdf] *)
    subst base1. change ("" ++ ".pdf")%string with ".pdf" in Hf.
    destruct (Hbare f Hf) as [_ ->]. destruct (Hout g base2 Hg N2) as [_ ->].
    rewrite Hf, Hg. split.
    + intros E.
      apply (append_cancel_r "_numbered.pdf" ".pdf" base2) in E. subst base2.
      right. left. split; reflexivity.
    + intros [E | [[_ E] | [E _]]].
      * symmetry in E. apply Hnil in E. congruence.
      * apply Hdot in E. now subst base2.
      * discriminate E.
  - (* [base1.pdf] against [.pdf] *)
    subst base2. change ("" ++ ".pdf")%string with ".pdf" in Hg.
    destruct (Hout f base1 Hf N1) as [_ ->]. destruct (Hbare g Hg) as [_ ->].
    rewrite Hf, Hg. split.
    + intros E.
      apply (append_cancel_r "_numbered.pdf" base1 ".pdf") in E. subst base1.
      right. right. split; reflexivity.
    + intros [E | [[E _] | [E _]]].
      * apply Hnil in E. congruence.
      * apply Hnil in E. congruence.
      * apply Hdot in E. now subst base1.
  - (* two names with a base *)
    destruct (Hout f base1 Hf N1) as [_ ->]. destruct (Hout g base2 Hg N2) as [_ ->].
    rewrite Hf, Hg. split.
    + intros E. apply append_cancel_r in E. subst base2. now left.
    + intros [E | [[E _] | [_ E]]].
      * apply append_cancel_r in E. now subst base2.
      * apply Hnil in E. congruence.
      * apply Hnil in E. congruence.
Qed.

Lemma output_names_collide_only_for_bare_suffix_witness :
  let file := fun n => PdfFile n None [] None in
  (Selector.stem "2024-05.report.pdf" = "2024-05.report" /\
   Driver.output_name (file "2024-05.report.pdf") = "2024-05.report_numbered.pdf") /\
  Driver.output_name (file "a.pdf") <> Driver.output_name (file "b.pdf") /\
  Driver.output_name (file ".pdf") = Driver.output_name (file ".pdf.pdf").
Proof.
  intros file.
  destruct output_names_collide_only_for_bare_suffix as (Hname & _ & Hsame).
  refine (conj _ (conj _ _)).
  - apply (Hname (file "2024-05.report.pdf") "2024-05.report");
      [reflexivity | discriminate].
  - intros E.
    apply (Hsame (file "a.pdf") (file "b.pdf") "a" "b" eq_refl eq_refl) in E.
    destruct E as [E | [[E _] | [E _]]]; discriminate E.
  - apply (Hsame (file ".pdf") (file ".pdf.pdf") "" ".pdf" eq_refl eq_refl).
    right. left. split; reflexivity.
Defined.

(* ===================================================================== *)
(** * Further properties: the order of the files *)
(* ===================================================================== *)

Section KeyOrderFacts.
Import Py Selector.

Lemma string_ltb_connected s t :
  String.ltb s t = false -> String.ltb t s = false -> s = t.
Proof.
  unfold String.ltb. rewrite (String.compare_antisym s t).
  destruct (String.compare t s) eqn:E; simpl; try discriminate.
  intros _ _. symmetry. now apply String.compare_eq_iff.
Qed.

Lemma key_connected a b :
  shaped a -> shaped b -> key_lt a b = false -> key_lt b a = false -> a = b.
Proof.
  unfold shaped, key_lt. destruct a as [ra va], b as [rb vb]. simpl.
  intros Ha Hb. rewrite (Z.eqb_sym rb ra).
  destruct (Z.eqb_spec ra rb) as [->|Hne]; [|lia].
  destruct va as [m|s], vb as [n|t]; simpl; try lia.
  - intros H1 H2. do 2 f_equal. lia.
  - intros H1 H2. do 2 f_equal. now apply string_ltb_connected.
Qed.

Lemma key_lt_trans a b c :
  shaped a -> shaped b -> shaped c ->
  key_lt a b = true -> key_lt b c = true -> key_lt a c = true.
Proof.
  intros Ha Hb Hc Hab Hbc.
  destruct (key_lt a c) eqn:Hac; [reflexivity|].
  assert (key_le c a = true) as Hca by (unfold key_le; now rewrite Hac).
  assert (key_le a b = true) as Hab'
    by (unfold key_le; now rewrite (key_lt_asym _ _ Hab)).
  pose proof (key_le_trans c a b Hc Ha Hb Hca Hab') as Hcb.
  unfold key_le in Hcb. rewrite Hbc in Hcb. discriminate.
Qed.


Lemma ord_inj c d : ord c = ord d -> c = d.
Proof.
  unfold ord. intros H. apply N2Z.inj in H.
  rewrite <- (ascii_N_embedding c), <- (ascii_N_embedding d). now f_equal.
Qed.

Lemma ord_lower_char c :
  ord (lower_char c) = if isupper_char c then ord c + 32 else ord c.
Proof.
  unfold lower_char. destruct (isupper_char c) eqn:E; [|reflexivity].
  unfold isupper_char in E. unfold chr, ord at 1.
  rewrite N_ascii_embedding by lia. lia.
Qed.



End KeyOrderFacts.



(** X13. On the keys of files the comparison used by the sort is a strict
    total order: no key is below itself, the comparison is asymmetric and
    transitive, and two keys neither of which is below the other are equal.
    (A rank-0 key always carries an integer and the others a string, so the
    sort never compares an integer with a string.) *)
Theorem sort_keys_strictly_totally_ordered :
  let key := Selector.extract_prefix_sort_key in
  (forall f,
      match snd (key f) with
      | Selector.PInt _ => fst (key f) = 0
      | Selector.PStr _ => fst (key f) = 1 \/ fst (key f) = 2
      end) /\
  (forall f, Selector.key_lt (key f) (key f) = false) /\
  (forall f g,
      Selector.key_lt (key f) (key g) = true ->
      Selector.key_lt (key g) (key f) = false) /\
  (forall f g h,
      Selector.key_lt (key f) (key g) = true ->
      Selector.key_lt (key g) (key h) = true ->
      Selector.key_lt (key f) (key h) = true) /\
  (forall f g,
      Selector.key_lt (key f) (key g) = false ->
      Selector.key_lt (key g) (key f) = false ->
      key f = key g).
Proof.
  intros key. split; [|split; [|split; [|split]]].
  - intros f. subst key. unfold Selector.extract_prefix_sort_key.
    destruct (Py.isdigit _); [reflexivity|].
    destruct (Selector.alpha_leading _); simpl; auto.
  - intros f. apply key_lt_irrefl.
  - intros f g. apply key_lt_asym.
  - intros f g h. apply key_lt_trans; apply key_shape.
  - intros f g. apply key_connected; apply key_shape.
Qed.

Lemma sort_keys_strictly_totally_ordered_witness :
  let key := Selector.extract_prefix_sort_key in
  let f := PdfFile "9_a.pdf" None [] None in
  let g := PdfFile "10_b.pdf" None [] None in
  let h := PdfFile "a_c.pdf" None [] None in
  Selector.key_lt (key f) (key h) = true.
Proof.
  intros key f g h.
  exact (proj1 (proj2 (proj2 (proj2 sort_keys_strictly_totally_ordered)))
           f g h eq_refl eq_refl).
Defined.

(** X14. When no two discovered files share a sort key, the order in which
    the folder lists them does not matter: every listing of the same files
    is sorted into the same list. *)
Theorem sorted_order_independent_of_listing found1 found2 :
  Permutation found1 found2 ->
  (forall f g,
      f ∈ found1 -> g ∈ found1 ->
      Selector.extract_prefix_sort_key f = Selector.extract_prefix_sort_key g ->
      f = g) ->
  Selector.sorted Selector.extract_prefix_sort_key found1
  = Selector.sorted Selector.extract_prefix_sort_key found2.
Proof.
  intros Hperm Hinj.
  apply (StronglySorted_unique_strong (le_by Selector.extract_prefix_sort_key)).
  - intros f g Hf Hg Hfg Hgf.
    rewrite (sorted_perm _ found1) in Hf.
    rewrite (sorted_perm _ found2), <- Hperm in Hg.
    apply (Hinj f g Hf Hg).
    unfold le_by, Selector.key_le in Hfg, Hgf.
    apply negb_true_iff in Hfg, Hgf.
    apply key_connected; auto using key_shape.
  - apply sorted_sorted, key_shape.
  - apply sorted_sorted, key_shape.
  - now rewrite !sorted_perm.
Qed.

Lemma sorted_order_independent_of_listing_witness :
  let a := PdfFile "2_a.pdf" None [] None in
  let b := PdfFile "10_b.pdf" None [] None in
  let c := PdfFile "notes.pdf" None [] None in
  Selector.sorted Selector.extract_prefix_sort_key [c; b; a]
  = Selector.sorted Selector.extract_prefix_sort_key [b; a; c].
Proof.
  intros a b c.
  apply (sorted_order_independent_of_listing [c; b; a] [b; a; c]).
  - apply (Permutation_cons_app [b; a] [] c). simpl. reflexivity.
  - intros f g Hf Hg.
    rewrite !elem_of_cons, elem_of_nil in Hf, Hg.
    destruct Hf as [->|[->|[->|[]]]], Hg as [->|[->|[->|[]]]];
      intros K; try reflexivity; vm_compute in K; discriminate.
Defined.

Section RankFacts.
Import Py Selector.

Lemma all_chars_Forall (p : ascii -> bool) s :
  all_chars p s = true <-> Forall (fun c => p c = true) (chars s).
Proof.
  unfold chars. induction s as [|c s IH]; simpl.
  - split; [constructor | reflexivity].
  - rewrite andb_true_iff, IH, Forall_cons. reflexivity.
Qed.

Lemma isdigit_char_iff c : isdigit_char c = true <-> ascii_digit c.
Proof. unfold isdigit_char, ascii_digit. rewrite andb_true_iff, !Z.leb_le. tauto. Qed.

Lemma isupper_char_iff c : isupper_char c = true <-> ascii_upper c.
Proof. unfold isupper_char, ascii_upper. rewrite andb_true_iff, !Z.leb_le. tauto. Qed.

Lemma islower_char_iff c : islower_char c = true <-> ascii_lower c.
Proof. unfold islower_char, ascii_lower. rewrite andb_true_iff, !Z.leb_le. tauto. Qed.

Lemma isdigit_iff p :
  isdigit p = true <-> p <> "" /\ Forall ascii_digit (chars p).
Proof.
  assert (Forall (fun c => isdigit_char c = true) (chars p)
          <-> Forall ascii_digit (chars p)) as Hd.
  { apply Forall_iff. intros c. apply isdigit_char_iff. }
  unfold isdigit. destruct p as [|c r].
  - split; [discriminate | intros [H _]; congruence].
  - rewrite all_chars_Forall, Hd. split; [split; [discriminate | assumption] | tauto].
Qed.

Lemma alpha_leading_iff p :
  alpha_leading p = true
  <-> exists c r, p = String c r /\ (ascii_upper c \/ ascii_lower c).
Proof.
  unfold alpha_leading. destruct p as [|c r].
  - split; [discriminate | intros (c & r & H & _); discriminate].
  - unfold isalpha_char. rewrite orb_true_iff, isupper_char_iff, islower_char_iff.
    split.
    + intros H. exists c, r. auto.
    + intros (c' & r' & [= <- <-] & H). exact H.
Qed.

Lemma digits_value_fold s : forall acc,
  digits_value acc s
  = fold_left (fun acc c => 10 * acc + (ord c - 48)) (chars s) acc.
Proof. unfold chars. induction s as [|c s IH]; intros acc; simpl; auto. Qed.

Lemma lower_char_lowered c : lowered_char c (lower_char c).
Proof.
  unfold lowered_char. pose proof (ord_lower_char c) as H.
  destruct (isupper_char c) eqn:E.
  - left. split; [now apply isupper_char_iff | exact H].
  - right. split.
    + rewrite <- isupper_char_iff. congruence.
    + unfold lower_char. now rewrite E.
Qed.

Lemma lower_lowered p : Forall2 lowered_char (chars p) (chars (lower p)).
Proof.
  unfold chars, lower. induction p as [|c p IH]; simpl; constructor;
    [apply lower_char_lowered | exact IH].
Qed.

Lemma insert_names x l :
  map name (insert extract_prefix_sort_key x l)
  = insert name_key (name x) (map name l).
Proof.
  induction l as [|y l IH]; [reflexivity|].
  cbn [insert map].
  change (name_key (name y)) with (extract_prefix_sort_key y).
  change (name_key (name x)) with (extract_prefix_sort_key x).
  destruct (key_lt _ _); cbn [map]; [now rewrite IH | reflexivity].
Qed.

(** The sorted order of files is the sorted order of their names. *)
Lemma sorted_names found :
  map name (sorted extract_prefix_sort_key found)
  = sorted name_key (map name found).
Proof.
  unfold sorted. induction found as [|f found IH]; [reflexivity|].
  cbn [foldr map]. now rewrite insert_names, IH.
Qed.

End RankFacts.

(** X21. The order of the discovered documents, for file names written in
    ASCII.  The prefix of a document is the text of its file-name stem in
    front of the first [_] or [-].  Its sort key has rank 0 exactly when the
    prefix is a non-empty string of the digits 0-9, and the value is then
    the number these digits write, which is also what [int] makes of the
    prefix; rank 1 exactly when the prefix starts with one of the letters
    A-Z or a-z; rank 2 in every other case, in particular for an empty
    prefix, whose key is (2, "").  For ranks 1 and 2 the value is the prefix
    with each capital letter replaced by its small letter and every other
    character kept.  Keys compare by rank first, then numerically (rank 0)
    or lexicographically (ranks 1 and 2).  The list offered for selection is
    the discovered list sorted by that key: a permutation of it in which the
    key of every document is at most the key of every later document.  The
    four file names of the example come out as 20251031.pdf, 20251101_a.pdf,
    B_report.pdf, misc.pdf; in a second folder 9 comes before 10, the letter
    prefixes follow without regard to case (A, a, b, B in discovery order
    among equals), and the names that start with neither come last. *)
Theorem plain_names_sorted_by_prefix_key :
  (* the prefix *)
  (forall stem_name, exists rest,
      stem_name = (Selector.prefix_of stem_name ++ rest)%string /\
      Py.contains_char "_" (Selector.prefix_of stem_name) = false /\
      Py.contains_char "-" (Selector.prefix_of stem_name) = false /\
      (rest = "" \/ Py.startswith_char "_" rest = true
       \/ Py.startswith_char "-" rest = true)) /\
  (* the rank and the value of a key *)
  (forall f,
      plain (name f) = true ->
      let prefix := Selector.prefix_of (Selector.stem (name f)) in
      exists rank value,
        Selector.extract_prefix_sort_key f = (rank, value) /\
        (rank = 0 \/ rank = 1 \/ rank = 2) /\
        (rank = 0 <-> prefix <> "" /\ Forall ascii_digit (chars prefix)) /\
        (rank = 1 <->
         exists c r, prefix = String c r /\ (ascii_upper c \/ ascii_lower c)) /\
        (rank = 0 ->
         value = Selector.PInt (decimal_value (chars prefix)) /\
         Py.int prefix = Some (decimal_value (chars prefix))) /\
        (rank <> 0 ->
         exists lowered,
           value = Selector.PStr lowered /\
           Forall2 lowered_char (chars prefix) (chars lowered))) /\
  (forall f,
      plain (name f) = true ->
      Selector.prefix_of (Selector.stem (name f)) = "" ->
      Selector.extract_prefix_sort_key f = (2, Selector.PStr "")) /\
  (* the order on keys *)
  (forall r1 v1 r2 v2,
      Selector.key_lt (r1, v1) (r2, v2) = true
      <-> r1 < r2 \/ (r1 = r2 /\ Selector.value_lt v1 v2 = true)) /\
  (forall m n, Selector.value_lt (Selector.PInt m) (Selector.PInt n) = (m <? n)) /\
  (forall s t, Selector.value_lt (Selector.PStr s) (Selector.PStr t) = String.ltb s t) /\
  (* the sorted list *)
  (forall found,
      Forall (fun f => plain (name f) = true) found ->
      Permutation (Selector.sorted Selector.extract_prefix_sort_key found) found /\
      StronglySorted (le_by Selector.extract_prefix_sort_key)
        (Selector.sorted Selector.extract_prefix_sort_key found)) /\
  (* it is the list the operator selects from *)
  (forall w found rest,
      plain_input w = true ->
      input_dir w = Some found -> (1 < length found)%nat ->
      stdin w = Line "ALL" :: rest ->
      fst (Selector.find_all_pdfs_with_selection w)
      = Return (Selector.sorted Selector.extract_prefix_sort_key found)) /\
  (* the examples *)
  (forall found,
      map name found = ["20251101_a.pdf"; "B_report.pdf"; "20251031.pdf"; "misc.pdf"] ->
      map name (Selector.sorted Selector.extract_prefix_sort_key found)
      = ["20251031.pdf"; "20251101_a.pdf"; "B_report.pdf"; "misc.pdf"]) /\
  (forall found,
      map name found = ["b_x.pdf"; "_w.pdf"; "A_y.pdf"; "10_r.pdf"; "9_q.pdf";
                        "~z.pdf"; "a_x.pdf"; "B_y.pdf"] ->
      map name (Selector.sorted Selector.extract_prefix_sort_key found)
      = ["9_q.pdf"; "10_r.pdf"; "A_y.pdf"; "a_x.pdf"; "b_x.pdf"; "B_y.pdf";
         "_w.pdf"; "~z.pdf"]).
Proof.
  split; [exact prefix_of_spec|].
  split; [|split; [|split; [|split; [|split; [|split; [|split; [|split]]]]]]].
  - intros f _ prefix.
    destruct (Py.isdigit prefix) eqn:Hd.
    + (* rank 0 *)
      pose proof (proj1 (isdigit_iff prefix) Hd) as [Hne Hall].
      exists 0, (Selector.PInt (Py.digits_value 0 prefix)).
      split; [now apply key_numeric|]. split; [auto|].
      split; [tauto|]. split; [|split].
      * split; [discriminate|]. intros (c & r & E & Hc). exfalso.
        rewrite E in Hall. apply Forall_cons in Hall as [Hc' _].
        unfold ascii_digit, ascii_upper, ascii_lower in *. lia.
      * intros _. rewrite (int_isdigit _ Hd), digits_value_fold. auto.
      * congruence.
    + assert (~ (prefix <> "" /\ Forall ascii_digit (chars prefix))) as Hnd.
      { rewrite <- isdigit_iff. congruence. }
      destruct (Selector.alpha_leading prefix) eqn:Ha.
      * (* rank 1 *)
        exists 1, (Selector.PStr (Py.lower prefix)).
        split; [now apply key_alpha|]. split; [auto|].
        split; [split; [discriminate | tauto]|].
        split; [split; [intros _; now apply alpha_leading_iff | reflexivity]|].
        split; [discriminate|].
        intros _. exists (Py.lower prefix). split; [reflexivity | apply lower_lowered].
      * (* rank 2 *)
        exists 2, (Selector.PStr (Py.lower prefix)).
        split; [now apply key_other|]. split; [auto|].
        split; [split; [discriminate | tauto]|].
        split.
        { split; [discriminate|]. intros H. apply alpha_leading_iff in H. congruence. }
        split; [discriminate|].
        intros _. exists (Py.lower prefix). split; [reflexivity | apply lower_lowered].
  - intros f _ H. rewrite key_other; rewrite H; reflexivity.
  - intros r1 v1 r2 v2. unfold Selector.key_lt. simpl.
    destruct (Z.eqb_spec r1 r2) as [->|Hne].
    + split; [auto | intros [?|[_ ?]]; [lia | assumption]].
    + rewrite Z.ltb_lt. split; [auto | intros [?|[? _]]; [assumption | lia]].
  - reflexivity.
  - reflexivity.
  - intros found _. split; [apply sorted_perm|].
    apply sorted_sorted. exact key_shape.
  - intros w found rest _ Hdir Hlen Hin.
    assert (1 < length (Selector.sorted Selector.extract_prefix_sort_key found))%nat
      as Hlen' by now rewrite (Permutation_length (sorted_perm _ found)).
    rewrite (find_all_run w found "ALL" rest Hdir Hin Hlen').
    reflexivity.
  - intros found H. rewrite sorted_names, H. reflexivity.
  - intros found H. rewrite sorted_names, H. reflexivity.
Qed.

Lemma plain_names_sorted_by_prefix_key_witness :
  let file := fun n => PdfFile n None [] None in
  Selector.extract_prefix_sort_key (file "B_report.pdf")
  = (1, Selector.PStr "b") /\
  Selector.extract_prefix_sort_key (file "0042-scan.pdf")
  = (0, Selector.PInt 42) /\
  Selector.extract_prefix_sort_key (file "_draft.pdf") = (2, Selector.PStr "") /\
  fst (Selector.find_all_pdfs_with_selection
         (World None (Some [file "B_report.pdf"; file "20251031.pdf"])
            [Line "ALL"] ∅ []))
  = Return [file "20251031.pdf"; file "B_report.pdf"] /\
  map name
    (Selector.sorted Selector.extract_prefix_sort_key
       [file "b_x.pdf"; file "_w.pdf"; file "A_y.pdf"; file "10_r.pdf";
        file "9_q.pdf"; file "~z.pdf"; file "a_x.pdf"; file "B_y.pdf"])
  = ["9_q.pdf"; "10_r.pdf"; "A_y.pdf"; "a_x.pdf"; "b_x.pdf"; "B_y.pdf";
     "_w.pdf"; "~z.pdf"].
Proof.
  intros file.
  destruct plain_names_sorted_by_prefix_key
    as (_ & Hkey & Hempty & _ & _ & _ & _ & Hfind & _ & Hex).
  refine (conj _ (conj _ (conj _ (conj _ _)))).
  - destruct (Hkey (file "B_report.pdf") eq_refl)
      as (rank & value & -> & _ & _ & Hone & _ & Hlow).
    assert (rank = 1) as ->.
    { apply Hone. exists "B"%char, "". split; [reflexivity|].
      left. unfold ascii_upper. vm_compute. split; discriminate. }
    destruct (Hlow ltac:(discriminate)) as (lowered & -> & Hl).
    do 2 f_equal.
    destruct lowered as [|d [|e lowered]];
      unfold chars in Hl; simpl in Hl; inversion Hl as [|? ? ? ? Hd Hr]; subst;
      [|inversion Hr].
    destruct Hd as [[_ Hd] | [Hn _]].
    + f_equal. apply ord_inj. rewrite Hd. reflexivity.
    + exfalso. apply Hn. unfold ascii_upper. vm_compute. split; discriminate.
  - destruct (Hkey (file "0042-scan.pdf") eq_refl)
      as (rank & value & -> & _ & Hzero & _ & Hval & _).
    assert (rank = 0) as ->.
    { apply Hzero. split; [discriminate|].
      repeat constructor; vm_compute; discriminate. }
    destruct (Hval eq_refl) as [-> _]. reflexivity.
  - apply Hempty; reflexivity.
  - exact (Hfind
             (World None (Some [file "B_report.pdf"; file "20251031.pdf"])
                [Line "ALL"] ∅ [])
             [file "B_report.pdf"; file "20251031.pdf"]
             [] eq_refl eq_refl ltac:(simpl; lia) eq_refl).
  - apply Hex. reflexivity.
Defined.

(* ===================================================================== *)
(** * Further properties: what is drawn on the written pages *)
(* ===================================================================== *)

Section DrawnFacts.
Import Overlay Driver.
Variable stringWidth : string -> Q.
Variable config : gmap string Z.
Variables x1 y1 x2 y2 digits pad draw_box draw_circle : Z.
Hypothesis HX1 : config !! "X1" = Some x1.
Hypothesis HY1 : config !! "Y1" = Some y1.
Hypothesis HX2 : config !! "X2" = Some x2.
Hypothesis HY2 : config !! "Y2" = Some y2.
Hypothesis HDIGITS : config !! "DIGITS" = Some digits.
Hypothesis HPAD : config !! "PAD" = Some pad.
Hypothesis HBOX : config !! "DRAW_BOX" = Some draw_box.
Hypothesis HCIRCLE : config !! "DRAW_CIRCLE" = Some draw_circle.

Lemma create_number_overlay_run number1 number2 pw ph w :
  create_number_overlay stringWidth number1 number2 config pw ph w
  = (Return
       (label_ops stringWidth draw_box draw_circle pad digits x1 y1 number1
        ++ label_ops stringWidth draw_box draw_circle pad digits x2 y2 number2),
     w).
Proof.
  unfold create_number_overlay, bind.
  rewrite (draw_label_run stringWidth _ _ _ _ _ _ _ _ _ _ _
             HX1 HY1 HDIGITS HBOX HCIRCLE HPAD).
  rewrite (draw_label_run stringWidth _ _ _ _ _ _ _ _ _ _ _
             HX2 HY2 HDIGITS HBOX HCIRCLE HPAD).
  reflexivity.
Qed.

Lemma process_pages_drawn todo : forall page_index current writer w result w',
  process_pages stringWidth config todo page_index current writer w
  = (Return result, w') ->
  Forall (drawn_from_stamp stringWidth draw_box draw_circle pad digits x1 y1 x2 y2)
    writer ->
  Forall (drawn_from_stamp stringWidth draw_box draw_circle pad digits x1 y1 x2 y2)
    (snd result).
Proof.
  induction todo as [|p rest IH]; intros idx cur writer w result w' Hrun Hw.
  - simpl in Hrun. unfold ret in Hrun. now injection Hrun as <- _.
  - cbn [process_pages] in Hrun. unfold bind at 1 in Hrun.
    rewrite (getitem_some _ _ _ _ HDIGITS) in Hrun.
    unfold bind at 1 in Hrun. unfold emit at 1 in Hrun.
    unfold bind at 1 in Hrun. unfold catch, merge_overlay in Hrun.
    unfold bind at 1 in Hrun. rewrite create_number_overlay_run in Hrun.
    destruct (overlay_error p).
    + unfold raise, bind, emit in Hrun. discriminate.
    + unfold ret at 1 in Hrun. apply IH in Hrun; [exact Hrun|].
      apply Forall_app. split; [exact Hw|].
      apply Forall_singleton. reflexivity.
Qed.

Lemma process_pdf_drawn d out start w n w' content :
  process_pdf stringWidth d out start config w = (Return n, w') ->
  output_dir w' !! out = Some (Written content) ->
  Forall (drawn_from_stamp stringWidth draw_box draw_circle pad digits x1 y1 x2 y2)
    content.
Proof.
  unfold process_pdf. unfold bind at 1. unfold emit at 1.
  unfold bind at 1. unfold open_reader.
  destruct (open_error d); [discriminate|]. unfold ret at 1.
  unfold bind at 1. unfold emit at 1. unfold bind at 1.
  destruct (process_pages _ _ _ _ _ _ _) as [[[cur merged]| |] w1] eqn:Hpages;
    try discriminate.
  apply process_pages_drawn in Hpages; [|constructor]. simpl in Hpages.
  unfold write_output. destruct (save_error d) as [[]|].
  - discriminate.
  - unfold bind, store_file, raise. discriminate.
  - unfold bind at 1. unfold store_file. unfold bind at 1.
    rewrite (getitem_some _ _ _ _ HDIGITS).
    unfold bind, emit, ret. intros [= <- <-]. simpl.
    rewrite lookup_insert_eq. now intros [= <-].
Qed.

End DrawnFacts.

(** X15. What a written page shows is what its numbers say: with the eight
    configuration values at hand, the page at 0-based position i of the
    numbered copy of a healthy document carries exactly the drawing calls
    of the label start + 2 i at (X1, Y1) followed by those of the label
    start + 2 i + 1 at (X2, Y2), each label being its optional decoration
    and then its zero-padded text. *)
Theorem written_pages_show_their_numbers
    (stringWidth : string -> Q) (config : gmap string Z)
    x1 y1 x2 y2 digits pad draw_box draw_circle d out start w :
  config !! "X1" = Some x1 -> config !! "Y1" = Some y1 ->
  config !! "X2" = Some x2 -> config !! "Y2" = Some y2 ->
  config !! "DIGITS" = Some digits -> config !! "PAD" = Some pad ->
  config !! "DRAW_BOX" = Some draw_box ->
  config !! "DRAW_CIRCLE" = Some draw_circle ->
  healthy d = true ->
  exists content w',
    Driver.process_pdf stringWidth d out start config w
    = (Return (start + 2 * Z.of_nat (length (pages d))), w') /\
    output_dir w' !! out = Some (Written content) /\
    (forall (i : nat) mp,
        content !! i = Some mp ->
        overlay mp
        = label_ops stringWidth draw_box draw_circle pad digits x1 y1
            (start + 2 * Z.of_nat i)
          ++ label_ops stringWidth draw_box draw_circle pad digits x2 y2
               (start + 2 * Z.of_nat i + 1)).
Proof.
  intros HX1 HY1 HX2 HY2 HD HP HB HC Hh.
  assert (config_complete config) as Hcomplete.
  { intros key Hkey. unfold Config.required in Hkey.
    rewrite !elem_of_cons, elem_of_nil in Hkey.
    destruct Hkey as [->|[->|[->|[->|[->|[->|[->|[->|[]]]]]]]]]; eauto. }
  destruct (process_pdf_healthy stringWidth config Hcomplete d out start w Hh)
    as (merged & evs & Hrun & Hst & _ & _).
  eexists merged, _. split; [exact Hrun|].
  assert (output_dir
            (set_output_dir (<[out := Written merged]> (output_dir w))
               (set_log (log w ++ EvProcessing (name d) out start :: evs) w))
          !! out = Some (Written merged)) as Hout
    by (simpl; apply lookup_insert_eq).
  split; [exact Hout|].
  intros i mp Hi.
  pose proof (process_pdf_drawn stringWidth config x1 y1 x2 y2 digits pad
                draw_box draw_circle HX1 HY1 HX2 HY2 HD HP HB HC
                d out start w _ _ merged Hrun Hout) as Hdrawn.
  rewrite Forall_lookup in Hdrawn. rewrite (Hdrawn i mp Hi).
  pose proof (lookup_lt_Some _ _ _ Hi) as Hlt.
  assert (length merged = length (pages d)) as Hlen
    by (rewrite <- (length_map stamp), Hst; apply label_pairs_length).
  rewrite Hlen in Hlt.
  pose proof (label_pairs_lookup (length (pages d)) start i Hlt) as Hl.
  rewrite <- Hst, list_lookup_fmap, Hi in Hl. simpl in Hl.
  injection Hl as ->. reflexivity.
Qed.

Lemma written_pages_show_their_numbers_witness :
  let sw := fun t : string => inject_Z (7 * Py.len t) in
  let config := Config.config_of_lines ["X1=40"; "Y1=30"; "X2=500"; "Y2=30"; "DIGITS=4"] in
  let good := Page (595 # 1) (842 # 1) None in
  let d := PdfFile "a.pdf" None [good; good] None in
  let w := World None None [] ∅ [] in
  exists content w',
    Driver.process_pdf sw d "a_numbered.pdf" 7 config w = (Return 11, w') /\
    output_dir w' !! "a_numbered.pdf" = Some (Written content) /\
    (forall mp, content !! 1%nat = Some mp ->
        overlay mp = [DrawString (inject_Z 40) (inject_Z 30) "0009";
                      DrawString (inject_Z 500) (inject_Z 30) "0010"]).
Proof.
  intros sw config good d w.
  destruct (written_pages_show_their_numbers sw config 40 30 500 30 4 0 0 0
              d "a_numbered.pdf" 7 w
              eq_refl eq_refl eq_refl eq_refl eq_refl eq_refl eq_refl eq_refl
              eq_refl)
    as (content & w' & Hrun & Hout & Hdrawn).
  exists content, w'. split; [exact Hrun|]. split; [exact Hout|].
  intros mp Hmp. exact (Hdrawn 1%nat mp Hmp).
Defined.

(* ===================================================================== *)
(** * Further properties: the configuration file *)
(* ===================================================================== *)

Section ConfigLineFacts.
Import Py Config.

Lemma last_value_app key l1 : forall l2,
  last_value key (l1 ++ l2)
  = match last_value key l2 with
    | Some v => Some v
    | None => last_value key l1
    end.
Proof.
  induction l1 as [|line l1 IH]; intros l2; simpl.
  - now destruct (last_value key l2).
  - rewrite IH. now destruct (last_value key l2).
Qed.

Lemma lstrip_blank_prefix pre : forall s,
  all_chars isspace pre = true -> lstrip (pre ++ s)%string = lstrip s.
Proof.
  induction pre as [|c pre IH]; intros s H; [reflexivity|].
  simpl in H. apply andb_prop in H as [Hc Hpre].
  rewrite append_cons. simpl. rewrite Hc. now apply IH.
Qed.

Lemma lstrip_blank s : all_chars isspace s = true -> lstrip s = "".
Proof.
  intros H. rewrite <- (append_empty_r s). now rewrite lstrip_blank_prefix.
Qed.

Lemma rstrip_blank s : all_chars isspace s = true -> rstrip s = "".
Proof.
  induction s as [|c s IH]; [reflexivity|]. simpl.
  intros [Hc Hs]%andb_prop. now rewrite (IH Hs), Hc.
Qed.

Lemma rstrip_blank_suffix post : all_chars isspace post = true ->
  forall s, rstrip (s ++ post)%string = rstrip s.
Proof.
  intros H. induction s as [|c s IH].
  - change ("" ++ post)%string with post. now rewrite rstrip_blank.
  - rewrite append_cons. simpl. now rewrite IH.
Qed.

Lemma strip_blank_suffix post : all_chars isspace post = true ->
  forall s, strip (s ++ post)%string = strip s.
Proof.
  intros H. unfold strip. induction s as [|c s IH].
  - change ("" ++ post)%string with post. now rewrite (lstrip_blank post H).
  - rewrite append_cons. simpl. destruct (isspace c); [exact IH|].
    now rewrite <- append_cons, rstrip_blank_suffix.
Qed.

Lemma strip_blanks pre post s :
  all_chars isspace pre = true -> all_chars isspace post = true ->
  strip (pre ++ s ++ post)%string = strip s.
Proof.
  intros Hpre Hpost. rewrite <- (strip_blank_suffix post Hpost s).
  unfold strip. now rewrite lstrip_blank_prefix.
Qed.

End ConfigLineFacts.

(** X16. In [coords.env] the last assignment of a key wins and lines for
    different keys do not interfere: appending a line [key=value] for a
    recognised key gives the same dict with that key set to what the line
    stores, every other key unchanged.  Reading a file whose lines are
    repeated a second time gives the same dict as reading it once. *)
Theorem config_last_assignment_wins :
  (forall lines line key value,
      Config.parse_line line = Some (key, value) -> key ∈ Config.required ->
      Config.config_of_lines (lines ++ [line])
      = <[key := stored_value key value]> (Config.config_of_lines lines)) /\
  (forall lines,
      Config.config_of_lines (lines ++ lines) = Config.config_of_lines lines).
Proof.
  split.
  - intros lines line key value Hline Hkey. apply map_eq. intros k.
    rewrite lookup_insert, !lookup_config_of_lines, last_value_app.
    simpl. rewrite Hline.
    destruct (String.eqb_spec key k) as [->|Hne].
    + rewrite decide_True by reflexivity. now rewrite bool_decide_eq_true_2.
    + rewrite decide_False by exact Hne. reflexivity.
  - intros lines. apply map_eq. intros k.
    rewrite !lookup_config_of_lines, last_value_app.
    now destruct (Config.last_value k lines).
Qed.

Lemma config_last_assignment_wins_witness :
  Config.config_of_lines (["DIGITS=4"; "PAD=2"] ++ ["DIGITS = 6"])
  = <["DIGITS" := 6]> (Config.config_of_lines ["DIGITS=4"; "PAD=2"]).
Proof.
  apply (proj1 config_last_assignment_wins ["DIGITS=4"; "PAD=2"] "DIGITS = 6"
           "DIGITS" "6"); [reflexivity | by_decide].
Defined.

(** X17. Blanks around a line of [coords.env] do not matter: a line read
    with any white space in front of it and behind it (spaces, tabs, the
    line end) is parsed exactly as the bare line, so it changes the dict in
    the same way. *)
Theorem config_lines_ignore_surrounding_blanks pre post line :
  Py.all_chars Py.isspace pre = true -> Py.all_chars Py.isspace post = true ->
  Config.parse_line (pre ++ line ++ post)%string = Config.parse_line line /\
  forall config,
    Config.read_line config (pre ++ line ++ post)%string
    = Config.read_line config line.
Proof.
  intros Hpre Hpost.
  assert (Config.parse_line (pre ++ line ++ post)%string = Config.parse_line line)
    as H by (unfold Config.parse_line; now rewrite strip_blanks).
  split; [exact H|]. intros config. unfold Config.read_line. now rewrite H.
Qed.

Lemma config_lines_ignore_surrounding_blanks_witness :
  Config.parse_line ("  " ++ "X1 = 40" ++ String "009" (String "010" ""))%string
  = Config.parse_line "X1 = 40".
Proof.
  exact (proj1 (config_lines_ignore_surrounding_blanks
                  "  " (String "009" (String "010" "")) "X1 = 40" eq_refl eq_refl)).
Defined.

(* ===================================================================== *)
(** * Further properties: how a document can fail *)
(* ===================================================================== *)

(** X18. With a loaded configuration [process_pdf] has exactly two kinds of
    outcome.  For a healthy document it returns the next start number and
    the output folder holds the complete numbered copy.  For any other
    document it raises an exception and never exits; the output folder is
    then exactly as before when the input could not be read, a page did not
    render, or the output file could not be opened, and only a failure
    while the opened file is being written leaves a truncated file
    behind. *)
Theorem process_pdf_outcomes
    (stringWidth : string -> Q) (config : gmap string Z) d out start w :
  config_complete config ->
  exists o w',
    Driver.process_pdf stringWidth d out start config w = (o, w') /\
    (healthy d = true ->
     o = Return (start + 2 * Z.of_nat (length (pages d))) /\
     exists merged,
       output_dir w' = <[out := Written merged]> (output_dir w) /\
       map source merged = pages d) /\
    (healthy d = false ->
     (exists e, o = Raise e) /\
     (open_error d <> None \/ forallb page_ok (pages d) = false
      \/ save_error d = Some CannotOpen ->
      output_dir w' = output_dir w) /\
     (open_error d = None -> forallb page_ok (pages d) = true ->
      save_error d = Some WriteFails ->
      output_dir w' = <[out := Truncated]> (output_dir w))).
Proof.
  intros Hc. destruct (healthy d) eqn:Hh.
  - destruct (process_pdf_healthy stringWidth config Hc d out start w Hh)
      as (merged & evs & Hrun & _ & Hsrc & _).
    eexists _, _. split; [exact Hrun|]. split; [|discriminate].
    intros _. split; [reflexivity|]. exists merged. auto.
  - unfold healthy in Hh.
    destruct (open_error d) as [msg|] eqn:Eo.
    { eexists (Raise (BackendError msg)), _. split.
      - unfold Driver.process_pdf, bind, emit, Driver.open_reader.
        rewrite Eo. reflexivity.
      - split; [discriminate|]. intros _. split; [eauto|].
        split; [reflexivity | discriminate]. }
    destruct (forallb page_ok (pages d)) eqn:Hp.
    + destruct (save_error d) as [failure|] eqn:Es; [|discriminate].
      unfold Driver.process_pdf. unfold bind at 1. unfold emit at 1.
      unfold bind at 1. unfold Driver.open_reader. rewrite Eo. unfold ret at 1.
      unfold bind at 1. unfold emit at 1. unfold bind at 1.
      destruct (process_pages_ok stringWidth config Hc (pages d) 1 start []
                  (set_log
                     (log (set_log (log w ++ [EvProcessing (name d) out start]) w)
                      ++ [EvPageCount (length (pages d))])
                     (set_log (log w ++ [EvProcessing (name d) out start]) w)) Hp)
        as (merged & evs & -> & _ & _ & _).
      unfold Driver.write_output. rewrite Es. destruct failure.
      * eexists (Raise (BackendError "open")), _.
        split; [reflexivity|]. split; [discriminate|]. intros _.
        split; [eauto|]. split; [reflexivity | discriminate].
      * eexists (Raise (BackendError "write")), _.
        split; [reflexivity|]. split; [discriminate|]. intros _.
        split; [eauto|]. split; [|reflexivity].
        intros [H | [H | H]]; congruence.
    + destruct (process_pdf_page_failure stringWidth config Hc d out start w Eo Hp)
        as (i & msg & evs & Hrun & _).
      eexists _, _. split; [exact Hrun|]. split; [discriminate|]. intros _.
      split; [eauto|]. split; [reflexivity | discriminate].
Qed.

Lemma process_pdf_outcomes_witness :
  let sw := fun t : string => inject_Z (7 * Py.len t) in
  let good := Page (595 # 1) (842 # 1) None in
  let d := PdfFile "a.pdf" None [good] (Some WriteFails) in
  let w := World None None [] ∅ [] in
  exists o w',
    Driver.process_pdf sw d "a_numbered.pdf" 1 (Config.config_of_lines []) w = (o, w') /\
    (exists e, o = Raise e) /\
    output_dir w' = <["a_numbered.pdf" := Truncated]> ∅.
Proof.
  intros sw good d w.
  destruct (process_pdf_outcomes sw (Config.config_of_lines []) d "a_numbered.pdf" 1 w
              (config_of_lines_complete []))
    as (o & w' & Hrun & _ & Hbad).
  destruct (Hbad eq_refl) as (He & _ & Htrunc).
  exists o, w'. split; [exact Hrun|]. split; [exact He|].
  exact (Htrunc eq_refl eq_refl eq_refl).
Defined.

(* ===================================================================== *)
(** * Further properties: how the prompts compose in [main] *)
(* ===================================================================== *)

Section MainFacts.
Import Driver.
Variable stringWidth : string -> Q.

Lemma main_unfold w lines :
  config_file w = Some lines ->
  main stringWidth w
  = (do pdf_list <- Selector.find_all_pdfs_with_selection;
     main_after_selection stringWidth (Config.config_of_lines lines) pdf_list)
      (set_log (log w ++ [EvConfigLoaded (Config.config_of_lines lines)]) w).
Proof.
  intros H. unfold main. unfold bind at 1. unfold Config.load_config.
  rewrite H. reflexivity.
Qed.

Lemma main_after_single config f s rest n w :
  stdin w = Line s :: rest -> accepted_start s = Some n ->
  main_after_selection stringWidth config [f] w
  = process_all stringWidth "1" n config [f]
      (set_stdin rest (set_log (log w ++ [EvMode "1"; EvBaseStart n]) w)).
Proof.
  intros Hin Hs. unfold main_after_selection. unfold bind at 1.
  unfold choose_mode. unfold ret at 1. unfold bind at 1. unfold emit at 1.
  unfold bind at 1. unfold read_base_start. simpl stdin. rewrite Hin.
  rewrite (prompt_start_accepts [] s n rest _ (Forall_nil_2 _) Hs).
  unfold bind at 1. unfold emit at 1. norm_world. reflexivity.
Qed.

Lemma main_after_several config pdf_list m s rest n w :
  length pdf_list <> 1%nat ->
  stdin w = Line m :: Line s :: rest -> accepted_start s = Some n ->
  exists added,
    main_after_selection stringWidth config pdf_list w
    = process_all stringWidth (mode_of_answer m) n config pdf_list
        (set_stdin rest (set_log (log w ++ added) w)).
Proof.
  intros Hlen Hin Hs. unfold main_after_selection. unfold bind at 1.
  assert (exists added0,
             choose_mode pdf_list w
             = (Return (mode_of_answer m),
                set_stdin (Line s :: rest) (set_log (log w ++ added0) w)))
    as [added0 ->].
  { unfold choose_mode, mode_of_answer.
    destruct pdf_list as [|f1 [|f2 r]]; [|simpl in Hlen; lia|];
      unfold bind at 1; unfold input; rewrite Hin;
      (destruct (String.eqb_spec (Py.strip m) "1") as [E1|E1];
       [ rewrite E1; exists []; simpl; unfold ret; rewrite app_nil_r; reflexivity
       | destruct (String.eqb_spec (Py.strip m) "2") as [E2|E2];
         [ rewrite E2; exists []; simpl; unfold ret; rewrite app_nil_r; reflexivity
         | exists [EvDefaultMode]; reflexivity ] ]). }
  unfold bind at 1. unfold emit at 1. unfold bind at 1.
  unfold read_base_start. simpl stdin.
  rewrite (prompt_start_accepts [] s n rest _ (Forall_nil_2 _) Hs).
  unfold bind at 1. unfold emit at 1.
  exists (added0 ++ [EvMode (mode_of_answer m); EvBaseStart n]).
  norm_world. reflexivity.
Qed.

End MainFacts.

(** X19. Picking one file out of several also skips the mode prompt, on
    plain input (the configuration lines, the file names and the typed lines
    are ASCII text): after a valid index at the selection prompt the very
    next line typed is read as the start number, and the chosen file - the
    one at that position of the sorted list - is processed alone in mode
    "1". *)
Theorem picking_one_file_skips_mode_prompt
    (stringWidth : string -> Q) w lines found c s rest num n :
  plain_input w = true ->
  config_file w = Some lines -> input_dir w = Some found ->
  (1 < length found)%nat ->
  stdin w = Line c :: Line s :: rest ->
  Py.int (Py.upper (Py.strip c)) = Some num ->
  1 <= num <= Z.of_nat (length found) ->
  accepted_start s = Some n ->
  exists f added,
    Selector.sorted Selector.extract_prefix_sort_key found !! Z.to_nat (num - 1)
    = Some f /\
    Driver.main stringWidth w
    = Driver.process_all stringWidth "1" n (Config.config_of_lines lines) [f]
        (set_stdin rest (set_log (log w ++ added) w)).
Proof.
  intros _ Hcfg Hdir Hlen Hin Hnum Hrange Hs.
  set (config := Config.config_of_lines lines).
  set (ordered := Selector.sorted Selector.extract_prefix_sort_key found).
  assert (length ordered = length found) as Hl
    by apply (Permutation_length (sorted_perm _ found)).
  rewrite (main_unfold stringWidth w lines Hcfg). fold config.
  unfold bind at 1.
  rewrite (find_all_run (set_log (log w ++ [EvConfigLoaded config]) w)
             found c (Line s :: rest) Hdir Hin ltac:(fold ordered; lia)).
  fold ordered.
  match goal with
  | |- context [Selector.select ordered ?ch ?v] =>
      destruct (select_run ordered ch v) as (selected & added & -> & _ & Hidx & _)
  end.
  destruct (Hidx num Hnum ltac:(lia)) as (f & Hf & -> & ->).
  exists f. eexists. split; [exact Hf|].
  match goal with
  | |- context [main_after_selection _ _ _ ?v] =>
      rewrite (main_after_single stringWidth config f s rest n v eq_refl Hs)
  end.
  norm_world. reflexivity.
Qed.

Lemma picking_one_file_skips_mode_prompt_witness :
  let sw := fun t : string => inject_Z (7 * Py.len t) in
  let a := PdfFile "a_1.pdf" None [] None in
  let b := PdfFile "b_2.pdf" None [] None in
  let w := World (Some []) (Some [b; a]) [Line "2"; Line "2"; Line "9"] ∅ [] in
  exists f added,
    Selector.sorted Selector.extract_prefix_sort_key [b; a] !! 1%nat = Some f /\
    Driver.main sw w
    = Driver.process_all sw "1" 2 (Config.config_of_lines []) [f]
        (set_stdin [Line "9"] (set_log (log w ++ added) w)).
Proof.
  intros sw a b w.
  exact (picking_one_file_skips_mode_prompt sw w [] [b; a] "2" "2" [Line "9"] 2 2
           eq_refl eq_refl eq_refl ltac:(simpl; lia) eq_refl eq_refl
           ltac:(simpl; lia) eq_refl).
Defined.

(** X20. Processing all files of a folder with several PDFs, on plain input
    (the configuration lines, the file names and the typed lines are ASCII
    text): the three prompts are read in the order selection, mode, start
    number; with the answer ALL (in any case, blanks ignored) or an empty
    answer the whole sorted list is processed, in mode "2" when the mode
    answer is 2 and in mode "1" for any other answer, from the accepted
    start number; the lines typed after the three answers stay unread. *)
Theorem processing_all_files_reads_three_answers
    (stringWidth : string -> Q) w lines found c m s rest n :
  plain_input w = true ->
  config_file w = Some lines -> input_dir w = Some found ->
  (1 < length found)%nat ->
  stdin w = Line c :: Line m :: Line s :: rest ->
  Py.upper (Py.strip c) = "ALL" \/ Py.upper (Py.strip c) = "" ->
  accepted_start s = Some n ->
  exists added,
    Driver.main stringWidth w
    = Driver.process_all stringWidth (mode_of_answer m) n
        (Config.config_of_lines lines)
        (Selector.sorted Selector.extract_prefix_sort_key found)
        (set_stdin rest (set_log (log w ++ added) w)).
Proof.
  intros _ Hcfg Hdir Hlen Hin Hall Hs.
  set (config := Config.config_of_lines lines).
  set (ordered := Selector.sorted Selector.extract_prefix_sort_key found).
  assert (length ordered = length found) as Hl
    by apply (Permutation_length (sorted_perm _ found)).
  rewrite (main_unfold stringWidth w lines Hcfg). fold config.
  unfold bind at 1.
  rewrite (find_all_run (set_log (log w ++ [EvConfigLoaded config]) w)
             found c (Line m :: Line s :: rest) Hdir Hin ltac:(fold ordered; lia)).
  fold ordered.
  match goal with
  | |- context [Selector.select ordered ?ch ?v] =>
      destruct (select_run ordered ch v) as (selected & added & -> & Hsel & _)
  end.
  destruct (Hsel Hall) as [-> ->].
  match goal with
  | |- context [main_after_selection _ _ _ ?v] =>
      destruct (main_after_several stringWidth config ordered m s rest n v
                  ltac:(lia) eq_refl Hs) as [added' ->]
  end.
  eexists. norm_world. reflexivity.
Qed.

Lemma processing_all_files_reads_three_answers_witness :
  let sw := fun t : string => inject_Z (7 * Py.len t) in
  let a := PdfFile "a_1.pdf" None [] None in
  let b := PdfFile "b_2.pdf" None [] None in
  let w := World (Some []) (Some [b; a]) [Line " all "; Line "2"; Line ""; Line "x"] ∅ [] in
  exists added,
    Driver.main sw w
    = Driver.process_all sw "2" 1 (Config.config_of_lines []) [a; b]
        (set_stdin [Line "x"] (set_log (log w ++ added) w)).
Proof.
  intros sw a b w.
  exact (processing_all_files_reads_three_answers sw w [] [b; a] " all " "2" ""
           [Line "x"] 1 eq_refl eq_refl eq_refl ltac:(simpl; lia) eq_refl
           (or_introl eq_refl) eq_refl).
Defined.

Lemma label_reads_back_as_its_number_witness :
  Py.int (Overlay.format_number 42 6) = Some 42 /\
  (Overlay.format_number 42 6 = Overlay.format_number 42 6 -> 42 = 42).
Proof.
  split.
  - exact (proj1 label_reads_back_as_its_number 42 6).
  - exact (proj2 label_reads_back_as_its_number 42 42 6).
Defined.
